(** * Funscript generator: signal decimation and tracking pipeline

    A shallow embedding of
      - [funscript_editor/algorithms/signal.py] (class [Signal]) and
      - [funscript_editor/algorithms/funscriptgenerator.py]
        (class [FunscriptGenerator])
    followed by the properties of the motion-extraction pipeline.

    Conventions of the embedding:
      - Python [int] is [Z]; Python [float] is [Q] (exact rationals, rounding
        of IEEE doubles is not modelled); a numpy value that may be [nan] or
        [inf] is a [float64];
      - a Python exception is the [Raise] case of [result];
      - list indexing follows Python: negative indices count from the end,
        anything outside raises [IndexError];
      - objects mutated in place live in an explicit heap. *)

From Stdlib Require Import ZArith QArith Qround Qabs Lqa Lia List Ascii String.
From stdpp Require Import base list strings gmap sorting.

Open Scope Z_scope.

(** ** Exceptions and the error monad *)

Inductive exn : Type :=
| IndexError
| ValueError
| KeyError
| ZeroDivisionError
| NotImplementedError.

Inductive result (A : Type) : Type :=
| Ok (a : A)
| Raise (e : exn).
Arguments Ok {A} a.
Arguments Raise {A} e.

Definition bind {A B : Type} (m : result A) (k : A -> result B) : result B :=
  match m with
  | Ok a => k a
  | Raise e => Raise e
  end.

Notation "'let*' x ':=' m 'in' k" := (bind m (fun x => k))
  (at level 10, x pattern, m at level 100, k at level 200).

Definition raises {A : Type} (m : result A) : Prop :=
  exists e, m = Raise e.

Fixpoint mapM {A B : Type} (f : A -> result B) (l : list A) : result (list B) :=
  match l with
  | [] => Ok []
  | a :: t =>
      let* b := f a in
      let* bs := mapM f t in
      Ok (b :: bs)
  end.

Fixpoint foldM {S X : Type} (f : S -> X -> result S) (l : list X) (s : S)
  : result S :=
  match l with
  | [] => Ok s
  | a :: t => let* s' := f s a in foldM f t s'
  end.

(** ** Python built-ins *)

Module Py.

Definition len {A : Type} (l : list A) : Z := Z.of_nat (length l).

(** [l[i]] *)
Definition getitem {A : Type} (l : list A) (i : Z) : result A :=
  let j := if i <? 0 then i + len l else i in
  if (j <? 0) || (len l <=? j) then Raise IndexError
  else match l !! Z.to_nat j with
       | Some a => Ok a
       | None => Raise IndexError
       end.

(** [del l[i]] *)
Definition delitem {A : Type} (l : list A) (i : Z) : result (list A) :=
  let j := if i <? 0 then i + len l else i in
  if (j <? 0) || (len l <=? j) then Raise IndexError
  else Ok (delete (Z.to_nat j) l).

(** The indices [l[i]] accepts. *)
Definition valid_index {A : Type} (l : list A) (i : Z) : Prop :=
  - len l <= i < len l.

(** [l[a:b]] *)
Definition slice {A : Type} (l : list A) (a b : Z) : list A :=
  let clamp i := if i <? 0 then Z.max (i + len l) 0 else Z.min i (len l) in
  let a' := clamp a in
  let b' := clamp b in
  take (Z.to_nat (b' - a')) (drop (Z.to_nat a') l).

(** [range(n)], [range(a, b)] and [range(a, b, -1)] *)
Definition range (n : Z) : list Z := seqZ 0 n.
Definition range2 (a b : Z) : list Z := seqZ a (b - a).
Definition range_down (a b : Z) : list Z := (fun k => a - k) <$> seqZ 0 (a - b).

Definition Qlt_bool (a b : Q) : bool := negb (Qle_bool b a).

(** [max(l)] and [min(l)]: the first maximal (minimal) element *)
Fixpoint max_from (m : Q) (l : list Q) : Q :=
  match l with
  | [] => m
  | a :: t => max_from (if Qlt_bool m a then a else m) t
  end.

Fixpoint min_from (m : Q) (l : list Q) : Q :=
  match l with
  | [] => m
  | a :: t => min_from (if Qlt_bool a m then a else m) t
  end.

Definition max (l : list Q) : result Q :=
  match l with
  | [] => Raise ValueError
  | a :: t => Ok (max_from a t)
  end.

Definition min (l : list Q) : result Q :=
  match l with
  | [] => Raise ValueError
  | a :: t => Ok (min_from a t)
  end.

(** [min] of a non-empty list of ints *)
Definition minZ (l : list Z) : result Z :=
  match l with
  | [] => Raise ValueError
  | a :: t => Ok (fold_left Z.min t a)
  end.

Definition sum (l : list Q) : Q := fold_left Qplus l 0%Q.

(** [round(q)]: to the nearest integer, ties to the even one *)
Definition round (q : Q) : Z :=
  let f := Qfloor q in
  let r := (q - inject_Z f)%Q in
  if Qlt_bool r (1 # 2) then f
  else if Qlt_bool (1 # 2) r then f + 1
  else if Z.even f then f else f + 1.

(** float [a / b] *)
Definition truediv (a b : Q) : result Q :=
  if Qeq_bool b 0 then Raise ZeroDivisionError else Ok (a / b)%Q.

(** [str.lower()]; only the ASCII letters matter for the literals it is
    compared with *)
Definition lower_ascii (c : ascii) : ascii :=
  let n := Ascii.N_of_ascii c in
  if ((65 <=? n) && (n <=? 90))%N then Ascii.ascii_of_N (n + 32) else c.

Fixpoint lower (s : string) : string :=
  match s with
  | EmptyString => EmptyString
  | String c s' => String (lower_ascii c) (lower s')
  end.

(** [s in [a, b]] for string literals *)
Definition str_in (s : string) (l : list string) : bool :=
  existsb (String.eqb s) l.

(** [all(p(j) for j in l)], stopping at the first false *)
Fixpoint all {X : Type} (p : X -> result bool) (l : list X) : result bool :=
  match l with
  | [] => Ok true
  | j :: t =>
      let* b := p j in
      if b then all p t else Ok false
  end.

(** [bisect.insort(l, x)]: after the last element [<= x] of a sorted [l] *)
Fixpoint insort (l : list Z) (x : Z) : list Z :=
  match l with
  | [] => [x]
  | a :: t => if x <? a then x :: a :: t else a :: insort t x
  end.

(** [l.index(v)] for a given equality test *)
Fixpoint index_from {A : Type} (eqb : A -> A -> bool) (l : list A) (v : A)
    (k : Z) : result Z :=
  match l with
  | [] => Raise ValueError
  | a :: t => if eqb a v then Ok k else index_from eqb t v (k + 1)
  end.

(** [l[i] = v] *)
Definition setitem {A : Type} (l : list A) (i : Z) (v : A) : result (list A) :=
  let j := if i <? 0 then i + len l else i in
  if (j <? 0) || (len l <=? j) then Raise IndexError
  else Ok (<[Z.to_nat j := v]> l).

(** [int(q)]: the integer part, rounded towards zero *)
Definition int (q : Q) : Z :=
  if Qlt_bool q 0 then Qceiling q else Qfloor q.

End Py.

(** ** numpy values and functions *)

Module Np.

(** A double that may be infinite or not a number. *)
Inductive float64 : Type :=
| Fin (q : Q)
| PosInf
| NegInf
| NaN.

Definition fdiv (a b : Q) : float64 :=
  if Qeq_bool b 0 then
    if Qeq_bool a 0 then NaN
    else if Py.Qlt_bool 0 a then PosInf else NegInf
  else Fin (a / b).

Definition fmul (a : Q) (b : float64) : float64 :=
  match b with
  | Fin q => Fin (a * q)
  | PosInf =>
      if Qeq_bool a 0 then NaN else if Py.Qlt_bool 0 a then PosInf else NegInf
  | NegInf =>
      if Qeq_bool a 0 then NaN else if Py.Qlt_bool 0 a then NegInf else PosInf
  | NaN => NaN
  end.

(** [a < b]; every comparison with [nan] is false *)
Definition flt (a b : float64) : bool :=
  match a, b with
  | NaN, _ | _, NaN => false
  | _, NegInf => false
  | NegInf, _ => true
  | PosInf, _ => false
  | Fin _, PosInf => true
  | Fin x, Fin y => Py.Qlt_bool x y
  end.

Definition feq (a b : float64) : bool :=
  match a, b with
  | Fin x, Fin y => Qeq_bool x y
  | PosInf, PosInf | NegInf, NegInf => true
  | _, _ => false
  end.

(** Python's [max] over such values *)
Fixpoint fmax_from (m : float64) (l : list float64) : float64 :=
  match l with
  | [] => m
  | a :: t => fmax_from (if flt m a then a else m) t
  end.

Definition fmax (l : list float64) : result float64 :=
  match l with
  | [] => Raise ValueError
  | a :: t => Ok (fmax_from a t)
  end.

(** A sample as [scale] may receive it: a Python number ([int] or [float])
    or a numpy scalar. The two are compared and subtracted alike; they part
    in a division by zero, where Python raises [ZeroDivisionError] and numpy
    gives [nan] or an infinity. *)
Inductive number : Type :=
| PyNum (q : Q)
| NpNum (q : Q).

Definition value (x : number) : Q :=
  match x with PyNum q | NpNum q => q end.

Definition is_numpy (x : number) : bool :=
  match x with NpNum _ => true | PyNum _ => false end.

(** Python's [min] and [max] over such samples: the first of the smallest
    (largest) ones, as it stands in the list. *)
Fixpoint number_max_from (m : number) (l : list number) : number :=
  match l with
  | [] => m
  | a :: t =>
      number_max_from (if Py.Qlt_bool (value m) (value a) then a else m) t
  end.

Fixpoint number_min_from (m : number) (l : list number) : number :=
  match l with
  | [] => m
  | a :: t =>
      number_min_from (if Py.Qlt_bool (value a) (value m) then a else m) t
  end.

Definition number_max (l : list number) : result number :=
  match l with
  | [] => Raise ValueError
  | a :: t => Ok (number_max_from a t)
  end.

Definition number_min (l : list number) : result number :=
  match l with
  | [] => Raise ValueError
  | a :: t => Ok (number_min_from a t)
  end.

(** [a + b] for a double [a] and a finite [b] *)
Definition fadd (a : float64) (b : Q) : float64 :=
  match a with
  | Fin q => Fin (q + b)
  | other => other
  end.

(** [np.sqrt]: exact on squares of rationals, otherwise the value is
    truncated to a multiple of [2^-64 / den]. *)
Definition sqrt (q : Q) : Q :=
  let r := Qred q in
  let d := Zpos (Qden r) in
  let n := Qnum r in
  Qred (Qmake (Z.sqrt (n * d * 2 ^ 128)) (Z.to_pos (d * 2 ^ 64))).

(** [np.mean] of a non-empty list *)
Definition mean (x : list Q) : Q := (Py.sum x / inject_Z (Py.len x))%Q.

(** [np.std]: population standard deviation; [nan] on the empty list *)
Definition std (x : list Q) : float64 :=
  match x with
  | [] => NaN
  | _ =>
      let m := mean x in
      Fin (sqrt (mean ((fun a => Qabs (a - m) * Qabs (a - m))%Q <$> x)))
  end.

(** [np.diff(x, 1)], on exact rationals. On a list of ints numpy computes
    in [int64]; that wrap-around is not modelled, so a statement on the
    value of a difference bounds the samples. *)
Fixpoint diff (x : list Q) : list Q :=
  match x with
  | a :: (b :: _) as t => (b - a)%Q :: diff t
  | _ => []
  end.

(** [np.convolve(x, np.ones(m), 'valid')] *)
Definition convolve_valid_ones (x : list Q) (m : Z) : result (list Q) :=
  if (m <=? 0) || (Py.len x =? 0) then Raise ValueError
  else if m <=? Py.len x then
    Ok ((fun k => Py.sum (Py.slice x k (k + m))) <$> Py.range (Py.len x - m + 1))
  else
    Ok (replicate (Z.to_nat (m - Py.len x + 1)) (Py.sum x)).

(** [norm(v)] of [numpy.linalg], the Euclidean norm *)
Definition norm (v : list Q) : Q :=
  sqrt (Py.sum ((fun a => a * a)%Q <$> v)).

(** [np.cross] of two vectors of the plane *)
Definition cross (a b : Q * Q) : Q := (fst a * snd b - snd a * fst b)%Q.

Definition vsub (a b : Q * Q) : Q * Q := ((fst a - fst b)%Q, (snd a - snd b)%Q).

(** [np.interp(x, [xp0, xp1], [fp0, fp1])] for [xp0 < xp1]: the end values
    outside of the two points, the line through them in between. *)
Definition interp (x xp0 xp1 fp0 fp1 : Q) : Q :=
  if Qle_bool x xp0 then fp0
  else if Qle_bool xp1 x then fp1
  else (fp0 + (x - xp0) * ((fp1 - fp0) / (xp1 - xp0)))%Q.

End Np.


(** [d[k]] on a dict with string keys *)
Definition dict_get {V : Type} (d : gmap string V) (k : string) : result V :=
  match d !! k with
  | Some v => Ok v
  | None => Raise KeyError
  end.

(** [[a for a in l if p(a)]] *)
Fixpoint filterM {A : Type} (p : A -> result bool) (l : list A)
  : result (list A) :=
  match l with
  | [] => Ok []
  | a :: t =>
      let* b := p a in
      let* r := filterM p t in
      Ok (if b then a :: r else r)
  end.

(** ** [signal.py] *)

Module Signal.

Record signalParameter : Type := {
  avg_sec_for_local_min_max_extraction : Q;
  additional_points_merge_time_threshold_in_ms : Q;
  additional_points_merge_distance_threshold : Q;
  distance_minimization_threshold : Q;
  high_second_derivative_points_threshold : Q;
  direction_change_filter_len : Z
}.

Definition default_parameter : signalParameter := {|
  avg_sec_for_local_min_max_extraction := 2;
  additional_points_merge_time_threshold_in_ms := 110;
  additional_points_merge_distance_threshold := 10;
  distance_minimization_threshold := 20;
  high_second_derivative_points_threshold := 12 # 10;
  direction_change_filter_len := 3
|}.

(** The [Signal] object: [self.params] and [self.fps]. *)
Record t : Type := {
  params : signalParameter;
  fps : Q
}.

Definition init (fps : Q) : t := {| params := default_parameter; fps := fps |}.

(** The window [round(self.fps * self.params.avg_sec_for_local_min_max_extraction)]. *)
Definition avg_window (self : t) : Z :=
  Py.round (fps self * avg_sec_for_local_min_max_extraction (params self)).

(** [moving_average(x, w)]. The window [w] is an [int] at every call site, so
    the leading [w = round(w)] leaves it as it is. *)
Definition moving_average (x : list Q) (w : Z) : result (list Q) :=
  if Py.len x =? 0 then Ok []
  else if Py.len x <=? w + 1 then
    Ok ((fun _ => Np.mean x) <$> Py.range (Py.len x))
  else if w =? 1 then Ok x
  else
    let* conv := Np.convolve_valid_ones x (w * 2) in
    let avg := (fun s => s / inject_Z (w * 2))%Q <$> conv in
    let* head := mapM (fun _ => Py.getitem avg 0) (Py.range w) in
    let* tail :=
      mapM (fun _ => Py.getitem avg (-1)) (Py.range2 (Py.len avg + w) (Py.len x)) in
    Ok (head ++ avg ++ tail).

Definition moving_standard_deviation (x : list Q) (w : Z)
  : result (list Np.float64) :=
  if Py.len x =? 0 then Ok []
  else if Py.len x - w <=? w then
    Ok ((fun _ => Np.std x) <$> Py.range (Py.len x))
  else
    let std :=
      (fun ii => Np.std (Py.slice x (ii - w) (ii + w + 1)))
        <$> Py.range2 w (Py.len x - w) in
    let* head := mapM (fun _ => Py.getitem std 0) (Py.range w) in
    let* tail := mapM (fun _ => Py.getitem std (-1)) (Py.range w) in
    Ok (head ++ std ++ tail).

(** The adjustment of the smoothing window shared by both derivatives. *)
Definition odd_window (w : Z) : Z :=
  let w := if w <? 0 then 1 else w in
  if w mod 2 =? 0 then w + 1 else w.

Definition first_derivative (x : list Q) (w : Z) : result (list Q) :=
  moving_average (Np.diff x) (odd_window w).

Definition second_derivative (x : list Q) (w : Z) : result (list Q) :=
  let w := odd_window w in
  let* d1 := moving_average (Np.diff x) w in
  moving_average (Np.diff d1) w.

(** [scale(signal, lower, upper)]. The quotient
    [(float(upper) - float(lower)) * (x - signal_min) / (signal_max - signal_min)]
    is a division of Python numbers when [x], [signal_min] and [signal_max]
    are Python numbers, and a numpy division as soon as one of them is a
    numpy scalar. Doubles are taken as exact rationals. *)
Definition scale (signal : list Np.number) (lower upper : Q)
  : result (list Np.float64) :=
  if Py.len signal =? 0 then Ok []
  else if Py.len signal =? 1 then Ok [Np.Fin lower]
  else
    let* signal_min := Np.number_min signal in
    let* signal_max := Np.number_max signal in
    mapM (fun x =>
            let numerator :=
              ((upper - lower) * (Np.value x - Np.value signal_min))%Q in
            let denominator :=
              (Np.value signal_max - Np.value signal_min)%Q in
            let* q :=
              if Np.is_numpy x || Np.is_numpy signal_min
                 || Np.is_numpy signal_max
              then Ok (Np.fdiv numerator denominator)
              else
                let* q := Py.truediv numerator denominator in Ok (Np.Fin q) in
            Ok (Np.fadd q lower))
         signal.

(** [find_nearest(array, value, side)], for any kind of number; [le a b] is
    Python's [a <= b]. *)
Section find_nearest.
Context {A : Type} (le : A -> A -> bool).

(** [for i in range(len(array)): if value <= array[i]: break; pos = i] *)
Fixpoint scan_left (array : list A) (value : A) (idxs : list Z) (pos : Z)
  : result Z :=
  match idxs with
  | [] => Ok pos
  | i :: rest =>
      let* a := Py.getitem array i in
      if le value a then Ok pos else scan_left array value rest i
  end.

(** [for i in reversed(range(len(array))): if value >= array[i]: break; pos = i] *)
Fixpoint scan_right (array : list A) (value : A) (idxs : list Z) (pos : Z)
  : result Z :=
  match idxs with
  | [] => Ok pos
  | i :: rest =>
      let* a := Py.getitem array i in
      if le a value then Ok pos else scan_right array value rest i
  end.

Definition find_nearest (array : list A) (value : A) (side : string)
  : result A :=
  if String.eqb (Py.lower side) "left" then
    let* pos := scan_left array value (Py.range (Py.len array)) 0 in
    Py.getitem array pos
  else if String.eqb (Py.lower side) "right" then
    let* pos :=
      scan_right array value (reverse (Py.range (Py.len array)))
                 (Py.len array - 1) in
    Py.getitem array pos
  else Raise NotImplementedError.

End find_nearest.

(** One turn of the loop of [get_high_second_derivative_points]; the state is
    [(changepoints, tmp_max_idx)]. *)
Definition high_second_derivative_step (dx2_abs : list Q)
    (std : list Np.float64) (alpha : Q) (st : list Z * Z) (pos : Z)
  : result (list Z * Z) :=
  let (changepoints, tmp_max_idx) := st in
  let* d := Py.getitem dx2_abs pos in
  let* s := Py.getitem std pos in
  if Np.flt (Np.fmul alpha s) (Np.Fin (Qabs d)) then
    if tmp_max_idx <? 0 then Ok (changepoints, pos)
    else
      let* dm := Py.getitem dx2_abs tmp_max_idx in
      if Qle_bool dm d then Ok (changepoints, pos)
      else Ok (changepoints, tmp_max_idx)
  else if 0 <=? tmp_max_idx then Ok (changepoints ++ [tmp_max_idx], -1)
  else Ok (changepoints, tmp_max_idx).

Definition high_second_derivative_loop (dx2_abs : list Q)
    (std : list Np.float64) (alpha : Q) : result (list Z) :=
  let* (changepoints, _) :=
    foldM (high_second_derivative_step dx2_abs std alpha)
          (Py.range (Py.len dx2_abs)) ([], -1) in
  Ok changepoints.

Definition get_high_second_derivative_points (self : t) (signal : list Q)
    (alpha : Q) : result (list Z) :=
  let* dx2 := second_derivative signal 1 in
  let dx2_abs := Qabs <$> dx2 in
  let* std := moving_standard_deviation dx2 (avg_window self) in
  high_second_derivative_loop dx2_abs std alpha.

(** The heap of list objects that are shared with a caller. *)
Definition loc : Type := positive.
Abbreviation heap := (gmap loc (list Z)).

(** The perpendicular distance used by [get_edge_points] and [merge_points]:
    [norm(np.cross(end - start, start - point)) / norm(end - start)]. *)
Definition distance (start end_ point : Q * Q) : Np.float64 :=
  Np.fdiv (Np.norm [Np.cross (Np.vsub end_ start) (Np.vsub start point)])
          (Np.norm [fst (Np.vsub end_ start); snd (Np.vsub end_ start)]).

(** The [scale] lambda of both functions, from the index range [[p1, p2]] to
    [[min_pos, max_pos]]. *)
Definition scale_index (min_pos max_pos : Q) (p1 p2 x : Z) : result Q :=
  let* q := Py.truediv ((max_pos - min_pos) * inject_Z (x - p1))
                       (inject_Z (p2 - p1)) in
  Ok (q + min_pos)%Q.

(** One turn of the loop of [get_edge_points] over the sorted base points;
    the state is [(edge_points, overall_max_distance)]. The distances are
    exact up to the truncated square root of [Np.sqrt]; where two of them
    tie in one arithmetic and not in the other, the index that [index]
    finds can differ from the code's. *)
Definition edge_points_step (signal : list Q) (base_points : list Z)
    (threshold : Q) (st : list Z * Np.float64) (i : Z)
  : result (list Z * Np.float64) :=
  let (edge_points, overall_max_distance) := st in
  let* a := Py.getitem base_points i in
  let* sa := Py.getitem signal a in
  let* b := Py.getitem base_points (i + 1) in
  let* sb := Py.getitem signal b in
  let min_pos := Py.min_from sa [sb] in
  let max_pos := Py.max_from sa [sb] in
  let start := (min_pos, sa) in
  let end_ := (max_pos, sb) in
  let* distances :=
    mapM (fun j =>
            let* u := scale_index min_pos max_pos a b j in
            let* sj := Py.getitem signal j in
            Ok (distance start end_ (u, sj)))
         (Py.range2 a b) in
  let* max_distance := Np.fmax distances in
  let overall_max_distance :=
    if Np.flt overall_max_distance max_distance then max_distance
    else overall_max_distance in
  if Np.flt (Np.Fin threshold) max_distance then
    let* k := Py.index_from Np.feq distances max_distance 0 in
    Ok (edge_points ++ [a + k], overall_max_distance)
  else Ok (edge_points, overall_max_distance).

(** [get_edge_points(signal, base_points, threshold)]. The argument
    [base_points] is a reference into the heap [h]: [base_points.sort()]
    writes the caller's list. The heap is returned on every exit, also when
    an exception leaves the function. *)
Definition get_edge_points (self : t) (signal : list Q) (base_points : loc)
    (threshold : Q) (h : heap) : result (list Z) * heap :=
  let bp := h !!! base_points in
  if Py.len bp <? 2 then (Ok [], h)
  else
    let sorted := merge_sort Z.le bp in
    let h' := <[base_points := sorted]> h in
    (let* (edge_points, _) :=
       foldM (edge_points_step signal sorted threshold)
             (Py.range (Py.len sorted - 1)) ([], Np.Fin 0) in
     Ok edge_points,
     h').

(** The test of [get_direction_changes] on the [filter_len] steps from [i]:
    all falling, or all rising. *)
Definition monotone_at (signal : list Q) (filter_len : Z) (i : Z)
  : result bool :=
  let* falling :=
    Py.all (fun j =>
              let* a := Py.getitem signal (i + j) in
              let* b := Py.getitem signal (i + j + 1) in
              Ok (Py.Qlt_bool b a))
           (Py.range filter_len) in
  if falling then Ok true
  else
    Py.all (fun j =>
              let* a := Py.getitem signal (i + j) in
              let* b := Py.getitem signal (i + j + 1) in
              Ok (Py.Qlt_bool a b))
           (Py.range filter_len).

(** The loop over [zip(filtered_indexe, direction)]; the state is
    [(changepoints, current_direction)]. *)
Definition direction_step (start_position : Z) (st : list Z * Z)
    (item : Z * Z) : result (list Z * Z) :=
  let (changepoints, current_direction) := st in
  let (idx, direction) := item in
  if negb (direction =? current_direction) then
    Ok (changepoints ++ [idx + start_position], direction)
  else Ok (changepoints, current_direction).

Definition get_direction_changes (signal : list Q) (filter_len : Z)
  : result (list Z) :=
  if Py.len signal <? filter_len then Ok []
  else
    let* filtered_indexe :=
      filterM (monotone_at signal filter_len)
              (Py.range (Py.len signal - filter_len)) in
    if Py.len filtered_indexe <? 2 then Ok []
    else
      let* direction :=
        mapM (fun i =>
                let* fi := Py.getitem filtered_indexe i in
                let* a := Py.getitem signal fi in
                let* fj := Py.getitem filtered_indexe (i + 1) in
                let* b := Py.getitem signal fj in
                Ok (if Py.Qlt_bool b a then -1 else 1))
             (Py.range (Py.len filtered_indexe - 1)) in
      let* start_position := Py.minZ filtered_indexe in
      let* current_direction := Py.getitem direction 0 in
      let* (changepoints, _) :=
        foldM (direction_step start_position)
              (zip filtered_indexe direction) ([], current_direction) in
      Ok changepoints.

(** [max([1, round(fps * threshold_in_ms) / 1000.0])] *)
Definition merge_time_threshold (self : t) : Q :=
  Py.max_from 1
    [(inject_Z (Py.round (fps self *
         additional_points_merge_time_threshold_in_ms (params self))) / 1000)%Q].

(** One turn of the loop of [merge_points]; the state is [merged_points]
    (the counter [merge_counter] is only logged). *)
Definition merge_step (self : t) (signal : list Q) (merged_points : list Z)
    (idx : Z) : result (list Z) :=
  if 0 <? Py.len (filter
                    (fun x => Qle_bool (inject_Z (Z.abs (idx - x)))
                                       (merge_time_threshold self) = true)
                    merged_points)
  then Ok merged_points
  else
    let* p1 := find_nearest Z.leb merged_points idx "left" in
    let* p2 := find_nearest Z.leb merged_points idx "right" in
    if p2 <=? p1 then Ok merged_points
    else
      let* s1 := Py.getitem signal p1 in
      let* s2 := Py.getitem signal p2 in
      let min_pos := Py.min_from s1 [s2] in
      let max_pos := Py.max_from s1 [s2] in
      let start := (min_pos, s1) in
      let end_ := (max_pos, s2) in
      let* u := scale_index min_pos max_pos p1 p2 idx in
      let* si := Py.getitem signal idx in
      if Np.flt (distance start end_ (u, si))
                (Np.Fin (additional_points_merge_distance_threshold (params self)))
      then Ok merged_points
      else Ok (Py.insort merged_points idx).

(** [merge_points] works on a deep copy of [base_points]: the caller's list
    is left alone, so the lists are passed by value. *)
Definition merge_points (self : t) (signal : list Q) (base_points : list Z)
    (additional_points : list Z) : result (list Z) :=
  let merged_points := merge_sort Z.le base_points in
  foldM (merge_step self signal) additional_points merged_points.

(** [grouped_points[key].append(idx)] *)
Definition dict_append (d : gmap string (list Z)) (key : string) (idx : Z)
  : result (gmap string (list Z)) :=
  let* l := dict_get d key in
  Ok (<[key := l ++ [idx]]> d).

Definition categorize_points (self : t) (signal : list Q) (points : list Z)
  : result (gmap string (list Z)) :=
  let* avg := moving_average signal (avg_window self) in
  let* smothed_signal := moving_average signal 3 in
  let grouped_points : gmap string (list Z) :=
    <["min" := []]> (<["max" := []]> ∅) in
  foldM (fun grouped_points idx =>
           let* s := Py.getitem smothed_signal idx in
           let* a := Py.getitem avg idx in
           if Py.Qlt_bool a s then dict_append grouped_points "max" idx
           else dict_append grouped_points "min" idx)
        points grouped_points.

(** One turn of the loop of [get_local_min_max_points]; the state is
    [(points, tmp_min_idx, tmp_max_idx)]. *)
Definition local_min_max_step (smothed_signal avg : list Q)
    (st : list Z * Z * Z) (pos : Z) : result (list Z * Z * Z) :=
  match st with
  | (points, tmp_min_idx, tmp_max_idx) =>
      let* s := Py.getitem smothed_signal pos in
      let* a := Py.getitem avg pos in
      let* (points, tmp_min_idx) :=
        if Py.Qlt_bool s a then
          if tmp_min_idx <? 0 then Ok (points, pos)
          else
            let* sm := Py.getitem smothed_signal tmp_min_idx in
            if Qle_bool s sm then Ok (points, pos) else Ok (points, tmp_min_idx)
        else if 0 <=? tmp_min_idx then Ok (points ++ [tmp_min_idx], -1)
        else Ok (points, tmp_min_idx) in
      let* s := Py.getitem smothed_signal pos in
      let* a := Py.getitem avg pos in
      if Py.Qlt_bool a s then
        if tmp_max_idx <? 0 then Ok (points, tmp_min_idx, pos)
        else
          let* sm := Py.getitem smothed_signal tmp_max_idx in
          if Qle_bool sm s then Ok (points, tmp_min_idx, pos)
          else Ok (points, tmp_min_idx, tmp_max_idx)
      else if 0 <=? tmp_max_idx then Ok (points ++ [tmp_max_idx], tmp_min_idx, -1)
      else Ok (points, tmp_min_idx, tmp_max_idx)
  end.

Definition get_local_min_max_points (self : t) (signal : list Q)
    (filter_len : Z) : result (list Z) :=
  let* avg := moving_average signal (avg_window self) in
  let* smothed_signal := moving_average signal filter_len in
  let* st :=
    foldM (local_min_max_step smothed_signal avg)
          (Py.range (Py.len smothed_signal)) ([], -1, -1) in
  Ok (fst (fst st)).

(** The two enumerations of the decimate process. *)
Inductive BasePointAlgorithm : Type :=
| direction_changes
| local_min_max.

Inductive AdditionalPointAlgorithm : Type :=
| high_second_derivative
| distance_minimization.

(** The base points of [decimate]. *)
Definition decimate_base (self : t) (signal : list Q)
    (base_point_algorithm : BasePointAlgorithm) : result (list Z) :=
  match base_point_algorithm with
  | direction_changes =>
      get_direction_changes signal (direction_change_filter_len (params self))
  | local_min_max => get_local_min_max_points self signal 3
  end.

(** One turn of the loop of [decimate] over the additional algorithms. The
    list [decimated_indexes] is handed to [get_edge_points] as an object: it
    is put at a location of a heap, and read back from there after the
    call, sorted. *)
Definition decimate_step (self : t) (signal : list Q)
    (decimated_indexes : list Z) (algo : AdditionalPointAlgorithm)
  : result (list Z) :=
  let* (additional_indexes, decimated_indexes) :=
    match algo with
    | high_second_derivative =>
        let* a :=
          get_high_second_derivative_points self signal
            (high_second_derivative_points_threshold (params self)) in
        Ok (a, decimated_indexes)
    | distance_minimization =>
        let h : heap := <[1%positive := decimated_indexes]> ∅ in
        let (r, h') :=
          get_edge_points self signal 1%positive
            (distance_minimization_threshold (params self)) h in
        let* a := r in
        Ok (a, h' !!! 1%positive)
    end in
  if 0 <? Py.len additional_indexes then
    merge_points self signal decimated_indexes additional_indexes
  else Ok decimated_indexes.

Definition decimate (self : t) (signal : list Q)
    (base_point_algorithm : BasePointAlgorithm)
    (additional_points_algorithms : list AdditionalPointAlgorithm)
  : result (list Z) :=
  let* decimated_indexes := decimate_base self signal base_point_algorithm in
  foldM (decimate_step self signal) additional_points_algorithms
        decimated_indexes.

End Signal.

(** ** [funscriptgenerator.py] *)

Module FunscriptGenerator.

(** A tracking box [(x, y, w, h)]. *)
Abbreviation bbox := (Q * Q * Q * Q)%type.

(** [b[0]] and [b[1]] *)
Definition item0 (b : bbox) : Q :=
  match b with (x, _, _, _) => x end.
Definition item1 (b : bbox) : Q :=
  match b with (_, y, _, _) => y end.

(** The fields of [FunscriptGeneratorParameter] read by the functions below. *)
Record FunscriptGeneratorParameter : Type := {
  start_frame : Z;
  track_men : bool;
  skip_frames : Z;
  direction : string;
  shift_bottom_points : Z;
  shift_top_points : Z
}.

(** The state of a [FunscriptGenerator] object. *)
Record t : Type := {
  params : FunscriptGeneratorParameter;
  tracking_fps : list Q;
  score : gmap string (list Q);
  bboxes : gmap string (list bbox)
}.

Definition set_bboxes (self : t) (b : gmap string (list bbox)) : t :=
  {| params := params self; tracking_fps := tracking_fps self;
     score := score self; bboxes := b |}.

Definition set_score (self : t) (s : gmap string (list Q)) : t :=
  {| params := params self; tracking_fps := tracking_fps self;
     score := s; bboxes := bboxes self |}.

(** The object after [__init__]. *)
Definition init (p : FunscriptGeneratorParameter) : t := {|
  params := p;
  tracking_fps := [];
  score := <["x" := []]> (<["y" := []]> ∅);
  bboxes := <["Men" := []]> (<["Woman" := []]> ∅)
|}.

(** Modelled from the spec: [sp.scale_signal] of the module
    [funscript_editor.algorithms.signalprocessing], which is not among the
    sources. The spec (4.4) has [calculate_score] end with
    [scale(score.x, 0, 100)] and [scale(score.y, 0, 100)]. Its section 4.1
    gives [scale(x, lo, hi)] as an operation on sequences of real numbers:
    an affine rescale that spans exactly [[lo, hi]], with empty output for
    empty input and [[lo]] for an input of length one; its scenario S3 has
    a constant score become [lo] throughout. *)
Definition scale_signal (signal : list Q) (lower upper : Q) : list Q :=
  match signal with
  | [] => []
  | [_] => [lower]
  | first :: rest =>
      let signal_min := Py.min_from first rest in
      let signal_max := Py.max_from first rest in
      if Qeq_bool signal_max signal_min then (fun _ => lower) <$> signal
      else
        (fun x => (upper - lower) * (x - signal_min)
                  / (signal_max - signal_min) + lower)%Q <$> signal
  end.

Definition calculate_score (self : t) : result t :=
  let* woman := dict_get (bboxes self) "Woman" in
  let* (sx, sy) :=
    if track_men (params self) then
      let* men := dict_get (bboxes self) "Men" in
      Ok ((fun wm => item0 (snd wm) - item0 (fst wm))%Q <$> zip woman men,
          (fun wm => item1 (snd wm) - item1 (fst wm))%Q <$> zip woman men)
    else
      let* sx :=
        mapM (fun w => let* m := Py.max (item0 <$> woman) in Ok (m - item0 w)%Q)
             woman in
      let* sy :=
        mapM (fun w => let* m := Py.max (item1 <$> woman) in Ok (m - item1 w)%Q)
             woman in
      Ok (sx, sy) in
  let sx := scale_signal sx 0 100 in
  let sy := scale_signal sy 0 100 in
  Ok (set_score self (<["y" := sy]> (<["x" := sx]> (score self)))).

(** One turn of the loop of [delete_last_tracking_predictions]:
    [del self.bboxes['Woman'][i]] and, when the second target is tracked,
    [del self.bboxes['Men'][i]]. *)
Definition delete_step (self : t) (i : Z) : result t :=
  let* woman := dict_get (bboxes self) "Woman" in
  let* woman := Py.delitem woman i in
  let self := set_bboxes self (<["Woman" := woman]> (bboxes self)) in
  if track_men (params self) then
    let* men := dict_get (bboxes self) "Men" in
    let* men := Py.delitem men i in
    Ok (set_bboxes self (<["Men" := men]> (bboxes self)))
  else Ok self.

Definition delete_last_tracking_predictions (self : t) (num : Z) : result t :=
  let* woman := dict_get (bboxes self) "Woman" in
  if Py.len woman <=? num - 1 then
    Ok (set_bboxes self (<["Men" := []]> (<["Woman" := []]> (bboxes self))))
  else
    foldM delete_step (Py.range_down (Py.len woman - 1) (Py.len woman - num))
          self.

(** How one turn of the loop of [tracking] ends. *)
Inductive outcome : Type :=
| Continue (self : t)
| Break (status : string) (self : t).

(** The end of one turn of the loop of [tracking]: the results of the
    trackers are awaited, and a lost tracker ends the loop. *)
Definition await_tracker_results (self : t) (successWoman successMen : bool)
  : result outcome :=
  if negb successWoman then
    let* self :=
      delete_last_tracking_predictions self
        ((skip_frames (params self) + 1) * 3) in
    Ok (Break "Tracker Woman Lost" self)
  else if track_men (params self) && negb successMen then
    let* self :=
      delete_last_tracking_predictions self
        ((skip_frames (params self) + 1) * 3) in
    Ok (Break "Tracking Men Lost" self)
  else Ok (Continue self).

(** The shifted frame of [apply_shift] for one of its two guarded branches,
    [None] when the branch falls through. *)
Definition shifted (self : t) (frame_number : Z) (position : string)
    (labels : list string) (shift : Z) : result (option Z) :=
  if Py.str_in position labels
     && negb (String.eqb (direction (params self)) "x") then
    if -1 * shift <=? frame_number then
      let* y := dict_get (score self) "y" in
      if frame_number + shift <? Py.len y then
        Ok (Some (start_frame (params self) + frame_number + shift))
      else Ok None
    else Ok None
  else Ok None.

Definition apply_shift (self : t) (frame_number : Z) (position : string)
  : result Z :=
  let* top :=
    shifted self frame_number position ["max"; "top"]
            (shift_top_points (params self)) in
  match top with
  | Some r => Ok r
  | None =>
      let* bottom :=
        shifted self frame_number position ["min"; "bottom"]
                (shift_bottom_points (params self)) in
      match bottom with
      | Some r => Ok r
      | None => Ok (start_frame (params self) + frame_number)
      end
  end.

(** [get_average_tracking_fps]. The mean is exact here; the code's is a
    double, rounded after every addition and after the division. *)
Definition get_average_tracking_fps (self : t) : Q :=
  if Py.len (tracking_fps self) <? 1 then 1%Q
  else (Py.sum (tracking_fps self) / inject_Z (Py.len (tracking_fps self)))%Q.

(** The four coordinates of a box interpolated at step [i] between the last
    recorded box and [bbox]. *)
Definition interpolate_bbox (skip_frames i : Z) (last b : bbox) : bbox :=
  match last, b with
  | (lx, ly, lw, lh), (x, y, w, h) =>
      let at_i := Np.interp (inject_Z i) 0 (inject_Z (skip_frames + 1)) in
      (at_i lx x, at_i ly y, at_i lw w, at_i lh h)
  end.

(** One turn of the loop of [append_interpolated_bbox]: the last box is read
    again from the trajectory at every turn. *)
Definition interpolation_step (bbox_new : bbox) (target : string) (self : t)
    (i : Z) : result t :=
  let* boxes := dict_get (bboxes self) target in
  let* last := Py.getitem boxes (-1) in
  let b := interpolate_bbox (skip_frames (params self)) i last bbox_new in
  Ok (set_bboxes self (<[target := boxes ++ [b]]> (bboxes self))).

Definition append_interpolated_bbox (self : t) (bbox_new : bbox)
    (target : string) : result t :=
  let* self :=
    if 0 <? skip_frames (params self) then
      let* boxes := dict_get (bboxes self) target in
      if 0 <? Py.len boxes then
        foldM (interpolation_step bbox_new target)
              (Py.range2 1 (skip_frames (params self) + 1)) self
      else Ok self
    else Ok self in
  let* boxes := dict_get (bboxes self) target in
  Ok (set_bboxes self (<[target := boxes ++ [bbox_new]]> (bboxes self))).

(** The branch of the loop of [tracking] taken when the operator pressed
    [q]. *)
Definition stop_by_user (self : t) : result outcome :=
  let* self :=
    delete_last_tracking_predictions self
      (Py.int (get_average_tracking_fps self + 1) * 3) in
  Ok (Break "Tracking stopped by user" self).

(** [get_score_with_offset(idx_dict)]. The two offsets are the fields
    [bottom_points_offset] and [top_points_offset] of [self.params]. *)
Definition offset_step (score_min score_max offset : Q) (score : list Q)
    (idx : Z) : result (list Q) :=
  let* v := Py.getitem score idx in
  Py.setitem score idx
    (Py.max_from score_min [Py.min_from score_max [(v + offset)%Q]]).

Definition get_score_with_offset (self : t)
    (bottom_points_offset top_points_offset : Q)
    (idx_dict : gmap string (list Z)) : result (list Q) :=
  if String.eqb (direction (params self)) "x" then dict_get (score self) "x"
  else
    let* score := dict_get (score self) "y" in
    let* score_min := Py.min score in
    let* score_max := Py.max score in
    let* mins := dict_get idx_dict "min" in
    let* score :=
      foldM (offset_step score_min score_max bottom_points_offset) mins score in
    let* maxs := dict_get idx_dict "max" in
    foldM (offset_step score_min score_max top_points_offset) maxs score.

(** The key press queue, [Queue(maxsize=32)]. A queued key is kept as the
    text that ['{0}'.format(key)] gives for it. *)
Definition keypress_maxsize : nat := 32.

(** [on_key_press(key)] *)
Definition on_key_press (queue : list string) (key : string) : list string :=
  if bool_decide (keypress_maxsize <= length queue)%nat then queue
  else queue ++ [key].

(** [clear_keypress_queue()] *)
Fixpoint clear_keypress_queue (queue : list string) : list string :=
  match queue with
  | [] => []
  | _ :: rest => clear_keypress_queue rest
  end.

(** The loop shared by [was_key_pressed] and [was_space_pressed]: keys are
    taken from the queue until one reads as [text]. *)
Fixpoint take_until (text : string) (queue : list string)
  : bool * list string :=
  match queue with
  | [] => (false, [])
  | k :: rest => if String.eqb k text then (true, rest) else take_until text rest
  end.

(** [was_key_pressed(key)]; [None] is Python's [None]. *)
Definition was_key_pressed (queue : list string) (key : option string)
  : bool * list string :=
  match key with
  | None => (false, queue)
  | Some EmptyString => (false, queue)
  | Some (String c _) =>
      take_until (String "'" (String c (String "'" EmptyString))) queue
  end.

(** [was_space_pressed()] *)
Definition was_space_pressed (queue : list string) : bool * list string :=
  take_until "Key.space" queue.

End FunscriptGenerator.

(** ** Vocabulary of the statements on [get_high_second_derivative_points] *)

Module Runs.

(** The test of the loop at a position:
    [abs(dx2_abs[pos]) > alpha * std[pos]]. *)
Definition exceeds (dx2_abs : list Q) (std : list Np.float64) (alpha : Q)
    (pos : nat) : bool :=
  match dx2_abs !! pos, std !! pos with
  | Some d, Some s => Np.flt (Np.fmul alpha s) (Np.Fin (Qabs d))
  | _, _ => false
  end.

(** The positions [a, ..., b - 1] all pass the test [E], and the run cannot
    be extended to the left. *)
Definition open_run (E : nat -> bool) (a b : nat) : Prop :=
  (a < b)%nat
  /\ (forall i, (a <= i < b)%nat -> E i = true)
  /\ (a = 0%nat \/ E (a - 1)%nat = false).

(** A maximal run that is followed by a position [b] failing the test. *)
Definition closed_run (E : nat -> bool) (a b : nat) : Prop :=
  open_run E a b /\ E b = false.

(** [m] is the position of the maximum of [d] over [a, ..., b - 1], the
    last one when the maximum is reached several times. *)
Definition last_argmax (d : list Q) (a b m : nat) : Prop :=
  (a <= m < b)%nat
  /\ (forall i, (a <= i < b)%nat -> (nth i d 0 <= nth m d 0)%Q)
  /\ (forall i, (m < i < b)%nat -> (nth i d 0 < nth m d 0)%Q).

(** The state [(changepoints, tmp_max_idx)] of the loop before position
    [k]: the change points are the last maxima of the runs closed so far, in
    ascending order, and [tmp_max_idx] is the last maximum of the run that
    is still open, or [-1] when there is none. *)
Definition invariant (E : nat -> bool) (d : list Q) (k : nat)
    (st : list Z * Z) : Prop :=
  let (cp, tmp) := st in
  (forall m : Z, m ∈ cp <->
     exists a b t, m = Z.of_nat t /\ closed_run E a b /\ (b < k)%nat
                   /\ last_argmax d a b t)
  /\ StronglySorted Z.lt cp
  /\ ((tmp = -1 /\ (k = 0%nat \/ E (k - 1)%nat = false))
      \/ (exists a t, tmp = Z.of_nat t /\ open_run E a k
                      /\ last_argmax d a k t)).

End Runs.

(** ** Vocabulary of the statements on [get_local_min_max_points] *)

Module Extrema.

(** The smoothed signal is strictly below (above) the average at [p]. *)
Definition below (smothed_signal avg : list Q) (p : Z) : Prop :=
  exists s a, Py.getitem smothed_signal p = Ok s /\ Py.getitem avg p = Ok a
              /\ (s < a)%Q.

Definition above (smothed_signal avg : list Q) (p : Z) : Prop :=
  exists s a, Py.getitem smothed_signal p = Ok s /\ Py.getitem avg p = Ok a
              /\ (a < s)%Q.

(** The state [(points, tmp_min_idx, tmp_max_idx)] of the loop before
    position [k]: the points are ascending positions left behind where the
    smoothed signal differs from the average, and at most one candidate is
    pending, later than every point. *)
Definition invariant (smothed_signal avg : list Q) (k : Z)
    (st : list Z * Z * Z) : Prop :=
  match st with
  | (points, tmp_min_idx, tmp_max_idx) =>
      Forall (fun p => 0 <= p /\ p + 1 < k
                       /\ (below smothed_signal avg p
                           \/ above smothed_signal avg p)) points
      /\ StronglySorted Z.lt points
      /\ exists bound,
           0 <= bound <= k
           /\ Forall (fun p => p < bound) points
           /\ ((tmp_min_idx = -1 /\ tmp_max_idx = -1)
               \/ (bound <= tmp_min_idx < k /\ tmp_max_idx = -1
                   /\ below smothed_signal avg tmp_min_idx)
               \/ (bound <= tmp_max_idx < k /\ tmp_min_idx = -1
                   /\ above smothed_signal avg tmp_max_idx))
  end.

End Extrema.

(** * Properties *)

(** ** Facts on the Python built-ins *)

Lemma bind_Ok {A B : Type} (m : result A) (k : A -> result B) (b : B) :
  bind m k = Ok b -> exists a, m = Ok a /\ k a = Ok b.
Proof. destruct m as [a|e]; simpl; [eauto | discriminate]. Qed.

Lemma len_nonneg {A : Type} (l : list A) : 0 <= Py.len l.
Proof. unfold Py.len. lia. Qed.

Lemma getitem_nonneg {A : Type} (l : list A) (i : Z) :
  0 <= i < Py.len l ->
  exists a, Py.getitem l i = Ok a /\ l !! Z.to_nat i = Some a.
Proof.
  intros Hi. unfold Py.getitem.
  destruct (Z.ltb_spec i 0) as [?|_]; [lia|].
  destruct (Z.ltb_spec i 0) as [?|_]; [lia|].
  destruct (Z.leb_spec (Py.len l) i) as [?|_]; [lia|]. simpl.
  destruct (lookup_lt_is_Some_2 l (Z.to_nat i)) as [a Ha].
  { unfold Py.len in Hi. lia. }
  rewrite Ha. eauto.
Qed.

Lemma getitem_negative {A : Type} (l : list A) (i : Z) :
  - Py.len l <= i < 0 ->
  exists a, Py.getitem l i = Ok a /\ l !! Z.to_nat (i + Py.len l) = Some a.
Proof.
  intros Hi. unfold Py.getitem.
  destruct (Z.ltb_spec i 0) as [_|?]; [|lia].
  destruct (Z.ltb_spec (i + Py.len l) 0) as [?|_]; [lia|].
  destruct (Z.leb_spec (Py.len l) (i + Py.len l)) as [?|_]; [lia|]. simpl.
  destruct (lookup_lt_is_Some_2 l (Z.to_nat (i + Py.len l))) as [a Ha].
  { unfold Py.len in *. lia. }
  rewrite Ha. eauto.
Qed.

Lemma getitem_valid {A : Type} (l : list A) (i : Z) :
  - Py.len l <= i < Py.len l -> exists a, Py.getitem l i = Ok a.
Proof.
  intros Hi. destruct (Z.lt_ge_cases i 0).
  - destruct (getitem_negative l i) as (a & Ha & _); [lia|eauto].
  - destruct (getitem_nonneg l i) as (a & Ha & _); [lia|eauto].
Qed.

Lemma getitem_Ok {A : Type} (l : list A) (i : Z) (a : A) :
  Py.getitem l i = Ok a ->
  - Py.len l <= i < Py.len l /\
  l !! Z.to_nat (if i <? 0 then i + Py.len l else i) = Some a.
Proof.
  unfold Py.getitem.
  set (j := if i <? 0 then i + Py.len l else i).
  destruct (j <? 0) eqn:Hlo; simpl; [discriminate|].
  destruct (Py.len l <=? j) eqn:Hhi; simpl; [discriminate|].
  destruct (l !! Z.to_nat j) as [b|] eqn:Hb; [|discriminate].
  intros [= ->]. split; [|done].
  apply Z.ltb_ge in Hlo. apply Z.leb_gt in Hhi.
  subst j. destruct (Z.ltb_spec i 0); lia.
Qed.

Lemma getitem_elem_of {A : Type} (l : list A) (i : Z) (a : A) :
  Py.getitem l i = Ok a -> a ∈ l.
Proof.
  intros H. apply getitem_Ok in H as [_ H].
  eapply list_elem_of_lookup_2; eauto.
Qed.

Lemma getitem_nonneg_Ok {A : Type} (l : list A) (i : Z) (a : A) :
  0 <= i -> Py.getitem l i = Ok a -> l !! Z.to_nat i = Some a.
Proof.
  intros Hi H. apply getitem_Ok in H as [_ H].
  destruct (Z.ltb_spec i 0); [lia|done].
Qed.

Lemma range_cons (n : Z) : 0 < n -> Py.range n = 0 :: seqZ 1 (n - 1).
Proof.
  intros Hn. unfold Py.range. rewrite seqZ_cons by lia. reflexivity.
Qed.

Lemma range_Forall (n : Z) : Forall (fun i => 0 <= i < n) (Py.range n).
Proof.
  apply Forall_forall. intros i Hi.
  unfold Py.range in Hi. apply elem_of_seqZ in Hi. lia.
Qed.

(** ** [find_nearest] *)

Section find_nearest_facts.
Context {A : Type} (le : A -> A -> bool).

Lemma scan_left_in_range (array : list A) (value : A) (idxs : list Z) (pos : Z) :
  Forall (fun i => 0 <= i < Py.len array) idxs ->
  0 <= pos < Py.len array ->
  exists p, Signal.scan_left le array value idxs pos = Ok p
            /\ 0 <= p < Py.len array.
Proof.
  intros Hidxs. revert pos.
  induction Hidxs as [|i rest Hi _ IH]; intros pos Hpos; simpl; [eauto|].
  destruct (getitem_nonneg array i Hi) as (a & -> & _). simpl.
  destruct (le value a); eauto.
Qed.

Lemma scan_right_in_range (array : list A) (value : A) (idxs : list Z) (pos : Z) :
  Forall (fun i => 0 <= i < Py.len array) idxs ->
  0 <= pos < Py.len array ->
  exists p, Signal.scan_right le array value idxs pos = Ok p
            /\ 0 <= p < Py.len array.
Proof.
  intros Hidxs. revert pos.
  induction Hidxs as [|i rest Hi _ IH]; intros pos Hpos; simpl; [eauto|].
  destruct (getitem_nonneg array i Hi) as (a & -> & _). simpl.
  destruct (le a value); eauto.
Qed.

Lemma find_nearest_left (array : list A) (value : A) (side : string) :
  array <> [] -> Py.lower side = "left"%string ->
  exists a, Signal.find_nearest le array value side = Ok a /\ a ∈ array.
Proof.
  intros Hne Hside. unfold Signal.find_nearest. rewrite Hside. simpl.
  assert (0 < Py.len array) by (destruct array; [done|unfold Py.len; simpl; lia]).
  destruct (scan_left_in_range array value (Py.range (Py.len array)) 0)
    as (p & -> & Hp); [apply range_Forall|lia|]. simpl.
  destruct (getitem_nonneg array p Hp) as (a & Ha & _).
  exists a. split; [done|]. by eapply getitem_elem_of.
Qed.

Lemma find_nearest_right (array : list A) (value : A) (side : string) :
  array <> [] -> Py.lower side = "right"%string ->
  exists a, Signal.find_nearest le array value side = Ok a /\ a ∈ array.
Proof.
  intros Hne Hside. unfold Signal.find_nearest. rewrite Hside. simpl.
  assert (0 < Py.len array) by (destruct array; [done|unfold Py.len; simpl; lia]).
  destruct (scan_right_in_range array value (reverse (Py.range (Py.len array)))
              (Py.len array - 1))
    as (p & -> & Hp); [apply Forall_reverse, range_Forall|lia|]. simpl.
  destruct (getitem_nonneg array p Hp) as (a & Ha & _).
  exists a. split; [done|]. by eapply getitem_elem_of.
Qed.

(** When already the first element is not below the value, [left] answers
    with the first element. *)
Lemma find_nearest_left_endpoint (a0 : A) (rest : list A) (value : A) :
  le value a0 = true ->
  Signal.find_nearest le (a0 :: rest) value "left" = Ok a0.
Proof.
  intros Hle. unfold Signal.find_nearest. cbn [Py.lower String.eqb].
  change (Py.lower "left" =? "left")%string with true. cbv iota.
  rewrite range_cons by (unfold Py.len; simpl; lia).
  cbn [Signal.scan_left].
  change (Py.getitem (a0 :: rest) 0) with (Ok a0).
  cbn [bind]. rewrite Hle. reflexivity.
Qed.

(** When already the last element is not above the value, [right] answers
    with the last element. *)
Lemma find_nearest_right_endpoint (front : list A) (an : A) (value : A) :
  le an value = true ->
  Signal.find_nearest le (front ++ [an]) value "right" = Ok an.
Proof.
  intros Hle. unfold Signal.find_nearest.
  change (Py.lower "right" =? "left")%string with false.
  change (Py.lower "right" =? "right")%string with true. cbv iota.
  assert (Hlen : Py.len (front ++ [an]) = Py.len front + 1).
  { unfold Py.len. rewrite length_app. simpl. lia. }
  assert (Hlast : Py.getitem (front ++ [an]) (Py.len front) = Ok an).
  { destruct (getitem_nonneg (front ++ [an]) (Py.len front)) as (a & Ha & Hl).
    { pose proof (len_nonneg front). lia. }
    rewrite Ha. f_equal.
    unfold Py.len in Hl. rewrite Nat2Z.id in Hl.
    rewrite lookup_app_r in Hl by lia.
    rewrite Nat.sub_diag in Hl. simpl in Hl. congruence. }
  rewrite Hlen. unfold Py.range.
  rewrite seqZ_app by (pose proof (len_nonneg front); lia).
  rewrite reverse_app. simpl. replace (0 + Py.len front) with (Py.len front) by lia.
  change (seqZ (Py.len front) 1) with [Py.len front].
  change (Z.of_nat 0 + Py.len front) with (Py.len front).
  rewrite Hlast. simpl. rewrite Hle.
  replace (Py.len front + 1 - 1) with (Py.len front) by lia.
  exact Hlast.
Qed.

End find_nearest_facts.

(** C9, as the code has it: on a non-empty list [find_nearest] raises exactly
    when the lower-cased side is neither [left] nor [right] (the side is
    compared case-insensitively), and for such a side it returns an element
    of the list; when no element satisfies the side condition the answer is
    the nearest endpoint. *)
Theorem find_nearest_raises_iff {A : Type} (le : A -> A -> bool)
    (array : list A) (value : A) (side : string) :
  array <> [] ->
  (raises (Signal.find_nearest le array value side) <->
     Py.lower side <> "left"%string /\ Py.lower side <> "right"%string)
  /\ (Py.lower side = "left"%string \/ Py.lower side = "right"%string ->
      exists a, Signal.find_nearest le array value side = Ok a /\ a ∈ array)
  /\ (forall a0 rest, array = a0 :: rest -> le value a0 = true ->
      Signal.find_nearest le array value "left" = Ok a0)
  /\ (forall front an, array = front ++ [an] -> le an value = true ->
      Signal.find_nearest le array value "right" = Ok an).
Proof.
  intros Hne. split; [|split; [|split]].
  - split.
    + intros [e He]. split; intros Hs.
      * destruct (find_nearest_left le array value side Hne Hs) as (a & Ha & _).
        congruence.
      * destruct (find_nearest_right le array value side Hne Hs) as (a & Ha & _).
        congruence.
    + intros [Hl Hr]. exists NotImplementedError. unfold Signal.find_nearest.
      destruct (String.eqb_spec (Py.lower side) "left"); [done|].
      destruct (String.eqb_spec (Py.lower side) "right"); [done|]. reflexivity.
  - intros [Hs|Hs]; [by apply find_nearest_left | by apply find_nearest_right].
  - intros a0 rest -> Hle. by apply find_nearest_left_endpoint.
  - intros front an -> Hle. by apply find_nearest_right_endpoint.
Qed.

Lemma find_nearest_raises_iff_witness :
  (raises (Signal.find_nearest Z.leb [1; 5; 9] 5 "LEFT") <->
     Py.lower "LEFT" <> "left"%string /\ Py.lower "LEFT" <> "right"%string)
  /\ (Py.lower "LEFT" = "left"%string \/ Py.lower "LEFT" = "right"%string ->
      exists a, Signal.find_nearest Z.leb [1; 5; 9] 5 "LEFT" = Ok a
                /\ a ∈ [1; 5; 9])
  /\ (forall a0 rest, [1; 5; 9] = a0 :: rest -> Z.leb 5 a0 = true ->
      Signal.find_nearest Z.leb [1; 5; 9] 5 "left" = Ok a0)
  /\ (forall front an, [1; 5; 9] = front ++ [an] -> Z.leb an 5 = true ->
      Signal.find_nearest Z.leb [1; 5; 9] 5 "right" = Ok an).
Proof.
  apply (find_nearest_raises_iff Z.leb [1; 5; 9] 5 "LEFT"). discriminate.
Defined.

(** C9 as stated fails: the side [LEFT] is neither [left] nor [right], and
    [find_nearest] answers instead of raising. *)
Lemma find_nearest_uppercase_side :
  ~ (forall side : string,
       raises (Signal.find_nearest Z.leb [1; 5; 9] 5 side) <->
       side <> "left"%string /\ side <> "right"%string).
Proof.
  intros H. destruct (H "LEFT"%string) as [_ H2].
  destruct H2 as [e He]; [split; discriminate|].
  vm_compute in He. discriminate.
Qed.

(** ** [apply_shift] *)

Lemma shifted_None (self : FunscriptGenerator.t) (i : Z) (position : string)
    (labels : list string) (shift : Z) (y : list Q) :
  FunscriptGenerator.score self !! "y" = Some y ->
  Py.str_in position labels = false
  \/ FunscriptGenerator.direction (FunscriptGenerator.params self) = "x"%string
  \/ ~ (0 <= i + shift < Py.len y) ->
  FunscriptGenerator.shifted self i position labels shift = Ok None.
Proof.
  intros Hy H. unfold FunscriptGenerator.shifted, dict_get. rewrite Hy.
  destruct (Py.str_in position labels); simpl; [|done].
  destruct (String.eqb_spec
              (FunscriptGenerator.direction (FunscriptGenerator.params self)) "x");
    simpl; [done|].
  destruct (Z.leb_spec (-1 * shift) i); [|done]. simpl.
  destruct (Z.ltb_spec (i + shift) (Py.len y)); [|done].
  destruct H as [?|[?|?]]; [done|done|lia].
Qed.

Lemma shifted_Some (self : FunscriptGenerator.t) (i : Z) (position : string)
    (labels : list string) (shift : Z) (y : list Q) :
  FunscriptGenerator.score self !! "y" = Some y ->
  Py.str_in position labels = true ->
  FunscriptGenerator.direction (FunscriptGenerator.params self) <> "x"%string ->
  0 <= i + shift < Py.len y ->
  FunscriptGenerator.shifted self i position labels shift =
    Ok (Some (FunscriptGenerator.start_frame (FunscriptGenerator.params self)
              + i + shift)).
Proof.
  intros Hy Hin Hd Hr. unfold FunscriptGenerator.shifted, dict_get.
  rewrite Hy, Hin.
  destruct (String.eqb_spec
              (FunscriptGenerator.direction (FunscriptGenerator.params self)) "x");
    [done|]. simpl.
  destruct (Z.leb_spec (-1 * shift) i); [|lia]. simpl.
  destruct (Z.ltb_spec (i + shift) (Py.len y)); [done|lia].
Qed.

(** C8: for an index [i] of the score and a position label [min] or [max],
    [apply_shift] returns a frame in
    [[start_frame, start_frame + len(score) - 1]]: the shifted frame
    [start_frame + i + shift] when the direction is [y] and [i + shift] is an
    index of the score, and [start_frame + i] when the direction is [x] or
    [i + shift] is not an index of the score. The shift is
    [shift_top_points] for [max] and [shift_bottom_points] for [min]. *)
Theorem apply_shift_in_range (self : FunscriptGenerator.t) (y : list Q)
    (i : Z) (position : string) :
  FunscriptGenerator.score self !! "y" = Some y ->
  0 <= i < Py.len y ->
  position = "min"%string \/ position = "max"%string ->
  let p := FunscriptGenerator.params self in
  let start := FunscriptGenerator.start_frame p in
  let shift :=
    if String.eqb position "max" then FunscriptGenerator.shift_top_points p
    else FunscriptGenerator.shift_bottom_points p in
  exists r,
    FunscriptGenerator.apply_shift self i position = Ok r
    /\ start <= r <= start + Py.len y - 1
    /\ (FunscriptGenerator.direction p = "y"%string ->
        0 <= i + shift < Py.len y -> r = start + i + shift)
    /\ (FunscriptGenerator.direction p = "x"%string
        \/ ~ (0 <= i + shift < Py.len y) -> r = start + i).
Proof.
  intros Hy Hi Hpos p start shift.
  set (d := FunscriptGenerator.direction p).
  destruct (decide (d <> "x"%string /\ 0 <= i + shift < Py.len y))
    as [[Hd Hr]|Hno].
  - exists (start + i + shift). split; [|split; [lia|split; [done|]]].
    + unfold FunscriptGenerator.apply_shift.
      destruct Hpos as [-> | ->].
      * rewrite (shifted_None self i "min" ["max"; "top"]%string _ y Hy)
          by (left; reflexivity).
        cbn [bind].
        rewrite (shifted_Some self i "min" ["min"; "bottom"]%string _ y Hy);
          done.
      * rewrite (shifted_Some self i "max" ["max"; "top"]%string _ y Hy);
          done.
    + intros [Hx | Hx]; [|done]. subst d. congruence.
  - assert (Hcase : d = "x"%string \/ ~ (0 <= i + shift < Py.len y)).
    { destruct (decide (d = "x"%string)); [by left|right]. intros ?.
      apply Hno. done. }
    exists (start + i). split; [|split; [lia|split; [|done]]].
    + unfold FunscriptGenerator.apply_shift.
      destruct Hpos as [-> | ->].
      * rewrite (shifted_None self i "min" ["max"; "top"]%string _ y Hy)
          by (left; reflexivity).
        cbn [bind].
        rewrite (shifted_None self i "min" ["min"; "bottom"]%string _ y Hy);
          [done|]. right. exact Hcase.
      * rewrite (shifted_None self i "max" ["max"; "top"]%string _ y Hy);
          [|right; exact Hcase].
        cbn [bind].
        rewrite (shifted_None self i "max" ["min"; "bottom"]%string _ y Hy);
          [done|]. left. reflexivity.
    + intros Hdy Hr. destruct Hcase as [Hx|]; [|done].
      subst d. rewrite Hdy in Hx. discriminate.
Qed.

(** The generator of scenario S6: [shift_top_points = 2], [start_frame = 100],
    a score of ten samples. *)
Lemma apply_shift_in_range_witness :
  exists r,
    FunscriptGenerator.apply_shift
      (FunscriptGenerator.set_score
         (FunscriptGenerator.init
            {| FunscriptGenerator.start_frame := 100;
               FunscriptGenerator.track_men := true;
               FunscriptGenerator.skip_frames := 0;
               FunscriptGenerator.direction := "y";
               FunscriptGenerator.shift_bottom_points := 0;
               FunscriptGenerator.shift_top_points := 2 |})
         (<["y" := inject_Z <$> seqZ 0 10]> ∅))
      3 "max" = Ok r
    /\ 100 <= r <= 100 + 10 - 1
    /\ ("y"%string = "y"%string -> 0 <= 3 + 2 < 10 -> r = 100 + 3 + 2)
    /\ ("y"%string = "x"%string \/ ~ (0 <= 3 + 2 < 10) -> r = 100 + 3).
Proof.
  refine (apply_shift_in_range
           (FunscriptGenerator.set_score
              (FunscriptGenerator.init
                 {| FunscriptGenerator.start_frame := 100;
                    FunscriptGenerator.track_men := true;
                    FunscriptGenerator.skip_frames := 0;
                    FunscriptGenerator.direction := "y";
                    FunscriptGenerator.shift_bottom_points := 0;
                    FunscriptGenerator.shift_top_points := 2 |})
              (<["y" := inject_Z <$> seqZ 0 10]> ∅))
           (inject_Z <$> seqZ 0 10) 3 "max" _ _ _).
  - reflexivity.
  - vm_compute. split; [discriminate | reflexivity].
  - right. reflexivity.
Defined.

(** ** [get_direction_changes] *)

(** Every change point is a monotone index plus the smallest monotone index. *)
Lemma direction_step_offset (start_position : Z) (items : list (Z * Z))
    (cp : list Z) (cur : Z) (cp' : list Z) (cur' : Z) :
  foldM (Signal.direction_step start_position) items (cp, cur) = Ok (cp', cur') ->
  forall c, c ∈ cp' ->
    c ∈ cp \/ exists m, m ∈ items.*1 /\ c = m + start_position.
Proof.
  revert cp cur. induction items as [|[idx d] items IH]; intros cp cur; simpl.
  - intros [= <- <-] c Hc. by left.
  - destruct (negb (d =? cur)); simpl; intros H c Hc.
    + destruct (IH _ _ H c Hc) as [Hin|(m & Hm & ->)].
      * apply elem_of_app in Hin as [Hin|Hin]; [by left|].
        apply list_elem_of_singleton in Hin as ->.
        right. exists idx. split; [left|done].
      * right. exists m. split; [by right|done].
    + destruct (IH _ _ H c Hc) as [Hin|(m & Hm & ->)]; [by left|].
      right. exists m. split; [by right|done].
Qed.

(** C5 (scenario S1): on [[0,1,2,3,2,1,0,1,2,3,2,1,0]] with
    [filter_len = 2] the monotone indices are [0,1,3,4,6,7,9,10], their
    minimum is [0], and [get_direction_changes] returns exactly the turning
    points [3], [6] and [9], each a monotone index plus that minimum. *)
Theorem get_direction_changes_S1 :
  let s := inject_Z <$> [0; 1; 2; 3; 2; 1; 0; 1; 2; 3; 2; 1; 0] in
  let M := [0; 1; 3; 4; 6; 7; 9; 10] in
  filterM (Signal.monotone_at s 2) (Py.range (Py.len s - 2)) = Ok M
  /\ Py.minZ M = Ok 0
  /\ Signal.get_direction_changes s 2 = Ok [3; 6; 9]
  /\ Forall (fun c => exists m, m ∈ M /\ c = m + 0) [3; 6; 9].
Proof.
  repeat split; try (vm_compute; reflexivity).
  repeat constructor.
  - exists 3. split; [set_solver|done].
  - exists 6. split; [set_solver|done].
  - exists 9. split; [set_solver|done].
Qed.

(** ** [moving_average] *)

Lemma Forall2_Qeq_refl (x : list Q) : Forall2 Qeq x x.
Proof. induction x; constructor; [reflexivity|done]. Qed.

(** C3, as the code has it: [moving_average(x, 1)] returns [x] unchanged for
    every list whose length is not 2; for a list of two elements the guard
    for short sequences comes first, and the result is the mean of the two,
    twice. *)
Theorem moving_average_1 (x : list Q) :
  (length x <> 2%nat ->
   exists y, Signal.moving_average x 1 = Ok y /\ Forall2 Qeq y x)
  /\ (forall a b, x = [a; b] ->
      exists m, Signal.moving_average x 1 = Ok [m; m] /\ (m == (a + b) / 2)%Q).
Proof.
  split.
  - intros Hlen. destruct x as [|a [|b [|c x]]]; [| | done |].
    + exists []. split; [reflexivity|constructor].
    + exists [Np.mean [a]]. split; [reflexivity|].
      constructor; [|constructor]. unfold Np.mean, Py.sum. simpl.
      change (inject_Z (Py.len [a])) with 1%Q. field.
    + exists (a :: b :: c :: x). split; [|apply Forall2_Qeq_refl].
      unfold Signal.moving_average.
      assert (Hl : Py.len (a :: b :: c :: x) = Py.len x + 3)
        by (unfold Py.len; simpl; lia).
      pose proof (len_nonneg x).
      rewrite Hl.
      destruct (Z.eqb_spec (Py.len x + 3) 0); [lia|].
      destruct (Z.leb_spec (Py.len x + 3) (1 + 1)); [lia|]. reflexivity.
  - intros a b ->. exists (Np.mean [a; b]). split; [reflexivity|].
    unfold Np.mean, Py.sum. simpl.
    change (inject_Z (Py.len [a; b])) with 2%Q. field.
Qed.

Lemma moving_average_1_witness :
  (length [0%Q; 2%Q; 5%Q] <> 2%nat ->
   exists y, Signal.moving_average [0%Q; 2%Q; 5%Q] 1 = Ok y
             /\ Forall2 Qeq y [0%Q; 2%Q; 5%Q])
  /\ (forall a b, [0%Q; 2%Q; 5%Q] = [a; b] ->
      exists m, Signal.moving_average [0%Q; 2%Q; 5%Q] 1 = Ok [m; m]
                /\ (m == (a + b) / 2)%Q).
Proof. exact (moving_average_1 [0%Q; 2%Q; 5%Q]). Defined.

(** C3 as stated fails on a list of two different elements:
    [moving_average([0, 2], 1)] is [[1, 1]]. *)
Lemma moving_average_1_length_2 :
  ~ (forall x : list Q,
       exists y, Signal.moving_average x 1 = Ok y /\ Forall2 Qeq y x).
Proof.
  intros H. destruct (H [0%Q; 2%Q]) as (y & Hy & Heq).
  vm_compute in Hy. injection Hy as <-.
  apply Forall2_cons_1 in Heq as [Heq _]. discriminate Heq.
Qed.

(** ** [categorize_points] *)

Lemma dict_append_Ok (d d' : gmap string (list Z)) (key : string) (idx : Z) :
  Signal.dict_append d key idx = Ok d' ->
  exists l, d !! key = Some l /\ d' = <[key := l ++ [idx]]> d.
Proof.
  unfold Signal.dict_append, dict_get.
  destruct (d !! key) as [l|]; simpl; [|discriminate].
  intros [= <-]. eauto.
Qed.

(** The loop of [categorize_points] keeps both groups in the dictionary; it
    appends every point to exactly one of them, by the comparison of the
    smoothed signal with the long-window average. *)
Lemma categorize_loop (smothed_signal avg : list Q) (points : list Z)
    (g g' : gmap string (list Z)) (mins maxs : list Z) :
  foldM (fun grouped_points idx =>
           let* s := Py.getitem smothed_signal idx in
           let* a := Py.getitem avg idx in
           if Py.Qlt_bool a s then Signal.dict_append grouped_points "max" idx
           else Signal.dict_append grouped_points "min" idx)
        points g = Ok g' ->
  g !! "min" = Some mins -> g !! "max" = Some maxs ->
  exists mins' maxs',
    g' !! "min" = Some (mins ++ mins') /\ g' !! "max" = Some (maxs ++ maxs')
    /\ mins' ++ maxs' ≡ₚ points
    /\ (forall i, i ∈ mins' ->
        exists s a, Py.getitem smothed_signal i = Ok s
                    /\ Py.getitem avg i = Ok a /\ (s <= a)%Q)
    /\ (forall i, i ∈ maxs' ->
        exists s a, Py.getitem smothed_signal i = Ok s
                    /\ Py.getitem avg i = Ok a /\ (a < s)%Q).
Proof.
  revert g mins maxs.
  induction points as [|idx points IH]; intros g mins maxs; simpl.
  - intros [= <-] Hmin Hmax. exists [], [].
    rewrite !app_nil_r. repeat split; try done; intros i Hi; inversion Hi.
  - intros H Hmin Hmax.
    apply bind_Ok in H as (g1 & Hstep & H).
    apply bind_Ok in Hstep as (s & Hs & Hstep).
    apply bind_Ok in Hstep as (a & Ha & Hstep).
    destruct (Py.Qlt_bool a s) eqn:Hcmp.
    + apply dict_append_Ok in Hstep as (l & Hl & ->).
      rewrite Hmax in Hl. injection Hl as <-.
      destruct (IH _ mins (maxs ++ [idx]) H) as (mins' & maxs' & H1 & H2 & Hp & Hlo & Hhi).
      { by rewrite lookup_insert_ne. }
      { by rewrite lookup_insert_eq. }
      exists mins', (idx :: maxs'). rewrite H1, H2.
      split; [done|]. split; [by rewrite <- app_assoc|].
      split; [by rewrite <- Permutation_middle, Hp|].
      split; [done|].
      intros i Hi. apply elem_of_cons in Hi as [->|Hi]; [|by apply Hhi].
      exists s, a. repeat split; try done.
      unfold Py.Qlt_bool in Hcmp. apply negb_true_iff in Hcmp.
      apply Qnot_le_lt. intros Hle. apply Qle_bool_iff in Hle. congruence.
    + apply dict_append_Ok in Hstep as (l & Hl & ->).
      rewrite Hmin in Hl. injection Hl as <-.
      destruct (IH _ (mins ++ [idx]) maxs H) as (mins' & maxs' & H1 & H2 & Hp & Hlo & Hhi).
      { by rewrite lookup_insert_eq. }
      { by rewrite lookup_insert_ne. }
      exists (idx :: mins'), maxs'. rewrite H1, H2.
      split; [by rewrite <- app_assoc|]. split; [done|].
      split; [simpl; by rewrite Hp|].
      split; [|done].
      intros i Hi. apply elem_of_cons in Hi as [->|Hi]; [|by apply Hlo].
      exists s, a. repeat split; try done.
      unfold Py.Qlt_bool in Hcmp. apply negb_false_iff in Hcmp.
      by apply Qle_bool_iff.
Qed.

(** C7, as the code has it: the groups returned by [categorize_points]
    split the points by the smoothed signal [moving_average(signal, 3)], not
    by the raw score: an index of the [min] group has
    [smoothed[i] <= avg[i]], an index of the [max] group has
    [smoothed[i] > avg[i]], where [avg] is the moving average over the window
    [round(fps * avg_sec_for_local_min_max_extraction)]; every point lands in
    exactly one group. *)
Theorem categorize_points_groups (self : Signal.t) (signal : list Q)
    (points : list Z) (g : gmap string (list Z)) :
  Signal.categorize_points self signal points = Ok g ->
  exists avg smoothed mins maxs,
    Signal.moving_average signal (Signal.avg_window self) = Ok avg
    /\ Signal.moving_average signal 3 = Ok smoothed
    /\ g !! "min" = Some mins /\ g !! "max" = Some maxs
    /\ mins ++ maxs ≡ₚ points
    /\ (forall i, i ∈ mins ->
        exists s a, Py.getitem smoothed i = Ok s
                    /\ Py.getitem avg i = Ok a /\ (s <= a)%Q)
    /\ (forall i, i ∈ maxs ->
        exists s a, Py.getitem smoothed i = Ok s
                    /\ Py.getitem avg i = Ok a /\ (a < s)%Q).
Proof.
  unfold Signal.categorize_points. intros H.
  apply bind_Ok in H as (avg & Havg & H).
  apply bind_Ok in H as (smoothed & Hsm & H).
  destruct (categorize_loop smoothed avg points _ g [] [] H)
    as (mins & maxs & H1 & H2 & Hp & Hlo & Hhi); [done|done|].
  exists avg, smoothed, mins, maxs. repeat split; done.
Qed.

Lemma categorize_points_groups_witness :
  exists avg smoothed mins maxs,
    Signal.moving_average (inject_Z <$> [0; 10; 0; 10; 0; 30; 0; 10])
      (Signal.avg_window (Signal.init 1)) = Ok avg
    /\ Signal.moving_average (inject_Z <$> [0; 10; 0; 10; 0; 30; 0; 10]) 3
       = Ok smoothed
    /\ (<["min" := [4; 6]]> (<["max" := [1]]> ∅) : gmap string (list Z)) !! "min"
       = Some mins
    /\ (<["min" := [4; 6]]> (<["max" := [1]]> ∅) : gmap string (list Z)) !! "max"
       = Some maxs
    /\ mins ++ maxs ≡ₚ [1; 4; 6]
    /\ (forall i, i ∈ mins ->
        exists s a, Py.getitem smoothed i = Ok s
                    /\ Py.getitem avg i = Ok a /\ (s <= a)%Q)
    /\ (forall i, i ∈ maxs ->
        exists s a, Py.getitem smoothed i = Ok s
                    /\ Py.getitem avg i = Ok a /\ (a < s)%Q).
Proof.
  refine (categorize_points_groups (Signal.init 1)
            (inject_Z <$> [0; 10; 0; 10; 0; 30; 0; 10]) [1; 4; 6] _ _).
  vm_compute. reflexivity.
Defined.

(** C7 as stated fails: the groups are not formed by the raw score. On the
    signal [[0, 10, 0]] at 30 frames per second the smoothed signal and the
    average agree, the point [1] goes to the [min] group, and its raw score
    [10] is above the average [10/3]. *)
Lemma categorize_points_raw_score :
  ~ (forall (self : Signal.t) (signal : list Q) (points : list Z)
            (g : gmap string (list Z)) (moving_avg : list Q),
       Signal.categorize_points self signal points = Ok g ->
       Signal.moving_average signal (Signal.avg_window self) = Ok moving_avg ->
       (forall mins i, g !! "min" = Some mins -> i ∈ mins ->
          exists s a, Py.getitem signal i = Ok s
                      /\ Py.getitem moving_avg i = Ok a /\ (s < a)%Q)
       /\ (forall maxs i, g !! "max" = Some maxs -> i ∈ maxs ->
          exists s a, Py.getitem signal i = Ok s
                      /\ Py.getitem moving_avg i = Ok a /\ (a < s)%Q)).
Proof.
  intros H.
  destruct (H (Signal.init 30) (inject_Z <$> [0; 10; 0]) [1]
              (<["min" := [1]]> (<["max" := []]> ∅))
              [10 # 3; 10 # 3; 10 # 3]%Q) as [Hmin _].
  - vm_compute. reflexivity.
  - vm_compute. reflexivity.
  - destruct (Hmin [1] 1) as (s & a & Hs & Ha & Hlt).
    + reflexivity.
    + constructor.
    + vm_compute in Hs, Ha. injection Hs as <-. injection Ha as <-.
      vm_compute in Hlt. discriminate.
Qed.

(** ** [calculate_score] *)

Lemma mapM_Ok {A B : Type} (f : A -> result B) (l : list A) (r : list B) :
  mapM f l = Ok r -> Forall2 (fun a b => f a = Ok b) l r.
Proof.
  revert r. induction l as [|a l IH]; intros r; simpl.
  - intros [= <-]. constructor.
  - intros H. apply bind_Ok in H as (b & Hb & H).
    apply bind_Ok in H as (bs & Hbs & [= <-]).
    constructor; [done|by apply IH].
Qed.

Lemma Qlt_bool_true (a b : Q) : Py.Qlt_bool a b = true <-> (a < b)%Q.
Proof.
  unfold Py.Qlt_bool. rewrite negb_true_iff. split.
  - intros H. apply Qnot_le_lt. intros Hle. apply Qle_bool_iff in Hle. congruence.
  - intros H. destruct (Qle_bool b a) eqn:E; [|done].
    apply Qle_bool_iff in E. apply Qlt_not_le in H. done.
Qed.

Lemma Qlt_bool_false (a b : Q) : Py.Qlt_bool a b = false <-> (b <= a)%Q.
Proof.
  unfold Py.Qlt_bool. rewrite negb_false_iff. apply Qle_bool_iff.
Qed.

Lemma min_from_le (m : Q) (l : list Q) :
  (Py.min_from m l <= m)%Q /\ Forall (fun x => (Py.min_from m l <= x)%Q) l.
Proof.
  revert m. induction l as [|a l IH]; intros m; simpl.
  - split; [apply Qle_refl|constructor].
  - destruct (Py.Qlt_bool a m) eqn:E.
    + apply Qlt_bool_true in E. destruct (IH a) as [H1 H2].
      split; [lra|]. constructor; [done|done].
    + apply Qlt_bool_false in E. destruct (IH m) as [H1 H2].
      split; [done|]. constructor; [lra|done].
Qed.

Lemma max_from_ge (m : Q) (l : list Q) :
  (m <= Py.max_from m l)%Q /\ Forall (fun x => (x <= Py.max_from m l)%Q) l.
Proof.
  revert m. induction l as [|a l IH]; intros m; simpl.
  - split; [apply Qle_refl|constructor].
  - destruct (Py.Qlt_bool m a) eqn:E.
    + apply Qlt_bool_true in E. destruct (IH a) as [H1 H2].
      split; [lra|]. constructor; [done|done].
    + apply Qlt_bool_false in E. destruct (IH m) as [H1 H2].
      split; [done|]. constructor; [lra|done].
Qed.

Lemma min_Ok (l : list Q) (m : Q) :
  Py.min l = Ok m -> Forall (fun x => (m <= x)%Q) l.
Proof.
  destruct l as [|a l]; simpl; [discriminate|]. intros [= <-].
  destruct (min_from_le a l). by constructor.
Qed.

Lemma max_Ok (l : list Q) (m : Q) :
  Py.max l = Ok m -> Forall (fun x => (x <= m)%Q) l.
Proof.
  destruct l as [|a l]; simpl; [discriminate|]. intros [= <-].
  destruct (max_from_ge a l). by constructor.
Qed.

Lemma scale_signal_length (signal : list Q) (lower upper : Q) :
  length (FunscriptGenerator.scale_signal signal lower upper) = length signal.
Proof.
  unfold FunscriptGenerator.scale_signal.
  destruct signal as [|a [|b t]]; [done|done|].
  destruct (Qeq_bool _ _); by rewrite length_fmap.
Qed.

(** The spec's [scale] keeps every value between the two bounds. *)
Lemma scale_signal_range (signal : list Q) (lower upper : Q) :
  (lower <= upper)%Q ->
  Forall (fun v => (lower <= v <= upper)%Q)
         (FunscriptGenerator.scale_signal signal lower upper).
Proof.
  intros Hb. unfold FunscriptGenerator.scale_signal.
  destruct signal as [|a [|b t]]; [constructor| |].
  { constructor; [|constructor]. split; [apply Qle_refl|done]. }
  set (rest := b :: t). set (mn := Py.min_from a rest).
  set (mx := Py.max_from a rest).
  destruct (Qeq_bool mx mn) eqn:Hz.
  { apply Forall_fmap, Forall_true. intros x. simpl.
    split; [apply Qle_refl|done]. }
  apply Qeq_bool_neq in Hz.
  destruct (min_from_le a rest) as [Hmna Hmn].
  destruct (max_from_ge a rest) as [Hmxa Hmx].
  fold mn in Hmna, Hmn. fold mx in Hmxa, Hmx.
  assert (Hpos : (0 < mx - mn)%Q).
  { destruct (Qlt_le_dec 0 (mx - mn)) as [|Hle]; [done|].
    exfalso. apply Hz. lra. }
  apply Forall_fmap, Forall_forall. intros x Hx. simpl.
  assert (Hxb : (mn <= x <= mx)%Q).
  { apply elem_of_cons in Hx as [->|Hx]; [lra|].
    rewrite Forall_forall in Hmn, Hmx.
    split; [by apply Hmn|by apply Hmx]. }
  set (t' := ((x - mn) / (mx - mn))%Q).
  assert (Ht : (0 <= t' <= 1)%Q).
  { subst t'. split.
    - apply Qle_shift_div_l; [done|]. lra.
    - apply Qle_shift_div_r; [done|]. lra. }
  assert (Heq : ((upper - lower) * (x - mn) / (mx - mn) + lower
                 == (upper - lower) * t' + lower)%Q).
  { subst t'. field. lra. }
  rewrite Heq. split; nra.
Qed.

(** C2: for every pair of equal-length non-empty bounding-box
    trajectories, [calculate_score] returns, and every element of
    [score.x] and of [score.y] lies in the closed interval [[0, 100]];
    both scores have one element per box. The scaling is the spec's
    [scale]. *)
Theorem calculate_score_bounded (self : FunscriptGenerator.t)
    (W M : list FunscriptGenerator.bbox) :
  FunscriptGenerator.track_men (FunscriptGenerator.params self) = true ->
  FunscriptGenerator.bboxes self !! "Woman" = Some W ->
  FunscriptGenerator.bboxes self !! "Men" = Some M ->
  length W = length M ->
  W <> [] ->
  exists self' sx sy,
    FunscriptGenerator.calculate_score self = Ok self'
    /\ FunscriptGenerator.score self' !! "x" = Some sx
    /\ FunscriptGenerator.score self' !! "y" = Some sy
    /\ length sx = length W
    /\ length sy = length W
    /\ Forall (fun v => (0 <= v <= 100)%Q) sx
    /\ Forall (fun v => (0 <= v <= 100)%Q) sy.
Proof.
  intros Htm HW HM Hlen _.
  unfold FunscriptGenerator.calculate_score, dict_get.
  rewrite HW, Htm, HM. cbn [bind].
  eexists _, _, _. split; [reflexivity|]. simpl.
  rewrite lookup_insert_ne by done. rewrite !lookup_insert_eq.
  split; [reflexivity|]. split; [reflexivity|].
  rewrite !scale_signal_length, !length_fmap, !length_zip, <- Hlen, Nat.min_id.
  split; [done|]. split; [done|].
  split; by apply scale_signal_range.
Qed.

(** Spec scenario S3 as the input: the second target moves in [x] only, so
    the [y] score is constant. *)
Lemma calculate_score_bounded_witness :
  let W := [(10, 10, 5, 5); (10, 10, 5, 5); (10, 10, 5, 5)]%Q in
  let M := [(0, 10, 5, 5); (20, 10, 5, 5); (10, 10, 5, 5)]%Q in
  let self :=
    FunscriptGenerator.set_bboxes
      (FunscriptGenerator.init
         {| FunscriptGenerator.start_frame := 0;
            FunscriptGenerator.track_men := true;
            FunscriptGenerator.skip_frames := 0;
            FunscriptGenerator.direction := "y";
            FunscriptGenerator.shift_bottom_points := 0;
            FunscriptGenerator.shift_top_points := 0 |})
      (<["Men" := M]> (<["Woman" := W]> ∅)) in
  exists self' sx sy,
    FunscriptGenerator.calculate_score self = Ok self'
    /\ FunscriptGenerator.score self' !! "x" = Some sx
    /\ FunscriptGenerator.score self' !! "y" = Some sy
    /\ length sx = length W
    /\ length sy = length W
    /\ Forall (fun v => (0 <= v <= 100)%Q) sx
    /\ Forall (fun v => (0 <= v <= 100)%Q) sy.
Proof.
  intros W M self.
  refine (calculate_score_bounded self W M _ _ _ _ _).
  - reflexivity.
  - reflexivity.
  - reflexivity.
  - reflexivity.
  - discriminate.
Defined.

(** ** [delete_last_tracking_predictions] *)

Lemma range_down_cons (a b : Z) :
  b < a -> Py.range_down a b = a :: Py.range_down (a - 1) b.
Proof.
  intros Hab. unfold Py.range_down.
  rewrite seqZ_cons by lia. rewrite fmap_cons. f_equal; [lia|].
  replace (Z.succ 0) with (1 + 0) by lia.
  rewrite <- fmap_add_seqZ, <- list_fmap_compose.
  replace (Z.pred (a - b)) with (a - 1 - b) by lia.
  apply list_fmap_ext. intros _ k _. simpl. lia.
Qed.

Lemma range_down_nil (a b : Z) : a <= b -> Py.range_down a b = [].
Proof.
  intros Hab. unfold Py.range_down. by rewrite seqZ_nil by lia.
Qed.

Lemma delitem_last {A : Type} (l : list A) :
  l <> [] -> Py.delitem l (Py.len l - 1) = Ok (take (length l - 1) l).
Proof.
  intros Hne. unfold Py.delitem.
  assert (0 < Py.len l) by (destruct l; [done|unfold Py.len; simpl; lia]).
  destruct (Z.ltb_spec (Py.len l - 1) 0); [lia|].
  destruct (Z.ltb_spec (Py.len l - 1) 0); [lia|].
  destruct (Z.leb_spec (Py.len l) (Py.len l - 1)); [lia|]. simpl. f_equal.
  replace (Z.to_nat (Py.len l - 1)) with (length l - 1)%nat
    by (unfold Py.len; lia).
  destruct l as [|a l _] using rev_ind; [done|].
  rewrite length_app. simpl.
  replace (length l + 1 - 1)%nat with (length l) by lia.
  rewrite take_app_length.
  assert (Hd : forall (k : list A) (x : A), delete (length k) (k ++ [x]) = k).
  { induction k as [|y k IHk]; intros x; simpl; [done|]. f_equal. apply IHk. }
  apply Hd.
Qed.

(** The loop deletes the last element once per index of its range. *)
Lemma delete_loop (n : nat) :
  forall (self : FunscriptGenerator.t) (W M : list FunscriptGenerator.bbox),
  let tm := FunscriptGenerator.track_men (FunscriptGenerator.params self) in
  FunscriptGenerator.bboxes self !! "Woman" = Some W ->
  FunscriptGenerator.bboxes self !! "Men" = Some M ->
  (tm = true -> length M = length W) ->
  (n <= length W)%nat ->
  exists self',
    foldM FunscriptGenerator.delete_step
          (Py.range_down (Py.len W - 1) (Py.len W - 1 - Z.of_nat n)) self
      = Ok self'
    /\ FunscriptGenerator.params self' = FunscriptGenerator.params self
    /\ FunscriptGenerator.bboxes self' !! "Woman" = Some (take (length W - n) W)
    /\ FunscriptGenerator.bboxes self' !! "Men"
       = Some (if tm then take (length M - n) M else M).
Proof.
  induction n as [|n IH]; intros self W M tm HW HM Hlen Hn;
    assert (Htm : FunscriptGenerator.track_men (FunscriptGenerator.params self) = tm)
      by reflexivity; clearbody tm.
  - rewrite range_down_nil by lia. simpl. exists self.
    rewrite !Nat.sub_0_r, !firstn_all. repeat split; try done.
    rewrite HM. by destruct tm.
  - rewrite range_down_cons by lia. cbn [foldM].
    assert (HWne : W <> []) by (destruct W; [simpl in Hn; lia|done]).
    unfold FunscriptGenerator.delete_step at 1. unfold dict_get at 1.
    rewrite HW. cbn [bind]. rewrite delitem_last by done. cbn [bind].
    cbn [FunscriptGenerator.set_bboxes FunscriptGenerator.params
         FunscriptGenerator.bboxes].
    rewrite Htm. destruct tm.
    + specialize (Hlen eq_refl).
      unfold dict_get. rewrite lookup_insert_ne by done. rewrite HM. cbn [bind].
      assert (HMne : M <> []) by (destruct M, W; simpl in *; try done; lia).
      replace (Py.len W) with (Py.len M) by (unfold Py.len; rewrite Hlen; done).
      rewrite delitem_last by done. cbn [bind].
      set (self1 := FunscriptGenerator.set_bboxes _ _).
      destruct (IH self1 (take (length W - 1) W) (take (length M - 1) M))
        as (self' & Hrun & Hp & HW' & HM').
      { subst self1. simpl. rewrite lookup_insert_ne by done.
        by rewrite lookup_insert_eq. }
      { subst self1. simpl. by rewrite lookup_insert_eq. }
      { intros _. rewrite !length_take. by rewrite Hlen. }
      { rewrite length_take, Nat.min_l by lia. lia. }
      exists self'. split; [|split; [|split]].
      * rewrite <- Hrun. f_equal. unfold Py.len.
        rewrite length_take, Nat.min_l by lia. f_equal; lia.
      * rewrite Hp. subst self1. done.
      * rewrite HW'. f_equal.
        rewrite length_take, take_take, Nat.min_l by lia. f_equal. lia.
      * rewrite HM'. subst self1. simpl. rewrite Htm.
        rewrite length_take, take_take, Nat.min_l by lia. f_equal. f_equal. lia.
    + set (self1 := FunscriptGenerator.set_bboxes _ _).
      destruct (IH self1 (take (length W - 1) W) M)
        as (self' & Hrun & Hp & HW' & HM').
      { subst self1. simpl. by rewrite lookup_insert_eq. }
      { subst self1. simpl. by rewrite lookup_insert_ne. }
      { subst self1. simpl. rewrite Htm. done. }
      { rewrite length_take, Nat.min_l by lia. lia. }
      exists self'. split; [|split; [|split]].
      * cbn [bind]. rewrite <- Hrun. f_equal. unfold Py.len.
        rewrite length_take, Nat.min_l by lia. f_equal; lia.
      * rewrite Hp. subst self1. done.
      * rewrite HW'. f_equal.
        rewrite length_take, take_take, Nat.min_l by lia. f_equal. lia.
      * rewrite HM'. subst self1. simpl. by rewrite Htm.
Qed.

(** With at least [num] boxes recorded, [delete_last_tracking_predictions]
    deletes the last [num - 1] of them: the range
    [range(len - 1, len - num, -1)] stops one index short of [num] turns. *)
Lemma delete_last_tracking_predictions_count (self : FunscriptGenerator.t)
    (W M : list FunscriptGenerator.bbox) (num : Z) :
  let tm := FunscriptGenerator.track_men (FunscriptGenerator.params self) in
  FunscriptGenerator.bboxes self !! "Woman" = Some W ->
  FunscriptGenerator.bboxes self !! "Men" = Some M ->
  (tm = true -> length M = length W) ->
  1 <= num <= Py.len W ->
  exists self',
    FunscriptGenerator.delete_last_tracking_predictions self num = Ok self'
    /\ FunscriptGenerator.params self' = FunscriptGenerator.params self
    /\ FunscriptGenerator.bboxes self' !! "Woman"
       = Some (take (length W - Z.to_nat (num - 1)) W)
    /\ FunscriptGenerator.bboxes self' !! "Men"
       = Some (if tm then take (length M - Z.to_nat (num - 1)) M else M).
Proof.
  intros tm HW HM Hlen Hnum.
  unfold FunscriptGenerator.delete_last_tracking_predictions, dict_get.
  rewrite HW. cbn [bind].
  destruct (Z.leb_spec (Py.len W) (num - 1)); [lia|].
  destruct (delete_loop (Z.to_nat (num - 1)) self W M HW HM Hlen)
    as (self' & Hrun & Hrest).
  { unfold Py.len in *. lia. }
  exists self'. split; [|exact Hrest].
  rewrite <- Hrun. f_equal. f_equal. lia.
Qed.

(** C1 against the code: when a tracker is lost, the loop of [tracking] ends
    with a [... Lost] status after [delete_last_tracking_predictions] was
    called with [3 * (skip_frames + 1)]; from trajectories longer than that
    it removes [3 * (skip_frames + 1) - 1] tail entries, one fewer than the
    number it was asked to remove. *)
Theorem tracker_lost_truncation (self : FunscriptGenerator.t)
    (W M : list FunscriptGenerator.bbox) (successWoman successMen : bool) :
  let p := FunscriptGenerator.params self in
  let tm := FunscriptGenerator.track_men p in
  let k := FunscriptGenerator.skip_frames p in
  0 <= k ->
  FunscriptGenerator.bboxes self !! "Woman" = Some W ->
  FunscriptGenerator.bboxes self !! "Men" = Some M ->
  (tm = true -> length M = length W) ->
  3 * (k + 1) < Py.len W ->
  successWoman = false \/ (tm = true /\ successMen = false) ->
  exists status self' W' M',
    FunscriptGenerator.await_tracker_results self successWoman successMen
      = Ok (FunscriptGenerator.Break status self')
    /\ (status = "Tracker Woman Lost"%string
        \/ status = "Tracking Men Lost"%string)
    /\ FunscriptGenerator.bboxes self' !! "Woman" = Some W'
    /\ FunscriptGenerator.bboxes self' !! "Men" = Some M'
    /\ W' = take (length W - Z.to_nat (3 * (k + 1) - 1)) W
    /\ Py.len W' = Py.len W - (3 * (k + 1) - 1)
    /\ (tm = true -> Py.len M' = Py.len M - (3 * (k + 1) - 1)).
Proof.
  intros p tm k Hk HW HM Hlen Hlong Hlost. subst tm k p.
  set (k := FunscriptGenerator.skip_frames (FunscriptGenerator.params self)) in *.
  destruct (delete_last_tracking_predictions_count self W M ((k + 1) * 3)
              HW HM Hlen) as (self' & Hdel & _ & HW' & HM'); [lia|].
  assert (Hcount : Z.to_nat ((k + 1) * 3 - 1) = Z.to_nat (3 * (k + 1) - 1))
    by (f_equal; lia).
  rewrite Hcount in HW', HM'.
  assert (Hres : exists status,
             FunscriptGenerator.await_tracker_results self successWoman successMen
               = Ok (FunscriptGenerator.Break status self')
             /\ (status = "Tracker Woman Lost"%string
                 \/ status = "Tracking Men Lost"%string)).
  { unfold FunscriptGenerator.await_tracker_results. fold k.
    destruct successWoman; cbn [negb].
    - destruct Hlost as [?|[Htm ->]]; [done|]. rewrite Htm. cbn [negb andb].
      rewrite Hdel. cbn [bind]. eauto.
    - rewrite Hdel. cbn [bind]. eauto. }
  destruct Hres as (status & Hres & Hstatus).
  eexists status, self', _, _.
  split; [exact Hres|]. split; [exact Hstatus|].
  split; [exact HW'|]. split; [exact HM'|]. split; [done|].
  split.
  - unfold Py.len in *. rewrite length_take. lia.
  - intros Htm. rewrite Htm.
    unfold Py.len in *. rewrite length_take. specialize (Hlen Htm). lia.
Qed.

(** Ten boxes per target, [skip_frames = 0], the first tracker lost: eight
    boxes are left, where a removal of [3 * (0 + 1)] would leave seven. *)
Lemma tracker_lost_truncation_witness :
  let box (n : Z) : FunscriptGenerator.bbox := (inject_Z n, 0, 10, 10)%Q in
  let W := box <$> seqZ 0 10 in
  let M := box <$> seqZ 20 10 in
  exists status self' W' M',
    FunscriptGenerator.await_tracker_results
      (FunscriptGenerator.set_bboxes
         (FunscriptGenerator.init
            {| FunscriptGenerator.start_frame := 0;
               FunscriptGenerator.track_men := true;
               FunscriptGenerator.skip_frames := 0;
               FunscriptGenerator.direction := "y";
               FunscriptGenerator.shift_bottom_points := 0;
               FunscriptGenerator.shift_top_points := 0 |})
         (<["Men" := M]> (<["Woman" := W]> ∅)))
      false true
      = Ok (FunscriptGenerator.Break status self')
    /\ (status = "Tracker Woman Lost"%string
        \/ status = "Tracking Men Lost"%string)
    /\ FunscriptGenerator.bboxes self' !! "Woman" = Some W'
    /\ FunscriptGenerator.bboxes self' !! "Men" = Some M'
    /\ W' = take (length W - Z.to_nat (3 * (0 + 1) - 1)) W
    /\ Py.len W' = 10 - (3 * (0 + 1) - 1)
    /\ (true = true -> Py.len M' = 10 - (3 * (0 + 1) - 1)).
Proof.
  intros box W M.
  refine (tracker_lost_truncation
            (FunscriptGenerator.set_bboxes
               (FunscriptGenerator.init
                  {| FunscriptGenerator.start_frame := 0;
                     FunscriptGenerator.track_men := true;
                     FunscriptGenerator.skip_frames := 0;
                     FunscriptGenerator.direction := "y";
                     FunscriptGenerator.shift_bottom_points := 0;
                     FunscriptGenerator.shift_top_points := 0 |})
               (<["Men" := M]> (<["Woman" := W]> ∅)))
            W M false true _ _ _ _ _ _).
  - simpl. lia.
  - reflexivity.
  - reflexivity.
  - reflexivity.
  - vm_compute. reflexivity.
  - left. reflexivity.
Defined.

(** The run itself: three entries were to be removed from ten, and eight
    remain in both trajectories. *)
Lemma tracker_lost_ten_boxes :
  let box (n : Z) : FunscriptGenerator.bbox := (inject_Z n, 0, 10, 10)%Q in
  let self :=
    FunscriptGenerator.set_bboxes
      (FunscriptGenerator.init
         {| FunscriptGenerator.start_frame := 0;
            FunscriptGenerator.track_men := true;
            FunscriptGenerator.skip_frames := 0;
            FunscriptGenerator.direction := "y";
            FunscriptGenerator.shift_bottom_points := 0;
            FunscriptGenerator.shift_top_points := 0 |})
      (<["Men" := box <$> seqZ 20 10]> (<["Woman" := box <$> seqZ 0 10]> ∅)) in
  (let* r := FunscriptGenerator.await_tracker_results self false true in
   match r with
   | FunscriptGenerator.Break status self' =>
       Ok (status,
           length <$> FunscriptGenerator.bboxes self' !! "Woman",
           length <$> FunscriptGenerator.bboxes self' !! "Men")
   | FunscriptGenerator.Continue _ => Raise ValueError
   end)
  = Ok ("Tracker Woman Lost"%string, Some 8%nat, Some 8%nat).
Proof. vm_compute. reflexivity. Qed.

(** ** [get_edge_points] *)

(** C10: [get_edge_points] sorts the list object it is given. For a
    reference [base_points] to a list of two or more points, whatever the
    call produces (a result or an exception), the heap afterwards holds at
    [base_points] the same points in ascending order; no other object is
    written. *)
Theorem get_edge_points_sorts_argument (self : Signal.t) (signal : list Q)
    (base_points : Signal.loc) (threshold : Q) (h h' : Signal.heap)
    (l : list Z) (r : result (list Z)) :
  h !! base_points = Some l ->
  2 <= Py.len l ->
  Signal.get_edge_points self signal base_points threshold h = (r, h') ->
  exists l',
    h' !! base_points = Some l'
    /\ StronglySorted Z.le l'
    /\ l' ≡ₚ l
    /\ (forall other, other <> base_points -> h' !! other = h !! other).
Proof.
  intros Hl Hlen. unfold Signal.get_edge_points.
  rewrite (lookup_total_correct _ _ _ Hl).
  destruct (Z.ltb_spec (Py.len l) 2); [lia|].
  intros [= _ <-]. exists (merge_sort Z.le l).
  split; [apply lookup_insert_eq|].
  split; [apply StronglySorted_merge_sort; apply _|].
  split; [apply merge_sort_Permutation|].
  intros other Hne. by apply lookup_insert_ne.
Qed.

(** The caller's list [[9, 0, 4]] reads [[0, 4, 9]] after the call. *)
Lemma get_edge_points_sorts_argument_witness :
  exists l',
    (<[1%positive := [0; 4; 9]]> ∅ : Signal.heap) !! 1%positive = Some l'
    /\ StronglySorted Z.le l'
    /\ l' ≡ₚ [9; 0; 4]
    /\ (forall other, other <> 1%positive ->
        (<[1%positive := [0; 4; 9]]> ∅ : Signal.heap) !! other
        = (<[1%positive := [9; 0; 4]]> ∅ : Signal.heap) !! other).
Proof.
  refine (get_edge_points_sorts_argument (Signal.init 30)
            (inject_Z <$> [0; 10; 0; 50; 3; 4; 5; 6; 7; 8; 9; 10; 11])
            1%positive 20 (<[1%positive := [9; 0; 4]]> ∅) _ [9; 0; 4] (Ok [3])
            _ _ _).
  - reflexivity.
  - vm_compute. discriminate.
  - vm_compute. reflexivity.
Defined.

(** A list of fewer than two points is left as it is. *)
Lemma get_edge_points_short (self : Signal.t) (signal : list Q)
    (base_points : Signal.loc) (threshold : Q) (h : Signal.heap) (l : list Z) :
  h !! base_points = Some l ->
  Py.len l < 2 ->
  Signal.get_edge_points self signal base_points threshold h = (Ok [], h).
Proof.
  intros Hl Hlen. unfold Signal.get_edge_points.
  rewrite (lookup_total_correct _ _ _ Hl).
  destruct (Z.ltb_spec (Py.len l) 2); [done|lia].
Qed.

(** ** [merge_points] *)

Lemma insort_Permutation (l : list Z) (x : Z) : Py.insort l x ≡ₚ x :: l.
Proof.
  induction l as [|a l IH]; simpl; [done|].
  destruct (x <? a); [done|]. rewrite IH. apply Permutation_swap.
Qed.

Lemma insort_sorted (l : list Z) (x : Z) :
  StronglySorted Z.le l -> StronglySorted Z.le (Py.insort l x).
Proof.
  induction 1 as [|a l Hs IH Ha]; simpl.
  - repeat constructor.
  - destruct (Z.ltb_spec x a).
    + constructor; [by constructor|].
      constructor; [lia|]. eapply Forall_impl; [exact Ha|]. simpl. lia.
    + constructor; [done|].
      rewrite insort_Permutation. by constructor.
Qed.

(** One turn of the loop either leaves the merged list or inserts the
    candidate at its sorted position. *)
Lemma merge_step_Ok (self : Signal.t) (signal : list Q) (merged : list Z)
    (idx : Z) (merged' : list Z) :
  Signal.merge_step self signal merged idx = Ok merged' ->
  merged' = merged \/ merged' = Py.insort merged idx.
Proof.
  unfold Signal.merge_step.
  destruct (0 <? Py.len _); [intros [= <-]; by left|].
  intros H.
  apply bind_Ok in H as (p1 & _ & H). apply bind_Ok in H as (p2 & _ & H).
  destruct (p2 <=? p1); [injection H as <-; by left|].
  apply bind_Ok in H as (s1 & _ & H). apply bind_Ok in H as (s2 & _ & H).
  apply bind_Ok in H as (u & _ & H). apply bind_Ok in H as (si & _ & H).
  destruct (Np.flt _ _); injection H as <-; [by left|by right].
Qed.

Lemma merge_loop_Ok (self : Signal.t) (signal : list Q)
    (additional_points merged r : list Z) :
  foldM (Signal.merge_step self signal) additional_points merged = Ok r ->
  StronglySorted Z.le merged ->
  StronglySorted Z.le r
  /\ merged ⊆+ r
  /\ (length r <= length merged + length additional_points)%nat
  /\ (forall x, x ∈ r -> x ∈ merged \/ x ∈ additional_points).
Proof.
  revert merged. induction additional_points as [|idx E IH]; intros merged; simpl.
  - intros [= <-] Hs. repeat split; try done. + lia. + by left.
  - intros H Hs. apply bind_Ok in H as (merged' & Hstep & H).
    apply merge_step_Ok in Hstep as [-> | ->].
    + destruct (IH _ H Hs) as (H1 & H2 & H3 & H4).
      repeat split; try done; [lia|].
      intros x Hx. destruct (H4 x Hx); [by left|right; by right].
    + destruct (IH _ H (insort_sorted _ _ Hs)) as (H1 & H2 & H3 & H4).
      pose proof (insort_Permutation merged idx) as Hp.
      split; [done|]. split; [|split].
      * etrans; [|exact H2]. rewrite Hp. by apply submseteq_cons.
      * rewrite Hp in H3. simpl in *. lia.
      * intros x Hx. destruct (H4 x Hx) as [Hin|Hin]; [|right; by right].
        rewrite Hp in Hin. apply elem_of_cons in Hin as [->|Hin];
          [right; by left|by left].
Qed.

(** Whenever [merge_points] returns, its result is sorted, holds the base
    points, and has grown by at most one element per additional point. *)
Lemma merge_points_Ok (self : Signal.t) (signal : list Q)
    (base_points additional_points r : list Z) :
  Signal.merge_points self signal base_points additional_points = Ok r ->
  StronglySorted Z.le r
  /\ base_points ⊆+ r
  /\ (forall b, b ∈ base_points -> b ∈ r)
  /\ (length r <= length base_points + length additional_points)%nat
  /\ (forall x, x ∈ r -> x ∈ base_points \/ x ∈ additional_points).
Proof.
  unfold Signal.merge_points. intros H.
  pose proof (merge_sort_Permutation Z.le base_points) as Hp.
  destruct (merge_loop_Ok _ _ _ _ _ H) as (H1 & H2 & H3 & H4).
  { apply StronglySorted_merge_sort; apply _. }
  rewrite Hp in H2. rewrite Hp in H3.
  repeat split; try done.
  - intros b Hb. eapply elem_of_submseteq; eauto.
  - intros x Hx. destruct (H4 x Hx) as [Hin|Hin]; [left|by right].
    by rewrite <- Hp.
Qed.

Lemma Qeq_bool_inject_Z (z : Z) : z <> 0 -> Qeq_bool (inject_Z z) 0 = false.
Proof.
  intros Hz. destruct (Qeq_bool (inject_Z z) 0) eqn:E; [|done].
  apply Qeq_bool_eq in E. unfold Qeq in E. simpl in E. lia.
Qed.

(** On a non-empty merged list whose points index the signal, a turn of the
    loop with a candidate that indexes the signal raises nothing. *)
Lemma merge_step_total (self : Signal.t) (signal : list Q) (merged : list Z)
    (idx : Z) :
  merged <> [] ->
  Forall (Py.valid_index signal) merged ->
  Py.valid_index signal idx ->
  exists merged', Signal.merge_step self signal merged idx = Ok merged'.
Proof.
  intros Hne Hm Hidx. unfold Signal.merge_step.
  destruct (0 <? Py.len _); [eauto|].
  destruct (find_nearest_left Z.leb merged idx "left" Hne eq_refl)
    as (p1 & -> & Hp1).
  destruct (find_nearest_right Z.leb merged idx "right" Hne eq_refl)
    as (p2 & -> & Hp2).
  cbn [bind]. destruct (Z.leb_spec p2 p1); [eauto|].
  rewrite Forall_forall in Hm.
  destruct (getitem_valid signal p1 (Hm _ Hp1)) as (s1 & ->).
  destruct (getitem_valid signal p2 (Hm _ Hp2)) as (s2 & ->).
  cbn [bind]. unfold Signal.scale_index, Py.truediv.
  rewrite Qeq_bool_inject_Z by lia. cbn [bind].
  destruct (getitem_valid signal idx Hidx) as (si & ->). cbn [bind].
  destruct (Np.flt _ _); eauto.
Qed.

Lemma merge_loop_total (self : Signal.t) (signal : list Q)
    (additional_points merged : list Z) :
  merged <> [] ->
  Forall (Py.valid_index signal) merged ->
  Forall (Py.valid_index signal) additional_points ->
  exists r, foldM (Signal.merge_step self signal) additional_points merged = Ok r.
Proof.
  intros Hne Hm HE. revert merged Hne Hm.
  induction HE as [|idx E Hidx _ IH]; intros merged Hne Hm; simpl; [eauto|].
  destruct (merge_step_total self signal merged idx Hne Hm Hidx)
    as (merged' & Hstep).
  rewrite Hstep. cbn [bind].
  apply merge_step_Ok in Hstep as [-> | ->]; [by apply IH|].
  apply IH.
  - intros Hnil. pose proof (insort_Permutation merged idx) as Hp.
    rewrite Hnil in Hp. by apply Permutation_nil_cons in Hp.
  - rewrite insort_Permutation. by constructor.
Qed.

(** C4, as the code has it: for a non-empty list of base points and
    additional points that all index the signal, [merge_points] returns a
    list that is sorted in ascending order, contains every base point (with
    its multiplicity), and has at most [len(B) + len(E)] elements. (On an
    empty list of base points the first candidate makes [find_nearest] read
    [array[0]] of an empty list.) *)
Theorem merge_points_sorted_superset (self : Signal.t) (signal : list Q)
    (base_points additional_points : list Z) :
  base_points <> [] ->
  Forall (Py.valid_index signal) base_points ->
  Forall (Py.valid_index signal) additional_points ->
  exists r,
    Signal.merge_points self signal base_points additional_points = Ok r
    /\ StronglySorted Z.le r
    /\ base_points ⊆+ r
    /\ (forall b, b ∈ base_points -> b ∈ r)
    /\ (length r <= length base_points + length additional_points)%nat.
Proof.
  intros Hne HB HE.
  pose proof (merge_sort_Permutation Z.le base_points) as Hp.
  destruct (merge_loop_total self signal additional_points
              (merge_sort Z.le base_points)) as (r & Hr).
  - intros Hnil. rewrite Hnil in Hp. by apply Permutation_nil in Hp.
  - by rewrite Hp.
  - done.
  - exists r. split; [exact Hr|].
    destruct (merge_points_Ok self signal base_points additional_points r Hr)
      as (H1 & H2 & H3 & H4 & _).
    done.
Qed.

Lemma merge_points_sorted_superset_witness :
  exists r,
    Signal.merge_points (Signal.init 30)
      (inject_Z <$> [0; 10; 0; 50; 3; 4; 5; 6; 7; 8; 9; 10; 11]) [9; 0] [1; 5]
      = Ok r
    /\ StronglySorted Z.le r
    /\ [9; 0] ⊆+ r
    /\ (forall b, b ∈ [9; 0] -> b ∈ r)
    /\ (length r <= length [9; 0] + length [1; 5])%nat.
Proof.
  apply (merge_points_sorted_superset (Signal.init 30)
           (inject_Z <$> [0; 10; 0; 50; 3; 4; 5; 6; 7; 8; 9; 10; 11])
           [9; 0] [1; 5]).
  - discriminate.
  - repeat constructor; vm_compute; discriminate.
  - repeat constructor; vm_compute; discriminate.
Defined.

(** C4 as stated fails on an empty list of base points: with a candidate to
    merge, [find_nearest] indexes the empty merged list and [merge_points]
    raises [IndexError] instead of returning a list. *)
Lemma merge_points_empty_base :
  ~ (forall (self : Signal.t) (signal : list Q)
            (base_points additional_points : list Z),
       exists r,
         Signal.merge_points self signal base_points additional_points = Ok r
         /\ StronglySorted Z.le r
         /\ (forall b, b ∈ base_points -> b ∈ r)
         /\ (length r <= length base_points + length additional_points)%nat).
Proof.
  intros H.
  destruct (H (Signal.init 30) (inject_Z <$> [0; 10; 0]) [] [1])
    as (r & Hr & _).
  vm_compute in Hr. discriminate.
Qed.

(** ** [get_high_second_derivative_points] *)

Section high_second_derivative.
Variables (d : list Q) (s : list Np.float64) (alpha : Q).
Hypothesis Hlen : (length d <= length s)%nat.

Let E : nat -> bool := Runs.exceeds d s alpha.

Lemma exceeds_lt (k : nat) : E k = true -> (k < length d)%nat.
Proof.
  unfold E, Runs.exceeds. destruct (d !! k) eqn:Hd; [|discriminate].
  intros _. by eapply lookup_lt_Some.
Qed.

Lemma open_run_start_unique (a a' b : nat) :
  Runs.open_run E a b -> Runs.open_run E a' b -> a = a'.
Proof.
  intros (Hab & Hall & Hl) (Hab' & Hall' & Hl').
  destruct (Nat.lt_trichotomy a a') as [Hlt|[?|Hlt]]; [|done|]; exfalso.
  - destruct Hl' as [?|Hf]; [lia|]. rewrite Hall in Hf by lia. discriminate.
  - destruct Hl as [?|Hf]; [lia|]. rewrite Hall' in Hf by lia. discriminate.
Qed.

Lemma last_argmax_unique (a b m m' : nat) :
  Runs.last_argmax d a b m -> Runs.last_argmax d a b m' -> m = m'.
Proof.
  intros (Hm & Hmax & Hlast) (Hm' & Hmax' & Hlast').
  destruct (Nat.lt_trichotomy m m') as [Hlt|[?|Hlt]]; [|done|]; exfalso.
  - specialize (Hlast m' ltac:(lia)). specialize (Hmax' m ltac:(lia)). lra.
  - specialize (Hlast' m ltac:(lia)). specialize (Hmax m' ltac:(lia)). lra.
Qed.

Lemma step_eval (k : nat) (cp : list Z) (tmp : Z) :
  (k < length d)%nat ->
  tmp = -1 \/ (exists t, tmp = Z.of_nat t /\ (t < length d)%nat) ->
  Signal.high_second_derivative_step d s alpha (cp, tmp) (Z.of_nat k) =
  Ok (if E k then
        if tmp <? 0 then (cp, Z.of_nat k)
        else if Qle_bool (nth (Z.to_nat tmp) d 0%Q) (nth k d 0%Q)
             then (cp, Z.of_nat k) else (cp, tmp)
      else if 0 <=? tmp then (cp ++ [tmp], -1) else (cp, tmp)).
Proof.
  intros Hk Htmp. unfold Signal.high_second_derivative_step.
  destruct (getitem_nonneg d (Z.of_nat k)) as (dk & -> & Hdk);
    [unfold Py.len; lia|].
  destruct (getitem_nonneg s (Z.of_nat k)) as (sk & -> & Hsk);
    [unfold Py.len; lia|].
  rewrite Nat2Z.id in Hdk, Hsk. cbn [bind].
  unfold E, Runs.exceeds. rewrite Hdk, Hsk.
  rewrite (nth_lookup_Some _ _ _ _ Hdk).
  destruct (Np.flt _ _); [|by destruct (0 <=? tmp)].
  destruct Htmp as [-> | (t & -> & Ht)]; [done|].
  destruct (Z.ltb_spec (Z.of_nat t) 0); [lia|].
  destruct (getitem_nonneg d (Z.of_nat t)) as (dt & -> & Hdt);
    [unfold Py.len; lia|].
  cbn [bind]. rewrite (nth_lookup_Some _ _ _ _ Hdt).
  by destruct (Qle_bool dt dk).
Qed.

Lemma sorted_snoc (cp : list Z) (t : Z) :
  StronglySorted Z.lt cp -> Forall (fun m => m < t) cp ->
  StronglySorted Z.lt (cp ++ [t]).
Proof.
  intros Hs Hf. apply StronglySorted_app_2; [|done|repeat constructor].
  intros x y Hx Hy. apply list_elem_of_singleton in Hy as ->.
  rewrite Forall_forall in Hf. by apply Hf.
Qed.

(** One turn of the loop keeps the invariant. *)
Lemma step_invariant (k : nat) (st : list Z * Z) :
  (k < length d)%nat ->
  Runs.invariant E d k st ->
  exists st',
    Signal.high_second_derivative_step d s alpha st (Z.of_nat k) = Ok st'
    /\ Runs.invariant E d (S k) st'.
Proof.
  intros Hk. destruct st as [cp tmp]. intros (Hcp & Hsorted & Htmp).
  assert (Hrange : tmp = -1 \/ (exists t, tmp = Z.of_nat t /\ (t < length d)%nat)).
  { destruct Htmp as [[-> _]|(a & t & -> & _ & (Ht & _))]; [by left|right].
    exists t. split; [done|lia]. }
  rewrite (step_eval k cp tmp Hk Hrange). eexists. split; [reflexivity|].
  destruct (E k) eqn:HEk.
  - (* the position passes the test: no run is closed *)
    assert (Hcp' : forall m : Z, m ∈ cp <->
              exists a b t, m = Z.of_nat t /\ Runs.closed_run E a b
                            /\ (b < S k)%nat /\ Runs.last_argmax d a b t).
    { intros m. rewrite Hcp. split.
      - intros (a & b & t & ? & ? & ? & ?). exists a, b, t.
        split; [done|]. split; [done|]. split; [lia|done].
      - intros (a & b & t & ? & Hrun & Hb & ?). exists a, b, t.
        split; [done|]. split; [done|]. split; [|done].
        destruct (decide (b = k)) as [->|]; [|lia].
        destruct Hrun as [_ Hf]. congruence. }
    destruct Htmp as [[-> Hprev]|(a & t & -> & (Hak & Hall & Hleft) & (Ht & Hmax & Hlast))].
    + cbn. split; [exact Hcp'|]. split; [done|]. right.
      exists k, k. split; [done|]. split.
      * split; [lia|]. split.
        -- intros i Hi. by replace i with k by lia.
        -- destruct Hprev as [->|?]; [by left|by right].
      * split; [lia|]. split.
        -- intros i Hi. replace i with k by lia. apply Qle_refl.
        -- intros i Hi. lia.
    + destruct (Z.ltb_spec (Z.of_nat t) 0); [lia|]. rewrite Nat2Z.id.
      assert (Hopen : Runs.open_run E a (S k)).
      { split; [lia|]. split; [|done]. intros i Hi.
        destruct (decide (i = k)) as [->|]; [done|]. apply Hall. lia. }
      destruct (Qle_bool (nth t d 0%Q) (nth k d 0%Q)) eqn:Hcmp.
      * apply Qle_bool_iff in Hcmp.
        split; [exact Hcp'|]. split; [done|]. right.
        exists a, k. split; [done|]. split; [done|].
        split; [lia|]. split.
        -- intros i Hi. destruct (decide (i = k)) as [->|]; [apply Qle_refl|].
           eapply Qle_trans; [apply Hmax; lia|done].
        -- intros i Hi. lia.
      * assert (Hlt : (nth k d 0 < nth t d 0%Q)%Q).
        { apply Qnot_le_lt. intros Hle. apply Qle_bool_iff in Hle. congruence. }
        split; [exact Hcp'|]. split; [done|]. right.
        exists a, t. split; [done|]. split; [done|].
        split; [lia|]. split.
        -- intros i Hi. destruct (decide (i = k)) as [->|]; [lra|].
           apply Hmax. lia.
        -- intros i Hi. destruct (decide (i = k)) as [->|]; [done|].
           apply Hlast. lia.
  - (* the position fails the test: the open run, if any, is closed *)
    destruct Htmp as [[-> Hprev]|(a & t & -> & Hopen & Hargmax)].
    + cbn. split; [|split; [done|]].
      * intros m. rewrite Hcp. split.
        -- intros (a & b & t & ? & ? & ? & ?). exists a, b, t.
           split; [done|]. split; [done|]. split; [lia|done].
        -- intros (a & b & t & ? & Hrun & Hb & ?). exists a, b, t.
           split; [done|]. split; [done|]. split; [|done].
           destruct (decide (b = k)) as [->|]; [|lia]. exfalso.
           destruct Hrun as [(Hak & Hall & _) _].
           destruct Hprev as [->|Hf]; [lia|].
           rewrite Hall in Hf by lia. discriminate.
      * left. split; [done|]. right. by rewrite Nat.sub_0_r.
    + destruct (Z.leb_spec 0 (Z.of_nat t)); [|lia].
      split; [|split].
      * intros m. rewrite elem_of_app, Hcp, list_elem_of_singleton. split.
        -- intros [(a' & b & t' & ? & ? & ? & ?)| ->].
           ++ exists a', b, t'.
              split; [done|]. split; [done|]. split; [lia|done].
           ++ exists a, k, t.
              split; [done|]. split; [by split|]. split; [lia|done].
        -- intros (a' & b & t' & -> & Hrun & Hb & Harg).
           destruct (decide (b = k)) as [->|]; [right|left].
           ++ destruct Hrun as [Hopen' _].
              rewrite (open_run_start_unique _ _ _ Hopen' Hopen) in Harg.
              f_equal. by eapply last_argmax_unique.
           ++ exists a', b, t'.
              split; [done|]. split; [done|]. split; [lia|done].
      * apply sorted_snoc; [done|]. apply Forall_forall. intros m Hm.
        apply Hcp in Hm as (a' & b & t' & -> & [_ Hfb] & Hb & (Ht' & _)).
        destruct Hopen as (Hak & Hall & _). destruct Hargmax as (Ht & _).
        assert (b < a)%nat; [|lia].
        destruct (Nat.lt_ge_cases b a); [done|].
        rewrite Hall in Hfb by lia. discriminate.
      * left. split; [done|]. right. by replace (S k - 1)%nat with k by lia.
Qed.

Lemma loop_from (j : nat) :
  forall (k : nat) (st : list Z * Z),
  (k + j)%nat = length d ->
  Runs.invariant E d k st ->
  exists st',
    foldM (Signal.high_second_derivative_step d s alpha)
          (seqZ (Z.of_nat k) (Z.of_nat j)) st = Ok st'
    /\ Runs.invariant E d (length d) st'.
Proof.
  induction j as [|j IH]; intros k st Hkj Hinv.
  - exists st. split; [done|]. by replace (length d) with k by lia.
  - rewrite seqZ_cons by lia. cbn [foldM].
    destruct (step_invariant k st) as (st1 & -> & Hinv1); [lia|done|].
    cbn [bind].
    replace (Z.succ (Z.of_nat k)) with (Z.of_nat (S k)) by lia.
    replace (Z.pred (Z.of_nat (S j))) with (Z.of_nat j) by lia.
    apply IH; [lia|done].
Qed.

(** The loop returns, in ascending order, the last maximum of every run that
    is closed by a later position of the signal. *)
Lemma high_second_derivative_loop_spec :
  exists r,
    Signal.high_second_derivative_loop d s alpha = Ok r
    /\ StronglySorted Z.lt r
    /\ (forall m : Z, m ∈ r <->
          exists a b t, m = Z.of_nat t /\ Runs.closed_run E a b
                        /\ (b < length d)%nat /\ Runs.last_argmax d a b t).
Proof.
  unfold Signal.high_second_derivative_loop, Py.range, Py.len.
  destruct (loop_from (length d) 0 ([], -1)) as ([r tmp] & Hrun & Hinv).
  - done.
  - split; [|split; [constructor|]].
    + intros m. split; [intros Hm; inversion Hm|].
      intros (a & b & t & _ & _ & Hb & _). lia.
    + left. split; [done|by left].
  - change (Z.of_nat 0) with 0 in Hrun. rewrite Hrun. cbn [bind].
    exists r. split; [done|].
    destruct Hinv as (Hcp & Hsorted & _). done.
Qed.

End high_second_derivative.

Lemma mapM_const {A B : Type} (f : A -> result B) (b : B) (l : list A) :
  (forall a, f a = Ok b) -> mapM f l = Ok (replicate (length l) b).
Proof.
  intros Hf. induction l as [|a l IH]; simpl; [done|].
  by rewrite Hf, IH.
Qed.

(** [moving_standard_deviation] raises nothing, and its result covers every
    position of the input. *)
Lemma moving_standard_deviation_total (x : list Q) (w : Z) :
  exists std,
    Signal.moving_standard_deviation x w = Ok std
    /\ (length x <= length std)%nat.
Proof.
  unfold Signal.moving_standard_deviation.
  destruct (Z.eqb_spec (Py.len x) 0) as [H0|H0].
  { exists []. split; [done|]. unfold Py.len in H0. simpl. lia. }
  destruct (Z.leb_spec (Py.len x - w) w) as [Hw|Hw].
  { eexists. split; [reflexivity|].
    rewrite length_fmap. unfold Py.range. rewrite length_seqZ.
    unfold Py.len. lia. }
  set (std := _ <$> Py.range2 w (Py.len x - w)).
  assert (Hstd : length std = Z.to_nat (Py.len x - 2 * w)).
  { subst std. rewrite length_fmap. unfold Py.range2. rewrite length_seqZ.
    f_equal. lia. }
  destruct (getitem_nonneg std 0) as (s0 & Hs0 & _);
    [unfold Py.len; lia|].
  destruct (getitem_negative std (-1)) as (sl & Hsl & _);
    [unfold Py.len; lia|].
  rewrite (mapM_const _ s0) by done. cbn [bind].
  rewrite (mapM_const _ sl) by done. cbn [bind].
  eexists. split; [reflexivity|].
  rewrite !length_app, !length_replicate, Hstd.
  unfold Py.range. rewrite length_seqZ. unfold Py.len in *. lia.
Qed.

Lemma moving_average_window_1_total (x : list Q) :
  exists y, Signal.moving_average x 1 = Ok y.
Proof.
  unfold Signal.moving_average.
  destruct (Py.len x =? 0); [eauto|].
  destruct (Py.len x <=? 1 + 1); [eauto|]. simpl. eauto.
Qed.

Lemma second_derivative_1_total (x : list Q) :
  exists dx2, Signal.second_derivative x 1 = Ok dx2.
Proof.
  unfold Signal.second_derivative.
  change (Signal.odd_window 1) with 1.
  destruct (moving_average_window_1_total (Np.diff x)) as (d1 & ->). cbn [bind].
  apply moving_average_window_1_total.
Qed.

(** C6, as the code has it: [get_high_second_derivative_points] always
    returns, and its result lists in ascending order exactly one index per
    maximal run of positions with [|dx2| > alpha * std] that is followed by
    a position of the signal failing the test: the position of the maximum
    of [|dx2|] over the run (the last one on a tie). The loop commits a run
    only at the position after it, so a run that reaches the last position
    contributes no index. *)
Theorem get_high_second_derivative_points_closed_runs (self : Signal.t)
    (signal : list Q) (alpha : Q) :
  exists dx2 std r,
    Signal.second_derivative signal 1 = Ok dx2
    /\ Signal.moving_standard_deviation dx2 (Signal.avg_window self) = Ok std
    /\ Signal.get_high_second_derivative_points self signal alpha = Ok r
    /\ StronglySorted Z.lt r
    /\ (forall m : Z, m ∈ r <->
          exists a b t,
            m = Z.of_nat t
            /\ Runs.closed_run (Runs.exceeds (Qabs <$> dx2) std alpha) a b
            /\ (b < length dx2)%nat
            /\ Runs.last_argmax (Qabs <$> dx2) a b t)
    /\ (forall a,
          Runs.open_run (Runs.exceeds (Qabs <$> dx2) std alpha) a (length dx2) ->
          forall m, m ∈ r -> m < Z.of_nat a).
Proof.
  destruct (second_derivative_1_total signal) as (dx2 & Hdx2).
  destruct (moving_standard_deviation_total dx2 (Signal.avg_window self))
    as (std & Hstd & Hlen).
  destruct (high_second_derivative_loop_spec (Qabs <$> dx2) std alpha)
    as (r & Hr & Hsorted & Hspec).
  { by rewrite length_fmap. }
  rewrite length_fmap in Hspec.
  exists dx2, std, r. split; [done|]. split; [done|].
  split; [|split; [done|split; [done|]]].
  - unfold Signal.get_high_second_derivative_points.
    rewrite Hdx2. cbn [bind]. rewrite Hstd. cbn [bind]. exact Hr.
  - intros a (Ha & Hall & _) m Hm.
    apply Hspec in Hm as (a' & b & t & -> & [_ Hfb] & Hb & (Ht & _)).
    assert (b < a)%nat; [|lia].
    destruct (Nat.lt_ge_cases b a); [done|].
    rewrite Hall in Hfb by lia. discriminate.
Qed.

(** C6 as stated fails on a run that reaches the last position. For the
    signal [[0, 0, 0, 0, 0, 0, 1]] at 30 frames per second the second
    derivative is [[0, 0, 0, 0, 1]] and its deviation is [2/5] everywhere:
    with [alpha = 1.2] the only run is the last position [4], and no index
    is returned for it. *)
Lemma get_high_second_derivative_points_trailing_run :
  ~ (forall (self : Signal.t) (signal : list Q) (alpha : Q),
       exists dx2 std r,
         Signal.second_derivative signal 1 = Ok dx2
         /\ Signal.moving_standard_deviation dx2 (Signal.avg_window self) = Ok std
         /\ Signal.get_high_second_derivative_points self signal alpha = Ok r
         /\ (forall m : Z, m ∈ r <->
               exists a b t,
                 m = Z.of_nat t
                 /\ Runs.closed_run (Runs.exceeds (Qabs <$> dx2) std alpha) a b
                 /\ Runs.last_argmax (Qabs <$> dx2) a b t)).
Proof.
  intros H.
  destruct (H (Signal.init 30) (inject_Z <$> [0; 0; 0; 0; 0; 0; 1]) (12 # 10))
    as (dx2 & std & r & Hdx2 & Hstd & Hr & Hspec).
  vm_compute in Hdx2. injection Hdx2 as <-.
  vm_compute in Hstd. injection Hstd as <-.
  vm_compute in Hr. injection Hr as <-.
  assert (Hin : (4 : Z) ∈ ([] : list Z)); [|inversion Hin].
  apply Hspec. exists 4%nat, 5%nat, 4%nat. split; [done|]. split; [|split].
  - split; [|reflexivity]. split; [lia|]. split; [|right; reflexivity].
    intros i Hi. replace i with 4%nat by lia. reflexivity.
  - lia.
  - split.
    + intros i Hi. replace i with 4%nat by lia. apply Qle_refl.
    + intros i Hi. lia.
Qed.

(** ** Totality of [moving_average] and [categorize_points] *)

(** With a window of at least one sample, [moving_average] raises nothing
    and its result covers every position of the input. *)
Lemma moving_average_total (x : list Q) (w : Z) :
  1 <= w ->
  exists y, Signal.moving_average x w = Ok y /\ (length x <= length y)%nat.
Proof.
  intros Hw. unfold Signal.moving_average.
  destruct (Z.eqb_spec (Py.len x) 0) as [H0|H0].
  { exists []. split; [done|]. unfold Py.len in H0. simpl. lia. }
  destruct (Z.leb_spec (Py.len x) (w + 1)) as [Hshort|Hlong].
  { eexists. split; [reflexivity|].
    rewrite length_fmap. unfold Py.range. rewrite length_seqZ.
    unfold Py.len. lia. }
  destruct (Z.eqb_spec w 1) as [_|H1]; [by exists x|].
  unfold Np.convolve_valid_ones.
  destruct (Z.leb_spec (w * 2) 0); [lia|].
  destruct (Z.eqb_spec (Py.len x) 0); [done|]. cbn [orb].
  assert (Hconv : exists conv,
             (if w * 2 <=? Py.len x
              then Ok ((fun k => Py.sum (Py.slice x k (k + w * 2)))
                         <$> Py.range (Py.len x - w * 2 + 1))
              else Ok (replicate (Z.to_nat (w * 2 - Py.len x + 1)) (Py.sum x)))
             = Ok conv
             /\ (0 < length conv)%nat
             /\ (Py.len x - w * 2 + 1 <= Z.of_nat (length conv))).
  { destruct (Z.leb_spec (w * 2) (Py.len x)).
    - eexists. split; [reflexivity|].
      rewrite length_fmap. unfold Py.range. rewrite length_seqZ. lia.
    - eexists. split; [reflexivity|]. rewrite length_replicate. lia. }
  destruct Hconv as (conv & -> & Hpos & Hcover). cbn [bind].
  set (avg := _ <$> conv).
  assert (Havg : length avg = length conv) by (subst avg; apply length_fmap).
  destruct (getitem_nonneg avg 0) as (a0 & Ha0 & _); [unfold Py.len; lia|].
  destruct (getitem_negative avg (-1)) as (al & Hal & _); [unfold Py.len; lia|].
  rewrite (mapM_const _ a0) by done. cbn [bind].
  rewrite (mapM_const _ al) by done. cbn [bind].
  eexists. split; [reflexivity|].
  rewrite !length_app, !length_replicate.
  unfold Py.range, Py.range2. rewrite !length_seqZ.
  unfold Py.len in *. lia.
Qed.

(** On points that index the signal, and with an averaging window of at
    least one sample, [categorize_points] raises nothing. *)
Lemma categorize_points_total (self : Signal.t) (signal : list Q)
    (points : list Z) :
  1 <= Signal.avg_window self ->
  Forall (Py.valid_index signal) points ->
  exists g, Signal.categorize_points self signal points = Ok g.
Proof.
  intros Hw Hpoints. unfold Signal.categorize_points.
  destruct (moving_average_total signal (Signal.avg_window self) Hw)
    as (avg & -> & Havg).
  destruct (moving_average_total signal 3) as (smothed & -> & Hsm); [lia|].
  cbn [bind].
  assert (Hgen : forall g : gmap string (list Z),
             is_Some (g !! "min") -> is_Some (g !! "max") ->
             exists g',
               foldM (fun grouped_points idx =>
                        let* s := Py.getitem smothed idx in
                        let* a := Py.getitem avg idx in
                        if Py.Qlt_bool a s
                        then Signal.dict_append grouped_points "max" idx
                        else Signal.dict_append grouped_points "min" idx)
                     points g = Ok g').
  { induction Hpoints as [|idx points Hidx _ IH]; intros g Hmin Hmax;
      cbn [foldM]; [eauto|].
    destruct (getitem_valid smothed idx) as (sv & ->).
    { unfold Py.valid_index, Py.len in *. lia. }
    destruct (getitem_valid avg idx) as (av & ->).
    { unfold Py.valid_index, Py.len in *. lia. }
    cbn [bind]. destruct Hmin as [mins Hmin]. destruct Hmax as [maxs Hmax].
    unfold Signal.dict_append, dict_get.
    destruct (Py.Qlt_bool av sv).
    - rewrite Hmax. cbn [bind]. apply IH.
      + rewrite lookup_insert_ne by done. eauto.
      + rewrite lookup_insert_eq. eauto.
    - rewrite Hmin. cbn [bind]. apply IH.
      + rewrite lookup_insert_eq. eauto.
      + rewrite lookup_insert_ne by done. eauto. }
  apply Hgen.
  - rewrite lookup_insert_eq. eauto.
  - rewrite lookup_insert_ne by done. rewrite lookup_insert_eq. eauto.
Qed.

(** * Further properties of the modelled code *)

(** ** [scale] *)

Lemma mapM_length {A B : Type} (f : A -> result B) (l : list A) (r : list B) :
  mapM f l = Ok r -> length r = length l.
Proof.
  intros H. apply mapM_Ok in H. symmetry. by eapply Forall2_length.
Qed.

Lemma min_from_elem (m : Q) (l : list Q) :
  Py.min_from m l = m \/ Py.min_from m l ∈ l.
Proof.
  revert m. induction l as [|a l IH]; intros m; simpl; [by left|].
  destruct (Py.Qlt_bool a m).
  - destruct (IH a) as [-> | H]; right; [left|by right].
  - destruct (IH m) as [-> | H]; [by left|right; by right].
Qed.

Lemma max_from_elem (m : Q) (l : list Q) :
  Py.max_from m l = m \/ Py.max_from m l ∈ l.
Proof.
  revert m. induction l as [|a l IH]; intros m; simpl; [by left|].
  destruct (Py.Qlt_bool m a).
  - destruct (IH a) as [-> | H]; right; [left|by right].
  - destruct (IH m) as [-> | H]; [by left|right; by right].
Qed.

Lemma min_elem (l : list Q) (m : Q) : Py.min l = Ok m -> m ∈ l.
Proof.
  destruct l as [|a l]; simpl; [discriminate|]. intros [= <-].
  destruct (min_from_elem a l) as [-> | H]; [left|by right].
Qed.

Lemma max_elem (l : list Q) (m : Q) : Py.max l = Ok m -> m ∈ l.
Proof.
  destruct l as [|a l]; simpl; [discriminate|]. intros [= <-].
  destruct (max_from_elem a l) as [-> | H]; [left|by right].
Qed.




(** Among equal samples Python's [min] and [max] give the first one. *)
Lemma number_min_from_equal (m : Np.number) (l : list Np.number) :
  Forall (fun y => (Np.value y == Np.value m)%Q) l ->
  Np.number_min_from m l = m.
Proof.
  induction 1 as [|a l Ha _ IH]; simpl; [done|].
  replace (Py.Qlt_bool (Np.value a) (Np.value m)) with false; [done|].
  symmetry. apply Qlt_bool_false. lra.
Qed.

Lemma number_max_from_equal (m : Np.number) (l : list Np.number) :
  Forall (fun y => (Np.value y == Np.value m)%Q) l ->
  Np.number_max_from m l = m.
Proof.
  induction 1 as [|a l Ha _ IH]; simpl; [done|].
  replace (Py.Qlt_bool (Np.value m) (Np.value a)) with false; [done|].
  symmetry. apply Qlt_bool_false. lra.
Qed.

Lemma mapM_replicate {A B : Type} (f : A -> result B) (b : B) (l : list A) :
  Forall (fun a => f a = Ok b) l -> mapM f l = Ok (replicate (length l) b).
Proof.
  induction 1 as [|a l Ha _ IH]; simpl; [done|]. by rewrite Ha, IH.
Qed.


(** On a constant signal of two or more samples the division in [scale] is
    a division of zero by zero. What happens is decided by the first
    sample, which is both [signal_min] and [signal_max]: when it is a Python
    number the first quotient is a Python division and raises
    [ZeroDivisionError]; when it is a numpy scalar every quotient is a
    numpy division, nothing is raised, and the result is [nan]
    throughout. *)
Theorem scale_constant (x : Np.number) (rest : list Np.number)
    (lower upper : Q) :
  rest <> [] ->
  Forall (fun y => (Np.value y == Np.value x)%Q) rest ->
  Signal.scale (x :: rest) lower upper
  = if Np.is_numpy x then Ok (replicate (S (length rest)) Np.NaN)
    else Raise ZeroDivisionError.
Proof.
  intros Hne Hall. unfold Signal.scale.
  assert (Hlen : 2 <= Py.len (x :: rest)).
  { destruct rest; [done|]. unfold Py.len. simpl. lia. }
  destruct (Z.eqb_spec (Py.len (x :: rest)) 0); [lia|].
  destruct (Z.eqb_spec (Py.len (x :: rest)) 1); [lia|].
  cbn [Np.number_min Np.number_max bind].
  rewrite (number_min_from_equal x rest Hall).
  rewrite (number_max_from_equal x rest Hall).
  assert (Hd : Qeq_bool (Np.value x - Np.value x) 0 = true).
  { apply Qeq_bool_iff. ring. }
  destruct (Np.is_numpy x) eqn:Hx.
  - change (S (length rest)) with (length (x :: rest)).
    apply mapM_replicate. apply Forall_forall. intros y Hy.
    assert (Hyx : (Np.value y == Np.value x)%Q).
    { apply elem_of_cons in Hy as [->|Hy]; [reflexivity|].
      rewrite Forall_forall in Hall. by apply Hall. }
    rewrite !orb_true_r. cbn [bind]. unfold Np.fdiv. rewrite Hd.
    replace (Qeq_bool ((upper - lower) * (Np.value y - Np.value x)) 0)
      with true; [done|].
    symmetry. apply Qeq_bool_iff. rewrite Hyx. ring.
  - cbn [mapM]. rewrite Hx. cbn [orb]. unfold Py.truediv. rewrite Hd. done.
Qed.

Lemma scale_constant_witness :
  Signal.scale [Np.PyNum 7; Np.PyNum 7; Np.NpNum 7] 0 99
  = Raise ZeroDivisionError
  /\ Signal.scale [Np.NpNum 7; Np.PyNum 7; Np.NpNum 7] 0 99
     = Ok [Np.NaN; Np.NaN; Np.NaN].
Proof.
  split.
  - refine (scale_constant (Np.PyNum 7) [Np.PyNum 7; Np.NpNum 7] 0 99 _ _).
    + discriminate.
    + repeat constructor.
  - refine (scale_constant (Np.NpNum 7) [Np.PyNum 7; Np.NpNum 7] 0 99 _ _).
    + discriminate.
    + repeat constructor.
Defined.



(** ** [moving_average], [moving_standard_deviation] and the derivatives *)

(** The lengths of the results of [moving_average]. *)
Lemma moving_average_shape (x : list Q) (w : Z) :
  1 <= w ->
  exists y,
    Signal.moving_average x w = Ok y
    /\ (Py.len x <= w + 1 \/ w = 1 \/ 3 * w + 1 <= 2 * Py.len x ->
        length y = length x)
    /\ (w + 1 < Py.len x -> w <> 1 -> 2 * Py.len x < 3 * w + 1 ->
        Py.len y = 3 * w + 1 - Py.len x).
Proof.
  intros Hw. unfold Signal.moving_average.
  destruct (Z.eqb_spec (Py.len x) 0) as [H0|H0].
  { exists []. split; [done|]. split; [|lia].
    intros _. unfold Py.len in H0. simpl. lia. }
  destruct (Z.leb_spec (Py.len x) (w + 1)) as [Hshort|Hlong].
  { eexists. split; [reflexivity|]. split; [|lia]. intros _.
    rewrite length_fmap. unfold Py.range. rewrite length_seqZ.
    unfold Py.len. lia. }
  destruct (Z.eqb_spec w 1) as [H1|H1].
  { exists x. split; [done|]. split; [done|lia]. }
  unfold Np.convolve_valid_ones.
  destruct (Z.leb_spec (w * 2) 0); [lia|].
  destruct (Z.eqb_spec (Py.len x) 0); [done|]. cbn [orb].
  assert (Hconv : exists conv,
             (if w * 2 <=? Py.len x
              then Ok ((fun k => Py.sum (Py.slice x k (k + w * 2)))
                         <$> Py.range (Py.len x - w * 2 + 1))
              else Ok (replicate (Z.to_nat (w * 2 - Py.len x + 1)) (Py.sum x)))
             = Ok conv
             /\ Py.len conv = Z.abs (Py.len x - w * 2) + 1).
  { destruct (Z.leb_spec (w * 2) (Py.len x)).
    - eexists. split; [reflexivity|]. unfold Py.len.
      rewrite length_fmap. unfold Py.range. rewrite length_seqZ.
      unfold Py.len in *. lia.
    - eexists. split; [reflexivity|]. unfold Py.len.
      rewrite length_replicate. unfold Py.len in *. lia. }
  destruct Hconv as (conv & -> & Hconv). cbn [bind].
  set (avg := _ <$> conv).
  assert (Havg : Py.len avg = Py.len conv)
    by (subst avg; unfold Py.len; by rewrite length_fmap).
  destruct (getitem_nonneg avg 0) as (a0 & Ha0 & _); [lia|].
  destruct (getitem_negative avg (-1)) as (al & Hal & _); [lia|].
  rewrite (mapM_const _ a0) by done. cbn [bind].
  rewrite (mapM_const _ al) by done. cbn [bind].
  eexists. split; [reflexivity|].
  unfold Py.len. rewrite !length_app, !length_replicate.
  unfold Py.range, Py.range2. rewrite !length_seqZ.
  unfold Py.len in *. split; intros; lia.
Qed.

(** With a window of at least one sample [moving_average] returns a list
    that is never shorter than its input. It is exactly as long as the input
    for the short inputs, for [w = 1] and whenever [2 len(x) >= 3w + 1];
    for the lengths in between the padding overshoots and the result has
    [3w + 1 - len(x)] elements. *)
Theorem moving_average_length (x : list Q) (w : Z) :
  1 <= w ->
  exists y,
    Signal.moving_average x w = Ok y
    /\ (Py.len x <= w + 1 \/ w = 1 \/ 3 * w + 1 <= 2 * Py.len x ->
        length y = length x)
    /\ (w + 1 < Py.len x -> w <> 1 -> 2 * Py.len x < 3 * w + 1 ->
        Py.len y = 3 * w + 1 - Py.len x).
Proof. apply moving_average_shape. Qed.

Lemma moving_average_length_witness :
  exists y,
    Signal.moving_average (inject_Z <$> seqZ 0 12) 10 = Ok y
    /\ (Py.len (inject_Z <$> seqZ 0 12) <= 10 + 1 \/ 10 = 1
        \/ 3 * 10 + 1 <= 2 * Py.len (inject_Z <$> seqZ 0 12) ->
        length y = length (inject_Z <$> seqZ 0 12))
    /\ (10 + 1 < Py.len (inject_Z <$> seqZ 0 12) -> 10 <> 1 ->
        2 * Py.len (inject_Z <$> seqZ 0 12) < 3 * 10 + 1 ->
        Py.len y = 3 * 10 + 1 - Py.len (inject_Z <$> seqZ 0 12)).
Proof. apply (moving_average_length (inject_Z <$> seqZ 0 12) 10). lia. Defined.

(** For a window that is not negative, [moving_standard_deviation] returns a
    list exactly as long as its input. *)
Theorem moving_standard_deviation_length (x : list Q) (w : Z) :
  0 <= w ->
  exists std,
    Signal.moving_standard_deviation x w = Ok std /\ length std = length x.
Proof.
  intros Hw0. unfold Signal.moving_standard_deviation.
  destruct (Z.eqb_spec (Py.len x) 0) as [H0|H0].
  { exists []. split; [done|]. unfold Py.len in H0. simpl. lia. }
  destruct (Z.leb_spec (Py.len x - w) w) as [Hw|Hw].
  { eexists. split; [reflexivity|].
    rewrite length_fmap. unfold Py.range. rewrite length_seqZ.
    unfold Py.len. lia. }
  set (std := _ <$> Py.range2 w (Py.len x - w)).
  assert (Hstd : length std = Z.to_nat (Py.len x - 2 * w)).
  { subst std. rewrite length_fmap. unfold Py.range2. rewrite length_seqZ.
    f_equal. lia. }
  destruct (getitem_nonneg std 0) as (s0 & Hs0 & _);
    [unfold Py.len; lia|].
  destruct (getitem_negative std (-1)) as (sl & Hsl & _);
    [unfold Py.len; lia|].
  rewrite (mapM_const _ s0) by done. cbn [bind].
  rewrite (mapM_const _ sl) by done. cbn [bind].
  eexists. split; [reflexivity|].
  rewrite !length_app, !length_replicate, Hstd.
  unfold Py.range. rewrite length_seqZ. unfold Py.len in *. lia.
Qed.

Lemma moving_standard_deviation_length_witness :
  exists std,
    Signal.moving_standard_deviation [1; 3; 1; 3; 1; 3; 1]%Q 2 = Ok std
    /\ length std = length [1; 3; 1; 3; 1; 3; 1]%Q.
Proof.
  apply (moving_standard_deviation_length [1; 3; 1; 3; 1; 3; 1]%Q 2). lia.
Defined.






(** ** [find_nearest] on a sorted list of ints *)

Lemma sorted_lookup_le (l : list Z) (i j : nat) (a b : Z) :
  StronglySorted Z.le l -> (i <= j)%nat ->
  l !! i = Some a -> l !! j = Some b -> a <= b.
Proof.
  intros Hs. revert i j. induction Hs as [|x l Hs IH Hx]; intros i j Hij Ha Hb.
  - done.
  - destruct i as [|i], j as [|j]; simpl in *; try lia.
    + injection Ha as <-. injection Hb as <-. lia.
    + injection Ha as <-. rewrite Forall_forall in Hx. apply Hx.
      by eapply list_elem_of_lookup_2.
    + eapply IH; [|done|done]. lia.
Qed.

(** The scan of the [left] side stops at the last index whose element is
    below the value, or at index 0 when there is none. *)
Lemma scan_left_spec (array : list Z) (value : Z) (n : nat) :
  forall (k : nat) (pos : Z),
  (k + n)%nat = length array ->
  (k = 0%nat /\ pos = 0 /\ (0 < length array)%nat)
  \/ (exists a, pos = Z.of_nat k - 1 /\ array !! (k - 1)%nat = Some a
                /\ (1 <= k)%nat /\ a < value) ->
  exists p : nat,
    Signal.scan_left Z.leb array value (seqZ (Z.of_nat k) (Z.of_nat n)) pos
      = Ok (Z.of_nat p)
    /\ (p < length array)%nat
    /\ ((p = 0%nat /\ exists a, array !! 0%nat = Some a /\ value <= a)
        \/ ((exists a, array !! p = Some a /\ a < value)
            /\ forall b, array !! S p = Some b -> value <= b)).
Proof.
  induction n as [|n IH]; intros k pos Hkn Hinv.
  - simpl. destruct Hinv as [(-> & _ & ?)|(a & -> & Ha & Hk & Hlt)]; [lia|].
    exists (k - 1)%nat. split; [f_equal; lia|]. split; [lia|]. right.
    split; [eauto|]. intros b Hb. apply lookup_lt_Some in Hb. lia.
  - rewrite seqZ_cons by lia. cbn [Signal.scan_left].
    destruct (getitem_nonneg array (Z.of_nat k)) as (ak & -> & Hak);
      [unfold Py.len; lia|].
    rewrite Nat2Z.id in Hak. cbn [bind].
    destruct (Z.leb_spec value ak) as [Hle|Hgt].
    + destruct Hinv as [(-> & -> & ?)|(a & -> & Ha & Hk & Hlt)].
      * exists 0%nat. split; [done|]. split; [lia|]. left. eauto.
      * exists (k - 1)%nat. split; [f_equal; lia|]. split; [lia|]. right.
        split; [eauto|]. intros b Hb.
        replace (S (k - 1)) with k in Hb by lia. congruence.
    + replace (Z.succ (Z.of_nat k)) with (Z.of_nat (S k)) by lia.
      replace (Z.pred (Z.of_nat (S n))) with (Z.of_nat n) by lia.
      apply IH; [lia|]. right. exists ak.
      split; [lia|]. split; [|split; [lia|done]].
      by replace (S k - 1)%nat with k by lia.
Qed.

(** On a non-empty sorted list of ints, [find_nearest(array, value, 'left')]
    returns the greatest element strictly below the value; when no element
    is below the value it returns the first element. An element equal to
    the value is never the answer while something smaller exists. *)
Theorem find_nearest_left_sorted (array : list Z) (value : Z) :
  array <> [] ->
  StronglySorted Z.le array ->
  exists r,
    Signal.find_nearest Z.leb array value "left" = Ok r
    /\ r ∈ array
    /\ ((r < value /\ forall a, a ∈ array -> a < value -> a <= r)
        \/ ((forall a, a ∈ array -> value <= a) /\ head array = Some r)).
Proof.
  intros Hne Hs. unfold Signal.find_nearest.
  change (Py.lower "left" =? "left")%string with true. cbv iota.
  assert (Hpos : (0 < length array)%nat) by (destruct array; [done|simpl; lia]).
  destruct (scan_left_spec array value (length array) 0 0) as (p & Hp & Hlt & Hcase).
  { done. } { left. done. }
  unfold Py.range, Py.len. change (Z.of_nat 0) with 0 in Hp. rewrite Hp.
  cbn [bind].
  destruct (getitem_nonneg array (Z.of_nat p)) as (r & -> & Hr);
    [unfold Py.len; lia|].
  rewrite Nat2Z.id in Hr. exists r. split; [done|].
  split; [by eapply list_elem_of_lookup_2|].
  destruct Hcase as [(-> & a & Ha & Hle)|((a & Ha & Hlt') & Hnext)].
  - right. rewrite Hr in Ha. injection Ha as <-. split.
    + intros a Ha. apply list_elem_of_lookup in Ha as [i Hi].
      pose proof (sorted_lookup_le array 0 i r a Hs ltac:(lia) Hr Hi). lia.
    + by rewrite head_lookup.
  - left. rewrite Hr in Ha. injection Ha as <-. split; [done|].
    intros a Ha Halt. apply list_elem_of_lookup in Ha as [i Hi].
    destruct (Nat.le_gt_cases i p) as [Hip|Hip].
    + by eapply (sorted_lookup_le array i p).
    + exfalso. destruct (lookup_lt_is_Some_2 array (S p)) as [b Hb].
      { apply lookup_lt_Some in Hi. lia. }
      pose proof (Hnext b Hb).
      pose proof (sorted_lookup_le array (S p) i b a Hs ltac:(lia) Hb Hi). lia.
Qed.

Lemma find_nearest_left_sorted_witness :
  exists r,
    Signal.find_nearest Z.leb [1; 5; 9] 5 "left" = Ok r
    /\ r ∈ [1; 5; 9]
    /\ ((r < 5 /\ forall a, a ∈ [1; 5; 9] -> a < 5 -> a <= r)
        \/ ((forall a, a ∈ [1; 5; 9] -> 5 <= a) /\ head [1; 5; 9] = Some r)).
Proof.
  apply (find_nearest_left_sorted [1; 5; 9] 5); [discriminate|].
  repeat constructor; lia.
Defined.

(** The scan of the [right] side stops at the first index whose element is
    above the value, or at the last index when there is none. *)
Lemma scan_right_spec (array : list Z) (value : Z) (n : nat) :
  forall pos : Z,
  (n <= length array)%nat ->
  (n = length array /\ pos = Z.of_nat (length array) - 1
   /\ (0 < length array)%nat)
  \/ (exists a, pos = Z.of_nat n /\ array !! n = Some a /\ value < a) ->
  exists p : nat,
    Signal.scan_right Z.leb array value (reverse (seqZ 0 (Z.of_nat n))) pos
      = Ok (Z.of_nat p)
    /\ (p < length array)%nat
    /\ ((S p = length array /\ exists a, array !! p = Some a /\ a <= value)
        \/ ((exists a, array !! p = Some a /\ value < a)
            /\ forall b, (1 <= p)%nat -> array !! (p - 1)%nat = Some b ->
                         b <= value)).
Proof.
  induction n as [|n IH]; intros pos Hn Hinv.
  - simpl. destruct Hinv as [(? & _ & ?)|(a & -> & Ha & Hlt)]; [lia|].
    exists 0%nat. split; [done|]. split; [by eapply lookup_lt_Some|]. right.
    split; [eauto|]. intros b ?. lia.
  - rewrite seqZ_S, reverse_app, reverse_singleton. cbn [app].
    cbn [Signal.scan_right]. replace (0 + Z.of_nat n) with (Z.of_nat n) by lia.
    destruct (getitem_nonneg array (Z.of_nat n)) as (an & -> & Han);
      [unfold Py.len; lia|].
    rewrite Nat2Z.id in Han. cbn [bind].
    destruct (Z.leb_spec an value) as [Hle|Hgt].
    + destruct Hinv as [(Hlen & -> & ?)|(a & -> & Ha & Hlt)].
      * exists n. split; [f_equal; lia|]. split; [lia|]. left.
        split; [lia|]. eauto.
      * exists (S n). split; [done|]. split; [by eapply lookup_lt_Some|].
        right. split; [eauto|]. intros b _ Hb.
        replace (S n - 1)%nat with n in Hb by lia. congruence.
    + apply IH; [lia|]. right. exists an. done.
Qed.

(** On a non-empty sorted list of ints, [find_nearest(array, value, 'right')]
    returns the least element strictly above the value; when no element is
    above the value it returns the last element. *)
Theorem find_nearest_right_sorted (array : list Z) (value : Z) :
  array <> [] ->
  StronglySorted Z.le array ->
  exists r,
    Signal.find_nearest Z.leb array value "right" = Ok r
    /\ r ∈ array
    /\ ((value < r /\ forall a, a ∈ array -> value < a -> r <= a)
        \/ ((forall a, a ∈ array -> a <= value) /\ last array = Some r)).
Proof.
  intros Hne Hs. unfold Signal.find_nearest.
  change (Py.lower "right" =? "left")%string with false.
  change (Py.lower "right" =? "right")%string with true. cbv iota.
  assert (Hpos : (0 < length array)%nat) by (destruct array; [done|simpl; lia]).
  destruct (scan_right_spec array value (length array)
              (Z.of_nat (length array) - 1)) as (p & Hp & Hlt & Hcase).
  { done. } { left. done. }
  unfold Py.range, Py.len. rewrite Hp. cbn [bind].
  destruct (getitem_nonneg array (Z.of_nat p)) as (r & -> & Hr);
    [unfold Py.len; lia|].
  rewrite Nat2Z.id in Hr. exists r. split; [done|].
  split; [by eapply list_elem_of_lookup_2|].
  destruct Hcase as [(Hlast & a & Ha & Hle)|((a & Ha & Hgt) & Hprev)].
  - right. rewrite Hr in Ha. injection Ha as <-. split.
    + intros a Ha. apply list_elem_of_lookup in Ha as [i Hi].
      pose proof (lookup_lt_Some _ _ _ Hi).
      pose proof (sorted_lookup_le array i p a r Hs ltac:(lia) Hi Hr). lia.
    + rewrite last_lookup. replace (pred (length array)) with p by lia. done.
  - left. rewrite Hr in Ha. injection Ha as <-. split; [done|].
    intros a Ha Hagt. apply list_elem_of_lookup in Ha as [i Hi].
    destruct (Nat.le_gt_cases p i) as [Hip|Hip].
    + by eapply (sorted_lookup_le array p i).
    + exfalso. destruct (lookup_lt_is_Some_2 array (p - 1)) as [b Hb]; [lia|].
      pose proof (Hprev b ltac:(lia) Hb).
      pose proof (sorted_lookup_le array i (p - 1) a b Hs ltac:(lia) Hi Hb). lia.
Qed.

Lemma find_nearest_right_sorted_witness :
  exists r,
    Signal.find_nearest Z.leb [1; 5; 9] 5 "right" = Ok r
    /\ r ∈ [1; 5; 9]
    /\ ((5 < r /\ forall a, a ∈ [1; 5; 9] -> 5 < a -> r <= a)
        \/ ((forall a, a ∈ [1; 5; 9] -> a <= 5) /\ last [1; 5; 9] = Some r)).
Proof.
  apply (find_nearest_right_sorted [1; 5; 9] 5); [discriminate|].
  repeat constructor; lia.
Defined.

(** ** [merge_points]: what is never merged *)

(** Without base points the first candidate already fails: [find_nearest]
    reads [array[0]] of the empty merged list. *)
Theorem merge_points_empty_base_raises (self : Signal.t) (signal : list Q)
    (e : Z) (additional_points : list Z) :
  Signal.merge_points self signal [] (e :: additional_points)
  = Raise IndexError.
Proof. reflexivity. Qed.

Lemma merge_time_threshold_ge_1 (self : Signal.t) :
  (1 <= Signal.merge_time_threshold self)%Q.
Proof. unfold Signal.merge_time_threshold. apply max_from_ge. Qed.

(** A candidate that is already among the merged points is skipped. *)
Lemma merge_step_fresh (self : Signal.t) (signal : list Q) (merged : list Z)
    (idx : Z) (merged' : list Z) :
  Signal.merge_step self signal merged idx = Ok merged' ->
  merged' = merged \/ (merged' = Py.insort merged idx /\ idx ∉ merged).
Proof.
  intros H. destruct (decide (idx ∈ merged)) as [Hin|Hout].
  - left. revert H. unfold Signal.merge_step.
    set (near := filter _ merged).
    assert (Hnear : idx ∈ near).
    { subst near. apply list_elem_of_filter. split; [|done].
      rewrite Z.sub_diag. change (inject_Z (Z.abs 0)) with 0%Q.
      apply Qle_bool_iff.
      pose proof (merge_time_threshold_ge_1 self). lra. }
    destruct (Z.ltb_spec 0 (Py.len near)) as [_|Hlen]; [by intros [= <-]|].
    destruct near; [inversion Hnear|]. unfold Py.len in Hlen. simpl in Hlen. lia.
  - apply merge_step_Ok in H as [-> | ->]; [by left|by right].
Qed.

Lemma sorted_le_NoDup_lt (l : list Z) :
  StronglySorted Z.le l -> NoDup l -> StronglySorted Z.lt l.
Proof.
  induction 1 as [|a l Hs IH Ha]; intros Hnd; [constructor|].
  apply NoDup_cons in Hnd as [Hout Hnd]. constructor; [by apply IH|].
  rewrite Forall_forall in Ha |- *. intros x Hx.
  pose proof (Ha x Hx). assert (x <> a) by (intros ->; done). lia.
Qed.

Lemma merge_loop_NoDup (self : Signal.t) (signal : list Q)
    (additional_points merged r : list Z) :
  foldM (Signal.merge_step self signal) additional_points merged = Ok r ->
  NoDup merged -> NoDup r.
Proof.
  revert merged. induction additional_points as [|idx E IH]; intros merged; simpl.
  - by intros [= <-].
  - intros H Hnd. apply bind_Ok in H as (merged' & Hstep & H).
    apply merge_step_fresh in Hstep as [-> | [-> Hout]]; [by eapply IH|].
    eapply IH; [done|]. rewrite insort_Permutation. by constructor.
Qed.

(** [merge_points] creates no duplicates and invents no points: from base
    points that are pairwise different, every returned list is strictly
    ascending, and each of its elements is a base point or one of the
    additional points. *)
Theorem merge_points_no_duplicates (self : Signal.t) (signal : list Q)
    (base_points additional_points r : list Z) :
  NoDup base_points ->
  Signal.merge_points self signal base_points additional_points = Ok r ->
  StronglySorted Z.lt r
  /\ NoDup r
  /\ (forall x, x ∈ r -> x ∈ base_points \/ x ∈ additional_points).
Proof.
  intros Hnd H.
  destruct (merge_points_Ok self signal base_points additional_points r H)
    as (Hs & _ & _ & _ & Hfrom).
  assert (Hr : NoDup r).
  { unfold Signal.merge_points in H. eapply merge_loop_NoDup; [done|].
    by rewrite merge_sort_Permutation. }
  split; [by apply sorted_le_NoDup_lt|]. done.
Qed.

Lemma merge_points_no_duplicates_witness :
  StronglySorted Z.lt [0; 5; 9]
  /\ NoDup [0; 5; 9]
  /\ (forall x, x ∈ [0; 5; 9] -> x ∈ [9; 0] \/ x ∈ [1; 5; 9]).
Proof.
  refine (merge_points_no_duplicates (Signal.init 30)
            (inject_Z <$> [0; 10; 0; 50; 3; 90; 5; 6; 7; 8; 9; 10; 11])
            [9; 0] [1; 5; 9] [0; 5; 9] _ _).
  - apply (bool_decide_unpack _). vm_compute. exact I.
  - vm_compute. reflexivity.
Defined.

(** ** [get_direction_changes] in general *)

Lemma filterM_Ok {A : Type} (p : A -> result bool) (l r : list A) :
  filterM p l = Ok r ->
  r `sublist_of` l /\ Forall (fun a => p a = Ok true) r.
Proof.
  revert r. induction l as [|a l IH]; intros r; simpl.
  - intros [= <-]. split; [done|constructor].
  - intros H. apply bind_Ok in H as (b & Hb & H).
    apply bind_Ok in H as (r' & Hr' & [= <-]).
    destruct (IH r' Hr') as [Hsub Hall]. destruct b.
    + split; [by apply sublist_skip|by constructor].
    + split; [by apply sublist_cons|done].
Qed.

Lemma zip_fst_sublist {A B : Type} (l : list A) (k : list B) :
  (zip l k).*1 `sublist_of` l.
Proof.
  revert k. induction l as [|a l IH]; intros [|b k]; simpl;
    try apply sublist_nil_l.
  by apply sublist_skip.
Qed.

Lemma direction_loop_picks (start_position : Z) (items : list (Z * Z))
    (cp : list Z) (cur : Z) (cp' : list Z) (cur' : Z) :
  foldM (Signal.direction_step start_position) items (cp, cur) = Ok (cp', cur') ->
  exists picked,
    cp' = cp ++ ((fun m => m + start_position) <$> picked)
    /\ picked `sublist_of` items.*1.
Proof.
  revert cp cur. induction items as [|[idx d] items IH]; intros cp cur; simpl.
  - intros [= <- <-]. exists []. by rewrite app_nil_r.
  - destruct (negb (d =? cur)); simpl; intros H.
    + destruct (IH _ _ H) as (picked & -> & Hsub).
      exists (idx :: picked). split; [by rewrite <- app_assoc|].
      by apply sublist_skip.
    + destruct (IH _ _ H) as (picked & -> & Hsub).
      exists picked. split; [done|]. by apply sublist_cons.
Qed.

Lemma sublist_seqZ_sorted (l : list Z) (m n : Z) :
  l `sublist_of` seqZ m n -> StronglySorted Z.lt l.
Proof.
  intros Hsub.
  assert (Hs : StronglySorted Z.lt (seqZ m n)).
  { destruct (Z.le_gt_cases n 0); [rewrite seqZ_nil by done; constructor|].
    replace n with (Z.of_nat (Z.to_nat n)) by lia.
    generalize (Z.to_nat n) as k. clear. intros k. revert m.
    induction k as [|k IH]; intros m; [constructor|].
    rewrite seqZ_cons by lia. constructor.
    - replace (Z.pred (Z.of_nat (S k))) with (Z.of_nat k) by lia. apply IH.
    - apply Forall_forall. intros x Hx. apply elem_of_seqZ in Hx. lia. }
  revert Hs. induction Hsub as [|x l1 l2 Hsub IH|x l1 l2 Hsub IH]; intros Hs.
  - constructor.
  - apply StronglySorted_inv in Hs as [Hs Hx]. constructor; [by apply IH|].
    rewrite Forall_forall in Hx |- *. intros y Hy. apply Hx.
    by eapply elem_of_sublist.
  - apply StronglySorted_inv in Hs as [Hs _]. by apply IH.
Qed.

(** Every result of [get_direction_changes] is a subsequence of the monotone
    indices, in their order, with the first (smallest) monotone index added
    to each: for the monotone indices [M], found among
    [0 .. len(signal) - filter_len - 1], the result is
    [[m + min(M) for m in picked]] for a subsequence [picked] of [M]; so it
    is strictly ascending. *)
Theorem get_direction_changes_offset (signal : list Q) (filter_len : Z)
    (r : list Z) :
  Signal.get_direction_changes signal filter_len = Ok r ->
  r = []
  \/ exists M m0 picked,
       filterM (Signal.monotone_at signal filter_len)
               (Py.range (Py.len signal - filter_len)) = Ok M
       /\ Py.minZ M = Ok m0
       /\ picked `sublist_of` M
       /\ r = (fun m => m + m0) <$> picked
       /\ Forall (fun m => 0 <= m < Py.len signal - filter_len
                           /\ Signal.monotone_at signal filter_len m = Ok true) M
       /\ StronglySorted Z.lt r.
Proof.
  unfold Signal.get_direction_changes.
  destruct (Py.len signal <? filter_len); [intros [= <-]; by left|].
  intros H. apply bind_Ok in H as (M & HM & H).
  destruct (Py.len M <? 2); [injection H as <-; by left|].
  apply bind_Ok in H as (direction & Hdir & H).
  apply bind_Ok in H as (m0 & Hm0 & H).
  apply bind_Ok in H as (cur & Hcur & H).
  apply bind_Ok in H as ([cp cur'] & Hloop & [= <-]).
  apply direction_loop_picks in Hloop as (picked & -> & Hsub).
  destruct (filterM_Ok _ _ _ HM) as [HMsub HMall].
  right. exists M, m0, picked. split; [done|]. split; [done|].
  assert (Hpicked : picked `sublist_of` M).
  { etrans; [exact Hsub|]. apply zip_fst_sublist. }
  split; [done|]. split; [done|]. split.
  - apply Forall_forall. intros m Hm. split.
    + pose proof (elem_of_sublist _ _ _ Hm HMsub) as Hm'.
      unfold Py.range in Hm'. apply elem_of_seqZ in Hm'. lia.
    + rewrite Forall_forall in HMall. by apply HMall.
  - simpl. assert (Hs : StronglySorted Z.lt picked).
    { eapply sublist_seqZ_sorted. etrans; [exact Hpicked|exact HMsub]. }
    clear -Hs. induction Hs as [|a l Hs IH Ha]; [constructor|].
    rewrite fmap_cons. constructor; [done|].
    rewrite Forall_fmap. eapply Forall_impl; [exact Ha|]. simpl. lia.
Qed.

Lemma get_direction_changes_offset_witness :
  let s := inject_Z <$> [5; 5; 1; 2; 3; 2; 1; 2; 3] in
  [6] = []
  \/ exists M m0 picked,
       filterM (Signal.monotone_at s 2) (Py.range (Py.len s - 2)) = Ok M
       /\ Py.minZ M = Ok m0
       /\ picked `sublist_of` M
       /\ [6] = (fun m => m + m0) <$> picked
       /\ Forall (fun m => 0 <= m < Py.len s - 2
                           /\ Signal.monotone_at s 2 m = Ok true) M
       /\ StronglySorted Z.lt [6].
Proof.
  intros s. refine (get_direction_changes_offset s 2 [6] _).
  vm_compute. reflexivity.
Defined.

(** A signal that never changes has no direction change: on a constant
    signal, whatever its length, the result is empty for every
    [filter_len >= 1]. *)
Theorem get_direction_changes_constant (a : Q) (n : nat) (filter_len : Z) :
  1 <= filter_len ->
  Signal.get_direction_changes (replicate n a) filter_len = Ok [].
Proof.
  intros HL. unfold Signal.get_direction_changes.
  destruct (Z.ltb_spec (Py.len (replicate n a)) filter_len); [done|].
  set (s := replicate n a).
  assert (Hflat : forall i, 0 <= i < Py.len s - filter_len ->
             Signal.monotone_at s filter_len i = Ok false).
  { intros i Hi. unfold Signal.monotone_at.
    assert (Hget : forall j, 0 <= j < Py.len s -> Py.getitem s j = Ok a).
    { intros j Hj. destruct (getitem_nonneg s j Hj) as (v & -> & Hv).
      subst s. apply lookup_replicate in Hv as [-> _]. done. }
    assert (Hnot : Py.Qlt_bool a a = false)
      by (apply Qlt_bool_false, Qle_refl).
    rewrite range_cons by lia. cbn [Py.all].
    rewrite (Hget (i + 0)), (Hget (i + 0 + 1)) by lia.
    cbn [bind]. rewrite Hnot. done. }
  assert (Hfilter : forall l, Forall (fun i => 0 <= i < Py.len s - filter_len) l ->
             filterM (Signal.monotone_at s filter_len) l = Ok []).
  { induction 1 as [|i l Hi _ IH]; simpl; [done|].
    rewrite Hflat by done. cbn [bind]. by rewrite IH. }
  rewrite Hfilter by apply range_Forall. reflexivity.
Qed.

Lemma get_direction_changes_constant_witness :
  Signal.get_direction_changes (replicate 100 (50 : Q)) 3 = Ok [].
Proof. apply (get_direction_changes_constant 50 100 3). lia. Defined.

(** ** [get_local_min_max_points] *)

Lemma invariant_commit (smothed avg : list Q) (k : Z) (points : list Z)
    (t bound : Z) :
  Forall (fun p => 0 <= p /\ p + 1 < k
                   /\ (Extrema.below smothed avg p \/ Extrema.above smothed avg p))
         points ->
  StronglySorted Z.lt points ->
  Forall (fun p => p < bound) points ->
  0 <= bound <= t -> t < k ->
  Extrema.below smothed avg t \/ Extrema.above smothed avg t ->
  Forall (fun p => 0 <= p /\ p + 1 < k + 1
                   /\ (Extrema.below smothed avg p \/ Extrema.above smothed avg p))
         (points ++ [t])
  /\ StronglySorted Z.lt (points ++ [t])
  /\ Forall (fun p => p < k) (points ++ [t]).
Proof.
  intros Hpts Hs Hb Hbt Htk Ht. split; [|split].
  - apply Forall_app. split.
    + eapply Forall_impl; [exact Hpts|]. simpl. intros p (? & ? & ?).
      split; [done|]. split; [lia|done].
    + constructor; [|constructor]. split; [lia|]. split; [lia|done].
  - apply sorted_snoc; [done|]. eapply Forall_impl; [exact Hb|]. simpl. lia.
  - apply Forall_app. split.
    + eapply Forall_impl; [exact Hb|]. simpl. lia.
    + constructor; [lia|constructor].
Qed.

Lemma invariant_keep (smothed avg : list Q) (k : Z) (points : list Z) :
  Forall (fun p => 0 <= p /\ p + 1 < k
                   /\ (Extrema.below smothed avg p \/ Extrema.above smothed avg p))
         points ->
  Forall (fun p => 0 <= p /\ p + 1 < k + 1
                   /\ (Extrema.below smothed avg p \/ Extrema.above smothed avg p))
         points.
Proof.
  intros Hpts. eapply Forall_impl; [exact Hpts|]. simpl. intros p (? & ? & ?).
  split; [done|]. split; [lia|done].
Qed.

(** One turn of the loop keeps the invariant. *)
Lemma local_min_max_step_invariant (smothed avg : list Q) (k : Z)
    (st st' : list Z * Z * Z) :
  0 <= k ->
  Signal.local_min_max_step smothed avg st k = Ok st' ->
  Extrema.invariant smothed avg k st ->
  Extrema.invariant smothed avg (k + 1) st'.
Proof.
  intros Hk. destruct st as [[points tmin] tmax].
  unfold Signal.local_min_max_step. intros H.
  apply bind_Ok in H as (s & Hs & H). apply bind_Ok in H as (a & Ha & H).
  apply bind_Ok in H as ([points1 tmin1] & H1 & H).
  rewrite Hs, Ha in H. cbn [bind] in H.
  intros (Hpts & Hsorted & bound & Hbound & Hb & Hcase).
  destruct (Py.Qlt_bool s a) eqn:Hsa.
  - (* below the average *)
    apply Qlt_bool_true in Hsa.
    assert (Has : Py.Qlt_bool a s = false) by (apply Qlt_bool_false; lra).
    rewrite Has in H.
    assert (Hbelow : Extrema.below smothed avg k) by (exists s, a; done).
    destruct Hcase as [[-> ->]|[(Ht & -> & Hbt)|(Ht & -> & Hat)]].
    + simpl in H1. injection H1 as <- <-. simpl in H. injection H as <-.
      split; [by apply invariant_keep|]. split; [done|].
      exists bound. split; [lia|]. split; [done|]. right. left.
      split; [lia|]. done.
    + destruct (Z.ltb_spec tmin 0); [lia|].
      apply bind_Ok in H1 as (sm & Hsm & H1).
      simpl in H.
      destruct (Qle_bool s sm); injection H1 as <- <-; injection H as <-;
        (split; [by apply invariant_keep|]); (split; [done|]);
        exists bound; (split; [lia|]); (split; [done|]); right; left.
      * split; [lia|]. done.
      * split; [lia|]. done.
    + simpl in H1. injection H1 as <- <-.
      destruct (Z.leb_spec 0 tmax); [|lia]. injection H as <-.
      destruct (invariant_commit smothed avg k points tmax bound)
        as (H1 & H2 & H3); try done; try lia; [by right|].
      split; [done|]. split; [done|].
      exists k. split; [lia|]. split; [done|]. right. left.
      split; [lia|]. done.
  - (* not below *)
    apply Qlt_bool_false in Hsa.
    destruct (Py.Qlt_bool a s) eqn:Has.
    + (* above the average *)
      apply Qlt_bool_true in Has.
      assert (Habove : Extrema.above smothed avg k) by (exists s, a; done).
      destruct Hcase as [[-> ->]|[(Ht & -> & Hbt)|(Ht & -> & Hat)]].
      * simpl in H1. injection H1 as <- <-. simpl in H. injection H as <-.
        split; [by apply invariant_keep|]. split; [done|].
        exists bound. split; [lia|]. split; [done|]. right. right.
        split; [lia|]. done.
      * destruct (Z.leb_spec 0 tmin); [|lia]. injection H1 as <- <-.
        simpl in H. injection H as <-.
        destruct (invariant_commit smothed avg k points tmin bound)
          as (H1 & H2 & H3); try done; try lia; [by left|].
        split; [done|]. split; [done|].
        exists k. split; [lia|]. split; [done|]. right. right.
        split; [lia|]. done.
      * simpl in H1. injection H1 as <- <-.
        destruct (Z.ltb_spec tmax 0); [lia|].
        apply bind_Ok in H as (sm & Hsm & H).
        destruct (Qle_bool sm s); injection H as <-;
          (split; [by apply invariant_keep|]); (split; [done|]);
          exists bound; (split; [lia|]); (split; [done|]); right; right.
        -- split; [lia|]. done.
        -- split; [lia|]. done.
    + (* on the average *)
      destruct Hcase as [[-> ->]|[(Ht & -> & Hbt)|(Ht & -> & Hat)]].
      * simpl in H1. injection H1 as <- <-. simpl in H. injection H as <-.
        split; [by apply invariant_keep|]. split; [done|].
        exists bound. split; [lia|]. split; [done|]. by left.
      * destruct (Z.leb_spec 0 tmin); [|lia]. injection H1 as <- <-.
        simpl in H. injection H as <-.
        destruct (invariant_commit smothed avg k points tmin bound)
          as (H1 & H2 & H3); try done; try lia; [by left|].
        split; [done|]. split; [done|].
        exists k. split; [lia|]. split; [done|]. by left.
      * simpl in H1. injection H1 as <- <-.
        destruct (Z.leb_spec 0 tmax); [|lia]. injection H as <-.
        destruct (invariant_commit smothed avg k points tmax bound)
          as (H1 & H2 & H3); try done; try lia; [by right|].
        split; [done|]. split; [done|].
        exists k. split; [lia|]. split; [done|]. by left.
Qed.

Lemma local_min_max_loop_invariant (smothed avg : list Q) (n : nat) :
  forall (k : Z) (st st' : list Z * Z * Z),
  0 <= k ->
  foldM (Signal.local_min_max_step smothed avg) (seqZ k (Z.of_nat n)) st
    = Ok st' ->
  Extrema.invariant smothed avg k st ->
  Extrema.invariant smothed avg (k + Z.of_nat n) st'.
Proof.
  induction n as [|n IH]; intros k st st' Hk.
  - simpl. intros [= <-] Hinv. by rewrite Z.add_0_r.
  - rewrite seqZ_cons by lia. cbn [foldM]. intros H Hinv.
    apply bind_Ok in H as (st1 & Hstep & H).
    replace (Z.pred (Z.of_nat (S n))) with (Z.of_nat n) in H by lia.
    replace (k + Z.of_nat (S n)) with (Z.succ k + Z.of_nat n) by lia.
    eapply IH; [lia|exact H|].
    replace (Z.succ k) with (k + 1) by lia.
    by eapply local_min_max_step_invariant.
Qed.

(** Every result of [get_local_min_max_points] is a strictly ascending list
    of positions of the smoothed signal at which it differs from the
    long-window average (strictly below or strictly above); the last
    position is never among them, because a candidate is committed only at
    a later position. *)
Theorem get_local_min_max_points_sound (self : Signal.t) (signal : list Q)
    (filter_len : Z) (r : list Z) :
  Signal.get_local_min_max_points self signal filter_len = Ok r ->
  exists avg smoothed,
    Signal.moving_average signal (Signal.avg_window self) = Ok avg
    /\ Signal.moving_average signal filter_len = Ok smoothed
    /\ StronglySorted Z.lt r
    /\ Forall (fun p => 0 <= p /\ p + 1 < Py.len smoothed
                        /\ (Extrema.below smoothed avg p
                            \/ Extrema.above smoothed avg p)) r.
Proof.
  unfold Signal.get_local_min_max_points. intros H.
  apply bind_Ok in H as (avg & Havg & H).
  apply bind_Ok in H as (smoothed & Hsm & H).
  apply bind_Ok in H as ([[points tmin] tmax] & Hloop & [= <-]).
  exists avg, smoothed. split; [done|]. split; [done|].
  unfold Py.range, Py.len in Hloop.
  apply local_min_max_loop_invariant in Hloop; [|lia|].
  - destruct Hloop as (Hpts & Hsorted & _). split; [done|exact Hpts].
  - split; [constructor|]. split; [constructor|].
    exists 0. split; [lia|]. split; [constructor|]. by left.
Qed.

Lemma get_local_min_max_points_sound_witness :
  let s := inject_Z <$> [0; 0; 0; 0; 9; 9; 9; 9; 0; 0; 0; 0; 9; 9; 9; 9] in
  exists avg smoothed,
    Signal.moving_average s (Signal.avg_window (Signal.init 2)) = Ok avg
    /\ Signal.moving_average s 3 = Ok smoothed
    /\ StronglySorted Z.lt [3; 7; 11]
    /\ Forall (fun p => 0 <= p /\ p + 1 < Py.len smoothed
                        /\ (Extrema.below smoothed avg p
                            \/ Extrema.above smoothed avg p)) [3; 7; 11].
Proof.
  intros s.
  refine (get_local_min_max_points_sound (Signal.init 2) s 3 [3; 7; 11] _).
  vm_compute. reflexivity.
Defined.

Lemma local_min_max_step_total (smothed avg : list Q) (k : Z)
    (st : list Z * Z * Z) :
  0 <= k < Py.len smothed -> k < Py.len avg ->
  Extrema.invariant smothed avg k st ->
  exists st', Signal.local_min_max_step smothed avg st k = Ok st'.
Proof.
  intros Hk Hka. destruct st as [[points tmin] tmax].
  intros (_ & _ & bound & Hbound & _ & Hcase).
  unfold Signal.local_min_max_step.
  destruct (getitem_nonneg smothed k Hk) as (s & -> & _).
  destruct (getitem_nonneg avg k) as (a & -> & _); [lia|]. cbn [bind].
  assert (Hmin : tmin < 0 \/ exists sm, Py.getitem smothed tmin = Ok sm).
  { destruct Hcase as [[-> _]|[(_ & _ & (sm & ? & ? & _))|(_ & -> & _)]];
      [left; lia|right; eauto|left; lia]. }
  assert (Hmax : tmax < 0 \/ exists sm, Py.getitem smothed tmax = Ok sm).
  { destruct Hcase as [[_ ->]|[(_ & -> & _)|(_ & _ & (sm & ? & ? & _))]];
      [left; lia|left; lia|right; eauto]. }
  assert (H1 : exists points1 tmin1,
             (if Py.Qlt_bool s a
              then if tmin <? 0 then Ok (points, k)
                   else let* sm := Py.getitem smothed tmin in
                        if Qle_bool s sm then Ok (points, k)
                        else Ok (points, tmin)
              else if 0 <=? tmin then Ok (points ++ [tmin], -1)
                   else Ok (points, tmin)) = Ok (points1, tmin1)).
  { destruct (Py.Qlt_bool s a).
    - destruct Hmin as [?|(sm & ->)].
      + destruct (Z.ltb_spec tmin 0); [eauto|lia].
      + destruct (tmin <? 0); [eauto|]. cbn [bind].
        destruct (Qle_bool s sm); eauto.
    - destruct (0 <=? tmin); eauto. }
  destruct H1 as (points1 & tmin1 & ->). cbn [bind].
  destruct (Py.Qlt_bool a s).
  - destruct Hmax as [?|(sm & ->)].
    + destruct (Z.ltb_spec tmax 0); [eauto|lia].
    + destruct (tmax <? 0); [eauto|]. cbn [bind].
      destruct (Qle_bool sm s); eauto.
  - destruct (0 <=? tmax); eauto.
Qed.

Lemma local_min_max_loop_total (smothed avg : list Q) (n : nat) :
  forall (k : Z) (st : list Z * Z * Z),
  0 <= k -> k + Z.of_nat n <= Py.len smothed ->
  k + Z.of_nat n <= Py.len avg ->
  Extrema.invariant smothed avg k st ->
  exists st',
    foldM (Signal.local_min_max_step smothed avg) (seqZ k (Z.of_nat n)) st
      = Ok st'.
Proof.
  induction n as [|n IH]; intros k st Hk Hs Ha Hinv; [simpl; eauto|].
  rewrite seqZ_cons by lia. cbn [foldM].
  destruct (local_min_max_step_total smothed avg k st) as (st1 & Hstep);
    [lia|lia|done|].
  rewrite Hstep. cbn [bind].
  replace (Z.pred (Z.of_nat (S n))) with (Z.of_nat n) by lia.
  apply IH; [lia|lia|lia|].
  replace (Z.succ k) with (k + 1) by lia.
  by eapply local_min_max_step_invariant.
Qed.

(** With the default filter length 3 and an averaging window of at least
    one sample, [get_local_min_max_points] raises nothing, whatever the
    signal: the smoothed signal is as long as the signal and the average is
    never shorter. *)
Theorem get_local_min_max_points_total (self : Signal.t) (signal : list Q) :
  1 <= Signal.avg_window self ->
  exists r, Signal.get_local_min_max_points self signal 3 = Ok r.
Proof.
  intros Hw. unfold Signal.get_local_min_max_points.
  destruct (moving_average_total signal (Signal.avg_window self) Hw)
    as (avg & -> & Havg).
  destruct (moving_average_shape signal 3) as (smoothed & -> & Hlen & _); [lia|].
  cbn [bind].
  assert (Hsm : length smoothed = length signal).
  { apply Hlen. unfold Py.len. lia. }
  destruct (local_min_max_loop_total smoothed avg (length smoothed) 0 ([], -1, -1))
    as (st & Hst).
  - lia.
  - unfold Py.len. lia.
  - unfold Py.len. lia.
  - split; [constructor|]. split; [constructor|].
    exists 0. split; [lia|]. split; [constructor|]. by left.
  - unfold Py.range, Py.len. rewrite Hst. cbn [bind]. eauto.
Qed.

Lemma get_local_min_max_points_total_witness :
  exists r,
    Signal.get_local_min_max_points (Signal.init 30)
      (inject_Z <$> [0; 0; 0; 0; 9; 9; 9; 9]) 3 = Ok r.
Proof.
  apply (get_local_min_max_points_total (Signal.init 30)).
  vm_compute. discriminate.
Defined.

(** ** [decimate] *)

(** One turn of the loop of [decimate] keeps every point it was given. *)
Lemma decimate_step_keeps (self : Signal.t) (signal : list Q)
    (decimated d' : list Z) (algo : Signal.AdditionalPointAlgorithm) :
  Signal.decimate_step self signal decimated algo = Ok d' ->
  decimated ⊆+ d'.
Proof.
  unfold Signal.decimate_step. intros H.
  apply bind_Ok in H as ([additional d1] & Hadd & H).
  assert (Hd1 : d1 ≡ₚ decimated).
  { destruct algo.
    - apply bind_Ok in Hadd as (a & _ & [= _ <-]). done.
    - unfold Signal.get_edge_points in Hadd.
      rewrite lookup_total_insert_eq in Hadd.
      destruct (Py.len decimated <? 2).
      + cbn [bind] in Hadd. injection Hadd as _ <-.
        by rewrite lookup_total_insert_eq.
      + apply bind_Ok in Hadd as (a & _ & [= _ <-]).
        rewrite lookup_total_insert_eq. apply merge_sort_Permutation. }
  destruct (0 <? Py.len additional).
  - apply merge_points_Ok in H as (_ & Hsub & _). by rewrite <- Hd1.
  - injection H as <-. by rewrite Hd1.
Qed.

(** [decimate] never drops a base point: whatever additional algorithms
    run, every point found by the base algorithm is in the result, as often
    as the base algorithm found it. *)
Theorem decimate_keeps_base (self : Signal.t) (signal : list Q)
    (base_point_algorithm : Signal.BasePointAlgorithm)
    (additional_points_algorithms : list Signal.AdditionalPointAlgorithm)
    (r : list Z) :
  Signal.decimate self signal base_point_algorithm additional_points_algorithms
    = Ok r ->
  exists base,
    Signal.decimate_base self signal base_point_algorithm = Ok base
    /\ base ⊆+ r
    /\ (forall b, b ∈ base -> b ∈ r).
Proof.
  unfold Signal.decimate. intros H. apply bind_Ok in H as (base & Hbase & H).
  exists base. split; [done|].
  assert (Hsub : base ⊆+ r).
  { clear Hbase. revert base H.
    induction additional_points_algorithms as [|algo algos IH]; intros base; simpl.
    - by intros [= <-].
    - intros H. apply bind_Ok in H as (d' & Hstep & H).
      etrans; [by eapply decimate_step_keeps|by apply IH]. }
  split; [done|]. intros b Hb. by eapply elem_of_submseteq.
Qed.

Lemma decimate_keeps_base_witness :
  let s := inject_Z <$> [0; 1; 2; 3; 2; 1; 0; 1; 2; 3; 2; 1; 0] in
  exists base,
    Signal.decimate_base (Signal.init 30) s Signal.direction_changes = Ok base
    /\ base ⊆+ [3; 6]
    /\ (forall b, b ∈ base -> b ∈ [3; 6]).
Proof.
  intros s.
  refine (decimate_keeps_base (Signal.init 30) s Signal.direction_changes
            [Signal.distance_minimization; Signal.high_second_derivative]
            [3; 6] _).
  vm_compute. reflexivity.
Defined.

(** [decimate] fails when the base algorithm finds nothing and the
    high-second-derivative algorithm finds something: the candidates are
    handed to [merge_points] with an empty list of base points, which
    raises [IndexError]. *)
Theorem decimate_empty_base_raises (self : Signal.t) (signal : list Q)
    (base_point_algorithm : Signal.BasePointAlgorithm)
    (algos : list Signal.AdditionalPointAlgorithm) (e : Z) (E : list Z) :
  Signal.decimate_base self signal base_point_algorithm = Ok [] ->
  Signal.get_high_second_derivative_points self signal
    (Signal.high_second_derivative_points_threshold (Signal.params self))
    = Ok (e :: E) ->
  Signal.decimate self signal base_point_algorithm
    (Signal.high_second_derivative :: algos) = Raise IndexError.
Proof.
  intros Hbase Hhsd. unfold Signal.decimate. rewrite Hbase. cbn [bind foldM].
  unfold Signal.decimate_step. rewrite Hhsd. cbn [bind].
  replace (0 <? Py.len (e :: E)) with true
    by (symmetry; apply Z.ltb_lt; unfold Py.len; simpl; lia).
  reflexivity.
Qed.

(** A ramp that starts after a rest: no direction change, one kink. *)
Lemma decimate_empty_base_raises_witness :
  Signal.decimate (Signal.init 30)
    (inject_Z <$> [0; 0; 0; 0; 0; 0; 1; 2; 3; 4]) Signal.direction_changes
    [Signal.high_second_derivative] = Raise IndexError.
Proof.
  refine (decimate_empty_base_raises (Signal.init 30)
            (inject_Z <$> [0; 0; 0; 0; 0; 0; 1; 2; 3; 4])
            Signal.direction_changes [] 4 [] _ _).
  - vm_compute. reflexivity.
  - vm_compute. reflexivity.
Defined.

(** ** [append_interpolated_bbox] *)

(** The boxes added by the loop of [append_interpolated_bbox]: [n] boxes
    for the steps [i, ..., i + n - 1], each interpolated between the box
    appended just before it and the new box. *)
Lemma interpolation_loop (bbox_new : FunscriptGenerator.bbox) (target : string)
    (n : nat) :
  forall (i : Z) (self : FunscriptGenerator.t)
         (boxes : list FunscriptGenerator.bbox),
  FunscriptGenerator.bboxes self !! target = Some boxes ->
  boxes <> [] ->
  exists self' added,
    foldM (FunscriptGenerator.interpolation_step bbox_new target)
          (seqZ i (Z.of_nat n)) self = Ok self'
    /\ FunscriptGenerator.params self' = FunscriptGenerator.params self
    /\ FunscriptGenerator.tracking_fps self' = FunscriptGenerator.tracking_fps self
    /\ FunscriptGenerator.score self' = FunscriptGenerator.score self
    /\ FunscriptGenerator.bboxes self'
       = <[target := boxes ++ added]> (FunscriptGenerator.bboxes self)
    /\ length added = n
    /\ (forall (j : nat) prev cur,
          (boxes ++ added) !! (length boxes - 1 + j)%nat = Some prev ->
          added !! j = Some cur ->
          cur = FunscriptGenerator.interpolate_bbox
                  (FunscriptGenerator.skip_frames (FunscriptGenerator.params self))
                  (i + Z.of_nat j) prev bbox_new).
Proof.
  induction n as [|n IH]; intros i self boxes Hb Hne.
  - exists self, []. simpl. rewrite app_nil_r.
    split; [done|]. split; [done|]. split; [done|]. split; [done|].
    split; [by rewrite insert_id|]. split; [done|].
    intros j ? ? _ Hj. by destruct j.
  - rewrite seqZ_cons by lia. cbn [foldM].
    unfold FunscriptGenerator.interpolation_step at 1. unfold dict_get.
    rewrite Hb. cbn [bind].
    destruct (getitem_negative boxes (-1)) as (last & -> & Hlast).
    { destruct boxes; [done|]. unfold Py.len. simpl. lia. }
    cbn [bind].
    set (b := FunscriptGenerator.interpolate_bbox _ i last bbox_new).
    set (self1 := FunscriptGenerator.set_bboxes self _).
    replace (Z.pred (Z.of_nat (S n))) with (Z.of_nat n) by lia.
    destruct (IH (Z.succ i) self1 (boxes ++ [b]))
      as (self' & added & Hrun & Hp & Hf & Hsc & Hbb & Hlen & Hrec).
    { subst self1. simpl. by rewrite lookup_insert_eq. }
    { by destruct boxes. }
    exists self', (b :: added). split; [exact Hrun|].
    split; [by rewrite Hp|]. split; [by rewrite Hf|]. split; [by rewrite Hsc|].
    split; [|split].
    + rewrite Hbb. subst self1. simpl. rewrite insert_insert_eq.
      by rewrite <- app_assoc.
    + simpl. by rewrite Hlen.
    + intros j prev cur Hprev Hcur.
      assert (Hlb : (0 < length boxes)%nat) by (destruct boxes; [done|simpl; lia]).
      destruct j as [|j].
      * simpl in Hcur. injection Hcur as <-.
        rewrite Nat.add_0_r, lookup_app_l in Hprev by lia.
        replace (Z.to_nat (-1 + Py.len boxes)) with (length boxes - 1)%nat
          in Hlast by (unfold Py.len; lia).
        rewrite Hprev in Hlast. injection Hlast as ->.
        subst b. by rewrite Z.add_0_r.
      * simpl in Hcur.
        replace (i + Z.of_nat (S j)) with (Z.succ i + Z.of_nat j) by lia.
        replace (FunscriptGenerator.skip_frames (FunscriptGenerator.params self))
          with (FunscriptGenerator.skip_frames (FunscriptGenerator.params self1))
          by done.
        eapply Hrec; [|exact Hcur].
        rewrite <- Hprev. rewrite <- app_assoc. simpl.
        f_equal. rewrite length_app. simpl. lia.
Qed.



Lemma interp_inside (i k : Z) (a b : Q) :
  0 < i < k + 1 ->
  (Np.interp (inject_Z i) 0 (inject_Z (k + 1)) a b
   == a + (b - a) * inject_Z i / inject_Z (k + 1))%Q.
Proof.
  intros Hi. unfold Np.interp.
  assert (H0 : Qle_bool (inject_Z i) 0 = false).
  { destruct (Qle_bool (inject_Z i) 0) eqn:E; [|done].
    apply Qle_bool_iff in E. unfold Qle in E. simpl in E. lia. }
  assert (H1 : Qle_bool (inject_Z (k + 1)) (inject_Z i) = false).
  { destruct (Qle_bool (inject_Z (k + 1)) (inject_Z i)) eqn:E; [|done].
    apply Qle_bool_iff in E. unfold Qle in E. simpl in E. lia. }
  rewrite H0, H1. field.
  intros Hz. unfold Qeq in Hz. simpl in Hz. lia.
Qed.

(** The interpolated boxes do not lie on the straight line from the old
    tail to the new box once two or more frames are skipped. For
    [skip_frames = k >= 2] the second box added after the old tail [last]
    has its [x] at [last.x + (new.x - last.x) * (3k + 1) / (k + 1)^2],
    because it is interpolated from the first added box; the straight line
    would give the factor [2 / (k + 1)], and the two differ whenever the
    target moved in [x]. *)
Theorem append_interpolated_bbox_second_box (self : FunscriptGenerator.t)
    (bbox_new last : FunscriptGenerator.bbox) (target : string)
    (front : list FunscriptGenerator.bbox) :
  let k := FunscriptGenerator.skip_frames (FunscriptGenerator.params self) in
  let a := FunscriptGenerator.item0 last in
  let b := FunscriptGenerator.item0 bbox_new in
  2 <= k ->
  FunscriptGenerator.bboxes self !! target = Some (front ++ [last]) ->
  exists self' trajectory second,
    FunscriptGenerator.append_interpolated_bbox self bbox_new target = Ok self'
    /\ FunscriptGenerator.bboxes self' !! target = Some trajectory
    /\ trajectory !! (length front + 2)%nat = Some second
    /\ (FunscriptGenerator.item0 second
        == a + (b - a) * inject_Z (3 * k + 1) / (inject_Z (k + 1) * inject_Z (k + 1)))%Q
    /\ (~ (a == b)%Q ->
        ~ (FunscriptGenerator.item0 second
           == a + (b - a) * 2 / inject_Z (k + 1))%Q).
Proof.
  intros k a b Hk Hb. unfold FunscriptGenerator.append_interpolated_bbox.
  fold k. unfold dict_get at 1. rewrite Hb.
  destruct (Z.ltb_spec 0 k); [|lia]. cbn [bind].
  assert (Hl : Py.len (front ++ [last]) = Z.of_nat (length front) + 1)
    by (unfold Py.len; rewrite length_app; simpl; lia).
  destruct (Z.ltb_spec 0 (Py.len (front ++ [last]))); [|lia].
  destruct (interpolation_loop bbox_new target (Z.to_nat k) 1 self
              (front ++ [last]) Hb)
    as (self1 & added & Hrun & Hp & Hf & Hsc & Hbb & Hlen & Hrec).
  { by destruct front. }
  unfold Py.range2. replace (k + 1 - 1) with (Z.of_nat (Z.to_nat k)) by lia.
  rewrite Hrun. cbn beta iota delta [bind]. unfold dict_get.
  assert (Hlk : FunscriptGenerator.bboxes self1 !! target
                = Some ((front ++ [last]) ++ added))
    by (rewrite Hbb; apply lookup_insert_eq).
  rewrite Hlk. cbn [bind].
  destruct added as [|b1 [|b2 added]]; [simpl in Hlen; lia|simpl in Hlen; lia|].
  fold k in Hrec.
  assert (H1 : b1 = FunscriptGenerator.interpolate_bbox k 1 last bbox_new).
  { apply (Hrec 0%nat last b1); [|done].
    rewrite length_app. simpl.
    replace (length front + 1 - 1 + 0)%nat with (length front) by lia.
    rewrite <- app_assoc. rewrite lookup_app_r by lia.
    by rewrite Nat.sub_diag. }
  assert (H2 : b2 = FunscriptGenerator.interpolate_bbox k 2 b1 bbox_new).
  { apply (Hrec 1%nat b1 b2); [|done].
    rewrite length_app. simpl.
    replace (length front + 1 - 1 + 1)%nat with (S (length front)) by lia.
    rewrite <- app_assoc. rewrite lookup_app_r by lia.
    by replace (S (length front) - length front)%nat with 1%nat by lia. }
  eexists _, _, b2. split; [reflexivity|]. simpl.
  split; [apply lookup_insert_eq|]. split.
  { rewrite <- !app_assoc. rewrite lookup_app_r by lia.
    by replace (length front + 2 - length front)%nat with 2%nat by lia. }
  assert (Hkk : (inject_Z (3 * k + 1) == 3 * inject_Z (k + 1) - 2)%Q).
  { rewrite !inject_Z_plus, !inject_Z_mult. simpl (inject_Z 1).
    simpl (inject_Z 3). ring. }
  assert (Hge : (3 <= inject_Z (k + 1))%Q).
  { unfold Qle. simpl. lia. }
  assert (Hx2 : (FunscriptGenerator.item0 b2
                 == a + (b - a) * inject_Z (3 * k + 1)
                        / (inject_Z (k + 1) * inject_Z (k + 1)))%Q).
  { rewrite H2, H1. subst a b.
    destruct last as [[[lx ly] lw] lh]. destruct bbox_new as [[[x y] w] h].
    simpl. rewrite (interp_inside 2 k) by lia.
    rewrite (interp_inside 1 k) by lia. rewrite Hkk.
    change (inject_Z 1) with 1%Q. change (inject_Z 2) with 2%Q.
    field. lra. }
  split; [exact Hx2|].
  intros Hab Hline. apply Hab. rewrite Hx2 in Hline.
  set (K := inject_Z (k + 1)) in *.
  assert (Heq : ((b - a) * (inject_Z (3 * k + 1) - 2 * K) == 0)%Q).
  { assert (HK : ~ (K == 0)%Q) by lra.
    assert (H1' : ((b - a) * inject_Z (3 * k + 1) / (K * K) * (K * K)
                   == (b - a) * 2 / K * (K * K))%Q).
    { assert (Hd : ((b - a) * inject_Z (3 * k + 1) / (K * K)
                    == (b - a) * 2 / K)%Q) by lra.
      by rewrite Hd. }
    assert (Hl1 : ((b - a) * inject_Z (3 * k + 1) / (K * K) * (K * K)
                   == (b - a) * inject_Z (3 * k + 1))%Q) by (field; done).
    assert (Hl2 : ((b - a) * 2 / K * (K * K) == (b - a) * 2 * K)%Q)
      by (field; done).
    rewrite Hl1, Hl2 in H1'. lra. }
  rewrite Hkk in Heq.
  assert (Hfac : (0 < 3 * K - 2 - 2 * K)%Q) by lra.
  apply Qmult_integral in Heq as [Hz|Hz]; lra.
Qed.

Lemma append_interpolated_bbox_second_box_witness :
  let p := {| FunscriptGenerator.start_frame := 0;
              FunscriptGenerator.track_men := false;
              FunscriptGenerator.skip_frames := 2;
              FunscriptGenerator.direction := "y";
              FunscriptGenerator.shift_bottom_points := 0;
              FunscriptGenerator.shift_top_points := 0 |} in
  let self :=
    FunscriptGenerator.set_bboxes (FunscriptGenerator.init p)
      (<["Woman" := [(0, 0, 10, 10)%Q]]>
         (FunscriptGenerator.bboxes (FunscriptGenerator.init p))) in
  exists self' trajectory second,
    FunscriptGenerator.append_interpolated_bbox self (9, 18, 10, 10)%Q "Woman"
      = Ok self'
    /\ FunscriptGenerator.bboxes self' !! "Woman" = Some trajectory
    /\ trajectory !! (length ([] : list FunscriptGenerator.bbox) + 2)%nat
       = Some second
    /\ (FunscriptGenerator.item0 second
        == 0 + (9 - 0) * inject_Z (3 * 2 + 1)
               / (inject_Z (2 + 1) * inject_Z (2 + 1)))%Q
    /\ (~ (0 == 9)%Q ->
        ~ (FunscriptGenerator.item0 second
           == 0 + (9 - 0) * 2 / inject_Z (2 + 1))%Q).
Proof.
  intros p self.
  refine (append_interpolated_bbox_second_box self (9, 18, 10, 10)%Q
            (0, 0, 10, 10)%Q "Woman" [] _ _).
  - simpl. lia.
  - reflexivity.
Defined.

(** ** [delete_last_tracking_predictions] for every count, and the quit of
       the operator *)

(** Two trajectories of equal length stay of equal length, whatever count is
    asked for: with fewer than [num] boxes recorded both are emptied, with
    [num <= 0] nothing is removed, and otherwise both lose their last
    [num - 1] boxes. What is left is a prefix of what was there. *)
Theorem delete_last_tracking_predictions_agreement
    (self : FunscriptGenerator.t) (W M : list FunscriptGenerator.bbox)
    (num : Z) :
  FunscriptGenerator.track_men (FunscriptGenerator.params self) = true ->
  FunscriptGenerator.bboxes self !! "Woman" = Some W ->
  FunscriptGenerator.bboxes self !! "Men" = Some M ->
  length M = length W ->
  exists self' (n : nat),
    FunscriptGenerator.delete_last_tracking_predictions self num = Ok self'
    /\ FunscriptGenerator.bboxes self' !! "Woman" = Some (take n W)
    /\ FunscriptGenerator.bboxes self' !! "Men" = Some (take n M)
    /\ Z.of_nat n
       = (if Py.len W <=? num - 1 then 0
          else if num <=? 0 then Py.len W
          else Py.len W - (num - 1)).
Proof.
  intros Htm HW HM Hlen.
  destruct (Z.leb_spec (Py.len W) (num - 1)) as [Hshort|Hlong].
  - exists (FunscriptGenerator.set_bboxes self
              (<["Men" := []]> (<["Woman" := []]> (FunscriptGenerator.bboxes self)))),
           0%nat.
    unfold FunscriptGenerator.delete_last_tracking_predictions, dict_get.
    rewrite HW. cbn [bind].
    destruct (Z.leb_spec (Py.len W) (num - 1)); [|lia].
    split; [done|]. cbn [FunscriptGenerator.set_bboxes FunscriptGenerator.bboxes].
    rewrite lookup_insert_ne by done. rewrite !lookup_insert_eq.
    rewrite !take_0. split; [done|]. split; [done|].
    destruct (Z.leb_spec (Py.len W) (num - 1)); [done|lia].
  - destruct (Z.leb_spec num 0) as [Hnum|Hnum].
    + exists self, (length W).
      unfold FunscriptGenerator.delete_last_tracking_predictions, dict_get.
      rewrite HW. cbn [bind].
      destruct (Z.leb_spec (Py.len W) (num - 1)); [lia|].
      rewrite range_down_nil by lia. cbn [foldM].
      rewrite !take_ge by lia. split; [done|]. split; [done|]. split; [done|].
      destruct (Z.leb_spec (Py.len W) (num - 1)); [lia|].
      destruct (Z.leb_spec num 0); [|lia]. done.
    + destruct (delete_last_tracking_predictions_count self W M num HW HM)
        as (self' & Hrun & _ & HW' & HM'); [done|lia|].
      rewrite Htm in HM'. rewrite Hlen in HM'.
      exists self', (length W - Z.to_nat (num - 1))%nat.
      split; [done|]. split; [done|]. split; [done|].
      destruct (Z.leb_spec (Py.len W) (num - 1)); [lia|].
      destruct (Z.leb_spec num 0); [lia|].
      unfold Py.len in *. lia.
Qed.

Lemma delete_last_tracking_predictions_agreement_witness :
  let box (n : Z) : FunscriptGenerator.bbox := (inject_Z n, 0, 10, 10)%Q in
  let W := box <$> seqZ 0 4 in
  let M := box <$> seqZ 20 4 in
  let self :=
    FunscriptGenerator.set_bboxes
      (FunscriptGenerator.init
         {| FunscriptGenerator.start_frame := 0;
            FunscriptGenerator.track_men := true;
            FunscriptGenerator.skip_frames := 0;
            FunscriptGenerator.direction := "y";
            FunscriptGenerator.shift_bottom_points := 0;
            FunscriptGenerator.shift_top_points := 0 |})
      (<["Men" := M]> (<["Woman" := W]> ∅)) in
  exists self' (n : nat),
    FunscriptGenerator.delete_last_tracking_predictions self 6 = Ok self'
    /\ FunscriptGenerator.bboxes self' !! "Woman" = Some (take n W)
    /\ FunscriptGenerator.bboxes self' !! "Men" = Some (take n M)
    /\ Z.of_nat n
       = (if Py.len W <=? 6 - 1 then 0
          else if 6 <=? 0 then Py.len W
          else Py.len W - (6 - 1)).
Proof.
  intros box W M self.
  refine (delete_last_tracking_predictions_agreement self W M 6 _ _ _ _);
    reflexivity.
Defined.

Lemma sum_nonneg (l : list Q) (acc : Q) :
  (0 <= acc)%Q -> Forall (fun v => (0 <= v)%Q) l ->
  (0 <= fold_left Qplus l acc)%Q.
Proof.
  intros Hacc Hl. revert acc Hacc.
  induction Hl as [|v l Hv _ IH]; intros acc Hacc; simpl; [done|].
  apply IH. lra.
Qed.

(** When the operator stops the tracking, the count handed to
    [delete_last_tracking_predictions] is [3 * int(avg_fps + 1)], where the
    average is [1] as long as no frame rate was measured: at least [6] for
    frame rates that are not negative. From longer trajectories the loop
    removes one entry fewer than that count. *)
Theorem stop_by_user_truncation (self : FunscriptGenerator.t)
    (W M : list FunscriptGenerator.bbox) :
  let p := FunscriptGenerator.params self in
  let num := Py.int (FunscriptGenerator.get_average_tracking_fps self + 1) * 3 in
  Forall (fun v => (0 <= v)%Q) (FunscriptGenerator.tracking_fps self) ->
  FunscriptGenerator.bboxes self !! "Woman" = Some W ->
  FunscriptGenerator.bboxes self !! "Men" = Some M ->
  (FunscriptGenerator.track_men p = true -> length M = length W) ->
  num <= Py.len W ->
  3 <= num
  /\ (FunscriptGenerator.tracking_fps self = [] -> num = 6)
  /\ exists self',
       FunscriptGenerator.stop_by_user self
         = Ok (FunscriptGenerator.Break "Tracking stopped by user" self')
       /\ FunscriptGenerator.bboxes self' !! "Woman"
          = Some (take (length W - Z.to_nat (num - 1)) W)
       /\ FunscriptGenerator.bboxes self' !! "Men"
          = Some (if FunscriptGenerator.track_men p
                  then take (length M - Z.to_nat (num - 1)) M else M).
Proof.
  intros p num Hfps HW HM Hlen Hnum.
  assert (Havg : (0 <= FunscriptGenerator.get_average_tracking_fps self)%Q).
  { unfold FunscriptGenerator.get_average_tracking_fps.
    destruct (Z.ltb_spec (Py.len (FunscriptGenerator.tracking_fps self)) 1);
      [lra|].
    apply Qle_shift_div_l.
    - unfold Qlt. simpl. lia.
    - rewrite Qmult_0_l. unfold Py.sum. apply sum_nonneg; [lra|done]. }
  assert (Hint : 1 <= Py.int (FunscriptGenerator.get_average_tracking_fps self + 1)).
  { unfold Py.int.
    replace (Py.Qlt_bool (FunscriptGenerator.get_average_tracking_fps self + 1) 0)
      with false by (symmetry; apply Qlt_bool_false; lra).
    apply (Z.le_trans _ (Qfloor 1)); [done|]. apply Qfloor_resp_le. lra. }
  assert (Hnum3 : 3 <= num) by (subst num; lia).
  split; [done|]. split.
  { intros Hnil. subst num.
    unfold FunscriptGenerator.get_average_tracking_fps. rewrite Hnil.
    reflexivity. }
  destruct (delete_last_tracking_predictions_count self W M num HW HM Hlen)
    as (self' & Hdel & _ & HW' & HM'); [lia|].
  exists self'. split; [|done].
  unfold FunscriptGenerator.stop_by_user. fold num. rewrite Hdel. done.
Qed.

Lemma stop_by_user_truncation_witness :
  let box (n : Z) : FunscriptGenerator.bbox := (inject_Z n, 0, 10, 10)%Q in
  let W := box <$> seqZ 0 10 in
  let M := box <$> seqZ 20 10 in
  let self :=
    FunscriptGenerator.set_bboxes
      (FunscriptGenerator.init
         {| FunscriptGenerator.start_frame := 0;
            FunscriptGenerator.track_men := true;
            FunscriptGenerator.skip_frames := 0;
            FunscriptGenerator.direction := "y";
            FunscriptGenerator.shift_bottom_points := 0;
            FunscriptGenerator.shift_top_points := 0 |})
      (<["Men" := M]> (<["Woman" := W]> ∅)) in
  3 <= 6
  /\ (FunscriptGenerator.tracking_fps self = [] -> 6 = 6)
  /\ exists self',
       FunscriptGenerator.stop_by_user self
         = Ok (FunscriptGenerator.Break "Tracking stopped by user" self')
       /\ FunscriptGenerator.bboxes self' !! "Woman"
          = Some (take (length W - Z.to_nat (6 - 1)) W)
       /\ FunscriptGenerator.bboxes self' !! "Men"
          = Some (if true then take (length M - Z.to_nat (6 - 1)) M else M).
Proof.
  intros box W M self.
  refine (stop_by_user_truncation self W M _ _ _ _ _).
  - constructor.
  - reflexivity.
  - reflexivity.
  - reflexivity.
  - vm_compute. discriminate.
Defined.

(** ** The key press queue *)

(** Key presses beyond the capacity are dropped: after any sequence of key
    presses on an empty queue, the queue holds the first 32 keys of the
    sequence, in their order. *)
Theorem on_key_press_keeps_first (keys : list string) :
  foldl FunscriptGenerator.on_key_press [] keys
  = take FunscriptGenerator.keypress_maxsize keys
  /\ (length (foldl FunscriptGenerator.on_key_press [] keys)
      <= FunscriptGenerator.keypress_maxsize)%nat.
Proof.
  assert (Hgen : forall queue,
             (length queue <= FunscriptGenerator.keypress_maxsize)%nat ->
             foldl FunscriptGenerator.on_key_press queue keys
             = queue ++ take (FunscriptGenerator.keypress_maxsize - length queue) keys).
  { induction keys as [|k keys IH]; intros queue Hq; simpl.
    - by rewrite take_nil, app_nil_r.
    - unfold FunscriptGenerator.on_key_press at 2. case_bool_decide as Hfull.
      + rewrite IH by done.
        replace (FunscriptGenerator.keypress_maxsize - length queue)%nat
          with 0%nat by lia. done.
      + rewrite IH by (rewrite length_app; simpl; lia).
        rewrite length_app. simpl.
        destruct (FunscriptGenerator.keypress_maxsize - length queue)%nat
          as [|m] eqn:Hm; [lia|].
        replace (FunscriptGenerator.keypress_maxsize - (length queue + 1))%nat
          with m by lia.
        simpl. by rewrite <- app_assoc. }
  rewrite Hgen by (simpl; lia). cbn [app length]. rewrite Nat.sub_0_r.
  split; [done|]. rewrite length_take. apply Nat.le_min_l.
Qed.

Lemma take_until_spec (text : string) (queue : list string) :
  (text ∈ queue ->
   exists before rest,
     queue = before ++ (text :: rest) /\ (text ∉ before)
     /\ FunscriptGenerator.take_until text queue = (true, rest))
  /\ (text ∉ queue -> FunscriptGenerator.take_until text queue = (false, [])).
Proof.
  induction queue as [|k queue [IHin IHout]]; simpl.
  - split; [intros H; inversion H|done].
  - destruct (String.eqb_spec k text) as [->|Hne].
    + split.
      * intros _. exists [], queue. split; [done|]. split; [|done].
        intros H; inversion H.
      * intros Hout. exfalso. apply Hout. left.
    + split.
      * intros Hin. apply elem_of_cons in Hin as [->|Hin]; [done|].
        destruct (IHin Hin) as (before & rest & -> & Hb & Hrun).
        exists (k :: before), rest. split; [done|]. split; [|done].
        intros Hk. apply elem_of_cons in Hk as [->|Hk]; done.
      * intros Hout. apply IHout. intros Hin. apply Hout. by right.
Qed.

(** [was_key_pressed(key)] looks for the first queued key that reads as
    the first character of [key] in quotes. When there is one, the answer
    is [True] and the queue keeps exactly the keys that came after it; when
    there is none, the answer is [False] and the whole queue has been
    consumed. *)
Theorem was_key_pressed_consumes (queue : list string) (c : ascii)
    (more : string) :
  let text := String "'" (String c (String "'" EmptyString)) in
  (text ∈ queue ->
   exists before rest,
     queue = before ++ (text :: rest) /\ (text ∉ before)
     /\ FunscriptGenerator.was_key_pressed queue (Some (String c more))
        = (true, rest))
  /\ (text ∉ queue ->
      FunscriptGenerator.was_key_pressed queue (Some (String c more))
      = (false, [])).
Proof. intros text. apply take_until_spec. Qed.

Lemma was_key_pressed_consumes_witness :
  ("'q'"%string ∈ ["'a'"; "Key.space"; "'q'"; "'w'"]%string ->
   exists before rest,
     ["'a'"; "Key.space"; "'q'"; "'w'"]%string = before ++ ("'q'"%string :: rest)
     /\ ("'q'"%string ∉ before)
     /\ FunscriptGenerator.was_key_pressed
          ["'a'"; "Key.space"; "'q'"; "'w'"]%string (Some "q"%string)
        = (true, rest))
  /\ ("'q'"%string ∉ ["'a'"; "Key.space"; "'q'"; "'w'"]%string ->
      FunscriptGenerator.was_key_pressed
        ["'a'"; "Key.space"; "'q'"; "'w'"]%string (Some "q"%string)
      = (false, [])).
Proof.
  exact (was_key_pressed_consumes ["'a'"; "Key.space"; "'q'"; "'w'"]%string
           "q"%char ""%string).
Defined.

(** ** [get_score_with_offset] *)

Lemma setitem_Ok {A : Type} (l l' : list A) (i : Z) (v : A) :
  Py.setitem l i v = Ok l' ->
  exists j : nat, (j < length l)%nat /\ l' = <[j := v]> l
                  /\ (Z.of_nat j = i \/ Z.of_nat j = i + Py.len l).
Proof.
  unfold Py.setitem.
  set (j := if i <? 0 then i + Py.len l else i).
  destruct (j <? 0) eqn:Hlo; simpl; [discriminate|].
  destruct (Py.len l <=? j) eqn:Hhi; simpl; [discriminate|].
  intros [= <-]. apply Z.ltb_ge in Hlo. apply Z.leb_gt in Hhi.
  exists (Z.to_nat j). split; [unfold Py.len in Hhi; lia|]. split; [done|].
  subst j. destruct (i <? 0); lia.
Qed.

Lemma clamp_between (lo hi v : Q) :
  (lo <= hi)%Q ->
  (lo <= Py.max_from lo [Py.min_from hi [v]] <= hi)%Q.
Proof.
  intros Hle. simpl.
  destruct (Py.Qlt_bool v hi) eqn:E1.
  - apply Qlt_bool_true in E1.
    destruct (Py.Qlt_bool lo v) eqn:E2.
    + apply Qlt_bool_true in E2. lra.
    + lra.
  - destruct (Py.Qlt_bool lo hi) eqn:E2; lra.
Qed.

(** The loop over one group keeps the length of the score and its bounds,
    and writes nowhere but at the indices of the group. *)
Lemma offset_loop (lo hi offset : Q) (idxs : list Z) :
  forall score score' : list Q,
  (lo <= hi)%Q ->
  foldM (FunscriptGenerator.offset_step lo hi offset) idxs score = Ok score' ->
  Forall (fun v => (lo <= v <= hi)%Q) score ->
  length score' = length score
  /\ Forall (fun v => (lo <= v <= hi)%Q) score'
  /\ (forall j : nat,
        (forall idx, idx ∈ idxs ->
           Z.of_nat j <> idx /\ Z.of_nat j <> idx + Py.len score) ->
        score' !! j = score !! j).
Proof.
  induction idxs as [|idx idxs IH]; intros score score' Hle; simpl.
  - intros [= <-] Hb. done.
  - intros H Hb. apply bind_Ok in H as (score1 & Hstep & H).
    unfold FunscriptGenerator.offset_step in Hstep.
    apply bind_Ok in Hstep as (v & _ & Hset).
    apply setitem_Ok in Hset as (j0 & Hj0 & -> & Hidx).
    destruct (IH _ _ Hle H) as (Hlen & Hb' & Hkeep).
    { apply Forall_insert; [done|]. by apply clamp_between. }
    rewrite length_insert in Hlen. split; [done|]. split; [done|].
    intros j Hj. rewrite Hkeep.
    + apply list_lookup_insert_ne. intros ->.
      destruct (Hj idx) as [H1 H2]; [left|]. lia.
    + intros idx' Hin. unfold Py.len. rewrite length_insert.
      apply Hj. by right.
Qed.

(** For a direction other than [x], [get_score_with_offset] returns a copy
    of the [y] score that is as long as the score, never leaves the range
    [[min(score), max(score)]] of the score, and differs from the score
    only at the indices of the two groups. *)
Theorem get_score_with_offset_clamped (self : FunscriptGenerator.t)
    (bottom_points_offset top_points_offset : Q)
    (idx_dict : gmap string (list Z)) (y r : list Q) :
  FunscriptGenerator.direction (FunscriptGenerator.params self) <> "x"%string ->
  FunscriptGenerator.score self !! "y" = Some y ->
  FunscriptGenerator.get_score_with_offset self bottom_points_offset
    top_points_offset idx_dict = Ok r ->
  exists lo hi mins maxs,
    Py.min y = Ok lo /\ Py.max y = Ok hi
    /\ idx_dict !! "min" = Some mins /\ idx_dict !! "max" = Some maxs
    /\ length r = length y
    /\ Forall (fun v => (lo <= v <= hi)%Q) r
    /\ (forall j : nat,
          (forall idx, idx ∈ mins ++ maxs ->
             Z.of_nat j <> idx /\ Z.of_nat j <> idx + Py.len y) ->
          r !! j = y !! j).
Proof.
  intros Hd Hy. unfold FunscriptGenerator.get_score_with_offset, dict_get.
  destruct (String.eqb_spec
              (FunscriptGenerator.direction (FunscriptGenerator.params self)) "x");
    [done|].
  rewrite Hy. cbn [bind]. intros H.
  apply bind_Ok in H as (lo & Hlo & H). apply bind_Ok in H as (hi & Hhi & H).
  destruct (idx_dict !! "min") as [mins|] eqn:Hmins; [|discriminate].
  cbn [bind] in H. apply bind_Ok in H as (y1 & Hloop1 & H).
  destruct (idx_dict !! "max") as [maxs|] eqn:Hmaxs; [|discriminate].
  cbn [bind] in H.
  pose proof (min_Ok _ _ Hlo) as Hmin. pose proof (max_Ok _ _ Hhi) as Hmax.
  assert (Hle : (lo <= hi)%Q).
  { rewrite Forall_forall in Hmin. apply Hmin. by eapply max_elem. }
  assert (Hy0 : Forall (fun v => (lo <= v <= hi)%Q) y).
  { rewrite Forall_forall in Hmin, Hmax |- *. intros v Hv.
    split; [by apply Hmin|by apply Hmax]. }
  destruct (offset_loop _ _ _ _ _ _ Hle Hloop1 Hy0) as (Hlen1 & Hb1 & Hkeep1).
  destruct (offset_loop _ _ _ _ _ _ Hle H Hb1) as (Hlen2 & Hb2 & Hkeep2).
  exists lo, hi, mins, maxs. split; [done|]. split; [done|].
  split; [done|]. split; [done|]. split; [congruence|]. split; [done|].
  intros j Hj. rewrite Hkeep2.
  - apply Hkeep1. intros idx Hin. apply Hj. apply elem_of_app. by left.
  - intros idx Hin. unfold Py.len. rewrite Hlen1. apply Hj.
    apply elem_of_app. by right.
Qed.

Lemma get_score_with_offset_clamped_witness :
  let p := {| FunscriptGenerator.start_frame := 0;
              FunscriptGenerator.track_men := true;
              FunscriptGenerator.skip_frames := 0;
              FunscriptGenerator.direction := "y";
              FunscriptGenerator.shift_bottom_points := 0;
              FunscriptGenerator.shift_top_points := 0 |} in
  let y := [10; 50; 90; 40; 20]%Q in
  let self :=
    FunscriptGenerator.set_score (FunscriptGenerator.init p)
      (<["y" := y]> (FunscriptGenerator.score (FunscriptGenerator.init p))) in
  let idx_dict : gmap string (list Z) := <["min" := [0; 4]]> (<["max" := [2]]> ∅) in
  exists lo hi mins maxs,
    Py.min y = Ok lo /\ Py.max y = Ok hi
    /\ idx_dict !! "min" = Some mins /\ idx_dict !! "max" = Some maxs
    /\ length [10; 50; 90; 40; 15]%Q = length y
    /\ Forall (fun v => (lo <= v <= hi)%Q) [10; 50; 90; 40; 15]%Q
    /\ (forall j : nat,
          (forall idx, idx ∈ mins ++ maxs ->
             Z.of_nat j <> idx /\ Z.of_nat j <> idx + Py.len y) ->
          [10; 50; 90; 40; 15]%Q !! j = y !! j).
Proof.
  intros p y self idx_dict.
  refine (get_score_with_offset_clamped self (-5) 5 idx_dict y
            [10; 50; 90; 40; 15]%Q _ _ _).
  - discriminate.
  - reflexivity.
  - vm_compute. reflexivity.
Defined.

(** ** [get_edge_points]: where the edge points lie *)

Lemma index_from_bound {A : Type} (eqb : A -> A -> bool) (l : list A) (v : A)
    (k0 k : Z) :
  Py.index_from eqb l v k0 = Ok k -> k0 <= k < k0 + Py.len l.
Proof.
  revert k0. induction l as [|a l IH]; intros k0; simpl; [discriminate|].
  unfold Py.len. simpl length.
  destruct (eqb a v).
  - intros [= <-]. lia.
  - intros H. apply IH in H. unfold Py.len in H. lia.
Qed.

(** One turn of the loop adds at most one point, inside the segment between
    the two base points of the turn. *)
Lemma edge_points_step_Ok (signal : list Q) (base : list Z) (threshold : Q)
    (ep ep' : list Z) (o o' : Np.float64) (i : Z) :
  Signal.edge_points_step signal base threshold (ep, o) i = Ok (ep', o') ->
  ep' = ep
  \/ exists a b e, Py.getitem base i = Ok a /\ Py.getitem base (i + 1) = Ok b
                   /\ a <= e < b /\ ep' = ep ++ [e].
Proof.
  unfold Signal.edge_points_step. intros H.
  apply bind_Ok in H as (a & Ha & H). apply bind_Ok in H as (sa & _ & H).
  apply bind_Ok in H as (b & Hb & H). apply bind_Ok in H as (sb & _ & H).
  apply bind_Ok in H as (distances & Hd & H).
  apply bind_Ok in H as (mx & _ & H).
  destruct (Np.flt (Np.Fin threshold) mx).
  - apply bind_Ok in H as (k & Hk & [= <- _]). right.
    exists a, b, (a + k). split; [done|]. split; [done|]. split; [|done].
    apply index_from_bound in Hk. apply mapM_length in Hd.
    unfold Py.len in Hk. rewrite Hd in Hk.
    unfold Py.range2 in Hk. rewrite length_seqZ in Hk. lia.
  - injection H as <- _. by left.
Qed.

Lemma edge_points_loop (signal : list Q) (base : list Z) (threshold : Q)
    (idxs : list Z) :
  forall (ep ep' : list Z) (o o' : Np.float64),
  foldM (Signal.edge_points_step signal base threshold) idxs (ep, o)
    = Ok (ep', o') ->
  exists added,
    ep' = ep ++ added
    /\ (length added <= length idxs)%nat
    /\ Forall (fun e => exists a b, a ∈ base /\ b ∈ base /\ a <= e < b) added.
Proof.
  induction idxs as [|i idxs IH]; intros ep ep' o o'; simpl.
  - intros [= <- <-]. exists []. by rewrite app_nil_r.
  - intros H. apply bind_Ok in H as ([ep1 o1] & Hstep & H).
    destruct (IH _ _ _ _ H) as (added & -> & Hlen & Hall).
    apply edge_points_step_Ok in Hstep
      as [->|(a & b & e & Ha & Hb & He & ->)].
    + exists added. split; [done|]. split; [lia|done].
    + exists (e :: added). split; [by rewrite <- app_assoc|].
      split; [simpl; lia|]. constructor; [|done].
      exists a, b. split; [by eapply getitem_elem_of|].
      split; [by eapply getitem_elem_of|done].
Qed.

(** Every edge point returned by [get_edge_points] lies between two of the
    base points, at or after the first and strictly before the second; and
    there is at most one edge point per pair of neighbouring base points. *)
Theorem get_edge_points_between (self : Signal.t) (signal : list Q)
    (base_points : Signal.loc) (threshold : Q) (h h' : Signal.heap)
    (l r : list Z) :
  h !! base_points = Some l ->
  Signal.get_edge_points self signal base_points threshold h = (Ok r, h') ->
  (length r <= length l - 1)%nat
  /\ Forall (fun e => exists a b, a ∈ l /\ b ∈ l /\ a <= e < b) r.
Proof.
  intros Hl. unfold Signal.get_edge_points.
  rewrite (lookup_total_correct _ _ _ Hl).
  destruct (Py.len l <? 2).
  - intros [= <- _]. split; [simpl; lia|constructor].
  - intros [= Hrun _].
    apply bind_Ok in Hrun as ([ep o] & Hloop & [= <-]).
    apply edge_points_loop in Hloop as (added & -> & Hlen & Hall).
    pose proof (merge_sort_Permutation Z.le l) as Hp.
    simpl. split.
    + unfold Py.range in Hlen. rewrite length_seqZ in Hlen.
      unfold Py.len in Hlen. rewrite Hp in Hlen. lia.
    + eapply Forall_impl; [exact Hall|]. simpl.
      intros e (a & b & Ha & Hb & He). exists a, b.
      rewrite Hp in Ha, Hb. done.
Qed.

Lemma get_edge_points_between_witness :
  (length [3] <= length [9; 0; 4] - 1)%nat
  /\ Forall (fun e => exists a b, a ∈ [9; 0; 4] /\ b ∈ [9; 0; 4] /\ a <= e < b)
            [3].
Proof.
  refine (get_edge_points_between (Signal.init 30)
            (inject_Z <$> [0; 10; 0; 50; 3; 4; 5; 6; 7; 8; 9; 10; 11])
            1%positive 20 (<[1%positive := [9; 0; 4]]> ∅)
            (<[1%positive := [0; 4; 9]]> ∅) [9; 0; 4] [3] _ _).
  - reflexivity.
  - vm_compute. reflexivity.
Defined.

(** ** [get_edge_points]: a base point given twice *)

Lemma mapM_is_Ok {A B : Type} (f : A -> result B) (l : list A) :
  Forall (fun a => exists b, f a = Ok b) l -> exists r, mapM f l = Ok r.
Proof.
  induction 1 as [|a l [b Hb] _ [r Hr]]; simpl; [eauto|].
  rewrite Hb. simpl. rewrite Hr. simpl. eauto.
Qed.

Lemma fmax_from_elem (m : Np.float64) (l : list Np.float64) :
  Np.fmax_from m l = m \/ Np.fmax_from m l ∈ l.
Proof.
  revert m. induction l as [|a l IH]; intros m; simpl; [by left|].
  destruct (IH (if Np.flt m a then a else m)) as [->|H].
  - destruct (Np.flt m a); [right; constructor|by left].
  - right. by constructor.
Qed.

Lemma index_from_found (l : list Np.float64) (v : Np.float64) (k0 : Z) :
  v ∈ l -> Np.feq v v = true -> exists k, Py.index_from Np.feq l v k0 = Ok k.
Proof.
  intros Hin Hv. revert k0.
  induction l as [|a l IH]; intros k0; [by apply elem_of_nil in Hin|].
  simpl. destruct (Np.feq a v) eqn:E; [eauto|].
  apply elem_of_cons in Hin as [->|Hin]; [congruence|]. by apply IH.
Qed.

Lemma flt_feq (t : Q) (m : Np.float64) :
  Np.flt (Np.Fin t) m = true -> Np.feq m m = true.
Proof.
  destruct m as [y| | |]; simpl; try done.
  intros _. apply Qeq_bool_iff. reflexivity.
Qed.

(** Two neighbours of a sorted list with a repeated element are equal. *)
Lemma sorted_dup_adjacent (l : list Z) :
  StronglySorted Z.le l -> ~ NoDup l ->
  exists (i : nat) (a : Z), l !! i = Some a /\ l !! S i = Some a.
Proof.
  induction 1 as [|x l Hs IH Hx]; intros Hnd.
  - destruct Hnd. constructor.
  - destruct (decide (NoDup l)) as [Hl|Hl].
    + assert (Hin : x ∈ l).
      { destruct (decide (x ∈ l)) as [|Hn]; [done|].
        destruct Hnd. by constructor. }
      destruct l as [|y l']; [by apply elem_of_nil in Hin|].
      exists 0%nat, x. split; [done|]. simpl. f_equal.
      apply elem_of_cons in Hin as [->|Hin]; [done|].
      apply StronglySorted_inv in Hs as [_ Hy].
      rewrite Forall_forall in Hy. specialize (Hy _ Hin).
      apply Forall_inv in Hx. lia.
    + destruct (IH Hl) as (i & a & H1 & H2). by exists (S i), a.
Qed.

(** A turn between two different base points completes. *)
Lemma edge_points_step_lt (signal : list Q) (base : list Z) (threshold : Q)
    (st : list Z * Np.float64) (i a b : Z) :
  Py.getitem base i = Ok a -> Py.getitem base (i + 1) = Ok b ->
  a < b -> Py.valid_index signal a -> Py.valid_index signal b ->
  exists st', Signal.edge_points_step signal base threshold st i = Ok st'.
Proof.
  intros Ha Hb Hab Hva Hvb. destruct st as [ep o].
  unfold Signal.edge_points_step. rewrite Ha. cbn [bind].
  destruct (getitem_valid signal a Hva) as [sa ->]. cbn [bind].
  rewrite Hb. cbn [bind].
  destruct (getitem_valid signal b Hvb) as [sb ->]. cbn [bind].
  match goal with |- context [mapM ?f ?l] =>
    destruct (mapM_is_Ok f l) as [distances Hd] end.
  { apply Forall_forall. intros j Hj.
    unfold Py.range2 in Hj. apply elem_of_seqZ in Hj.
    unfold Signal.scale_index, Py.truediv.
    destruct (Qeq_bool (inject_Z (b - a)) 0) eqn:E.
    - apply Qeq_bool_iff in E. unfold Qeq in E. simpl in E. lia.
    - cbn [bind]. destruct (getitem_valid signal j) as [sj ->].
      + unfold Py.valid_index in *. lia.
      + cbn [bind]. eauto. }
  rewrite Hd. cbn [bind].
  destruct distances as [|d ds].
  { apply mapM_length in Hd. unfold Py.range2 in Hd.
    rewrite length_seqZ in Hd. simpl in Hd. lia. }
  cbn [Np.fmax bind].
  destruct (Np.flt (Np.Fin threshold) (Np.fmax_from d ds)) eqn:E; [|eauto].
  destruct (index_from_found (d :: ds) (Np.fmax_from d ds) 0) as [k ->].
  - destruct (fmax_from_elem d ds) as [->|H]; [constructor|by constructor].
  - by eapply flt_feq.
  - cbn [bind]. eauto.
Qed.

(** A turn between two equal base points fails in [max]. *)
Lemma edge_points_step_eq (signal : list Q) (base : list Z) (threshold : Q)
    (st : list Z * Np.float64) (i a : Z) :
  Py.getitem base i = Ok a -> Py.getitem base (i + 1) = Ok a ->
  Py.valid_index signal a ->
  Signal.edge_points_step signal base threshold st i = Raise ValueError.
Proof.
  intros Ha Hb Hva. destruct st as [ep o].
  unfold Signal.edge_points_step. rewrite Ha. cbn [bind].
  destruct (getitem_valid signal a Hva) as [sa Hsa]. rewrite Hsa. cbn [bind].
  rewrite Hb. cbn [bind]. rewrite Hsa. cbn [bind].
  unfold Py.range2. rewrite Z.sub_diag. reflexivity.
Qed.

Lemma edge_points_loop_duplicate (signal : list Q) (base : list Z)
    (threshold : Q) (idxs : list Z) :
  StronglySorted Z.le base ->
  Forall (Py.valid_index signal) base ->
  Forall (fun i => 0 <= i /\ i + 1 < Py.len base) idxs ->
  (exists i a, i ∈ idxs /\ Py.getitem base i = Ok a
               /\ Py.getitem base (i + 1) = Ok a) ->
  forall st,
  foldM (Signal.edge_points_step signal base threshold) idxs st
  = Raise ValueError.
Proof.
  intros Hs Hv Hidx. induction Hidx as [|i idxs [Hi0 Hi1] Hidx IH].
  - intros (i & a & Hin & _). by apply elem_of_nil in Hin.
  - intros Hdup st. simpl.
    destruct (getitem_nonneg base i) as (a & Ha & Hla); [lia|].
    destruct (getitem_nonneg base (i + 1)) as (b & Hb & Hlb); [lia|].
    assert (Hva : Py.valid_index signal a).
    { rewrite Forall_forall in Hv. apply Hv. by eapply getitem_elem_of. }
    assert (Hvb : Py.valid_index signal b).
    { rewrite Forall_forall in Hv. apply Hv. by eapply getitem_elem_of. }
    assert (Hab : a <= b).
    { eapply (sorted_lookup_le base (Z.to_nat i) (Z.to_nat (i + 1)));
        [done|lia|done|done]. }
    destruct (decide (a = b)) as [<-|Hne].
    + by rewrite (edge_points_step_eq _ _ _ _ _ _ Ha Hb Hva).
    + destruct (edge_points_step_lt signal base threshold st i a b)
        as [st' ->]; [done|done|lia|done|done|].
      cbn [bind]. apply IH.
      destruct Hdup as (i' & a' & Hin & Ha' & Hb').
      apply elem_of_cons in Hin as [->|Hin]; [congruence|eauto].
Qed.

(** When a base point is given twice and every base point is an index of
    the signal, [get_edge_points] raises [ValueError]: the segment between
    the two copies is empty, and [max] is taken of an empty list. *)
Theorem get_edge_points_duplicate (self : Signal.t) (signal : list Q)
    (base_points : Signal.loc) (threshold : Q) (h : Signal.heap)
    (l : list Z) :
  h !! base_points = Some l ->
  ~ NoDup l ->
  Forall (Py.valid_index signal) l ->
  (Signal.get_edge_points self signal base_points threshold h).1
  = Raise ValueError.
Proof.
  intros Hl Hnd Hv. unfold Signal.get_edge_points.
  rewrite (lookup_total_correct _ _ _ Hl).
  pose proof (merge_sort_Permutation Z.le l) as Hp.
  destruct (Z.ltb_spec (Py.len l) 2) as [Hlen|Hlen].
  { destruct Hnd. destruct l as [|x [|y l']]; [constructor| |].
    - apply NoDup_singleton.
    - unfold Py.len in Hlen. simpl in Hlen. lia. }
  cbn [fst].
  set (sorted := merge_sort Z.le l) in *.
  assert (Hs : StronglySorted Z.le sorted).
  { apply StronglySorted_merge_sort; apply _. }
  destruct (sorted_dup_adjacent sorted Hs) as (i & a & H1 & H2).
  { by rewrite Hp. }
  assert (Hi : (S i < length sorted)%nat) by (by eapply lookup_lt_Some).
  rewrite edge_points_loop_duplicate; [done|done| | |].
  - by rewrite Hp.
  - apply Forall_forall. intros j Hj. unfold Py.range in Hj.
    apply elem_of_seqZ in Hj. lia.
  - exists (Z.of_nat i), a. split.
    + unfold Py.range. apply elem_of_seqZ. unfold Py.len. lia.
    + split.
      * destruct (getitem_nonneg sorted (Z.of_nat i)) as (x & -> & Hx).
        { unfold Py.len. lia. }
        rewrite Nat2Z.id in Hx. congruence.
      * destruct (getitem_nonneg sorted (Z.of_nat i + 1)) as (x & -> & Hx).
        { unfold Py.len. lia. }
        replace (Z.to_nat (Z.of_nat i + 1)) with (S i) in Hx by lia.
        congruence.
Qed.

Lemma get_edge_points_duplicate_witness :
  (Signal.get_edge_points (Signal.init 30)
     (inject_Z <$> [0; 10; 0; 50; 3; 4]) 1%positive 20
     (<[1%positive := [4; 0; 4]]> ∅)).1
  = Raise ValueError.
Proof.
  refine (get_edge_points_duplicate (Signal.init 30)
            (inject_Z <$> [0; 10; 0; 50; 3; 4]) 1%positive 20
            (<[1%positive := [4; 0; 4]]> ∅) [4; 0; 4] _ _ _).
  - reflexivity.
  - intros H. apply NoDup_cons in H as [H _]. apply H.
    constructor. constructor.
  - repeat constructor; unfold Py.valid_index, Py.len; simpl; lia.
Defined.

(** ** [categorize_points] on a concrete signal *)

Lemma categorize_points_total_witness :
  exists g,
    Signal.categorize_points (Signal.init 30)
      (inject_Z <$> [0; 10; 0; 50; 3; 4]) [1; 3; -1] = Ok g.
Proof.
  refine (categorize_points_total (Signal.init 30)
            (inject_Z <$> [0; 10; 0; 50; 3; 4]) [1; 3; -1] _ _).
  - vm_compute. discriminate.
  - repeat constructor; unfold Py.valid_index, Py.len; simpl; lia.
Defined.

(** ** The key press queue after [clear_keypress_queue] *)

Lemma clear_keypress_queue_nil (queue : list string) :
  FunscriptGenerator.clear_keypress_queue queue = [].
Proof. induction queue as [|k queue IH]; simpl; done. Qed.

(** Keys pressed before [clear_keypress_queue] are never reported: right
    after it neither [was_key_pressed] nor [was_space_pressed] answers
    [True], whatever had been queued and whatever key is asked for. *)
Theorem clear_keypress_queue_forgets (queue : list string)
    (key : option string) :
  let cleared := FunscriptGenerator.clear_keypress_queue queue in
  FunscriptGenerator.was_key_pressed cleared key = (false, [])
  /\ FunscriptGenerator.was_space_pressed cleared = (false, []).
Proof.
  intros cleared. subst cleared. rewrite clear_keypress_queue_nil.
  split; [|done]. by destruct key as [[|c more]|].
Qed.
